(** * Envelope encryption demo: [scripts/crypto_encrypt.py] and
      [scripts/crypto_decrypt.py]

    A shallow embedding of the two scripts.  Python [bytes] are [list byte],
    Python [str] is a list of code points, the parsed JSON document is a
    tree, and the two [main] functions run in a small state-and-exception
    monad over a [world] that holds the console, the two files, the entropy
    source and a log of every call into the cryptographic runtime.

    The cryptographic runtime itself ([hashlib.scrypt] and the AEAD classes
    of the [cryptography] package) is not code of the repository: it is a
    record of functions, and each theorem names the laws it needs from it. *)

From Stdlib Require Import String Ascii Strings.Byte NArith ZArith Bool Lia List.
From Stdlib Require Import DecimalString.
Import ListNotations.

Set Implicit Arguments.
Set Warnings "-register-all".

(* ================================================================== *)
(** * Python values *)
(* ================================================================== *)

(** [bytes] *)
Definition bytes := list byte.

(** [str]: a sequence of code points. *)
Definition pystr := list N.

(** A literal of the source text. *)
Definition py (s : string) : pystr :=
  map N_of_ascii (list_ascii_of_string s).

Definition byte_of (n : N) : byte :=
  match Byte.of_N n with
  | Some b => b
  | None => x00
  end.

Fixpoint pystr_eqb (s t : pystr) : bool :=
  match s, t with
  | [], [] => true
  | a :: s', b :: t' => (a =? b)%N && pystr_eqb s' t'
  | _, _ => false
  end.

Fixpoint bytes_eqb (s t : bytes) : bool :=
  match s, t with
  | [], [] => true
  | a :: s', b :: t' => Byte.eqb a b && bytes_eqb s' t'
  | _, _ => false
  end.

(** A parsed JSON document, as [json.load] returns it and [json.dump] takes
    it: [None], [bool], [int], [str], [list] and [dict] with [str] keys, the
    items of a [dict] in insertion order.  Numbers with a fraction or an
    exponent are left out of the model. *)
Inductive json : Type :=
| JNull
| JBool (b : bool)
| JInt (z : Z)
| JStr (s : pystr)
| JList (l : list json)
| JDict (items : list (pystr * json)).

(** The exceptions the two scripts can meet.  [RuntimeError] carries its
    message. *)
Inductive exn : Type :=
| KeyError (key : pystr)
| TypeError
| AttributeError
| ValueError
| UnicodeEncodeError
| UnicodeDecodeError
| BinasciiError
| FileNotFoundError
| ImportError
| InvalidTag
| RuntimeError (msg : pystr).

(** The result of an expression: a value or a raised exception. *)
Inductive res (A : Type) : Type :=
| Ok (a : A)
| Raise (e : exn).
Arguments Ok {A} a.
Arguments Raise {A} e.

Definition res_bind {A B} (r : res A) (k : A -> res B) : res B :=
  match r with
  | Ok a => k a
  | Raise e => Raise e
  end.

(* ================================================================== *)
(** * Text codecs of the Python runtime *)
(* ================================================================== *)

(** ** ASCII: [str.encode("ascii")] and [bytes.decode("ascii")] *)

Fixpoint ascii_encode (s : pystr) : res bytes :=
  match s with
  | [] => Ok []
  | c :: s' =>
      if (c <? 128)%N
      then res_bind (ascii_encode s') (fun bs => Ok (byte_of c :: bs))
      else Raise UnicodeEncodeError
  end.

Fixpoint ascii_decode (bs : bytes) : res pystr :=
  match bs with
  | [] => Ok []
  | b :: bs' =>
      if (Byte.to_N b <? 128)%N
      then res_bind (ascii_decode bs') (fun s => Ok (Byte.to_N b :: s))
      else Raise UnicodeDecodeError
  end.

(** ** Base64: [base64.b64encode] and [base64.b64decode] *)

(** The alphabet of RFC 4648: the character of a sextet. *)
Definition b64_char (s : N) : byte :=
  byte_of (if s <? 26 then s + 65
           else if s <? 52 then s + 71
           else if s <? 62 then s - 4
           else if s =? 62 then 43
           else 47)%N.

(** The sextet of a character, [None] outside the alphabet. *)
Definition b64_value (c : byte) : option N :=
  let x := Byte.to_N c in
  (if (65 <=? x) && (x <=? 90) then Some (x - 65)
   else if (97 <=? x) && (x <=? 122) then Some (x - 71)
   else if (48 <=? x) && (x <=? 57) then Some (x + 4)
   else if x =? 43 then Some 62
   else if x =? 47 then Some 63
   else None)%N.

Definition b64_pad : byte := "=".

Fixpoint b64encode (data : bytes) : bytes :=
  match data with
  | [] => []
  | [a] =>
      let x := Byte.to_N a in
      [b64_char (x / 4); b64_char (x mod 4 * 16); b64_pad; b64_pad]%N
  | [a; b] =>
      let x := Byte.to_N a in
      let y := Byte.to_N b in
      [b64_char (x / 4); b64_char (x mod 4 * 16 + y / 16);
       b64_char (y mod 16 * 4); b64_pad]%N
  | a :: b :: c :: rest =>
      let x := Byte.to_N a in
      let y := Byte.to_N b in
      let z := Byte.to_N c in
      (b64_char (x / 4) :: b64_char (x mod 4 * 16 + y / 16)
       :: b64_char (y mod 16 * 4 + z / 64) :: b64_char (z mod 64)
       :: b64encode rest)%N
  end.

Definition emit (b : byte) (r : res bytes) : res bytes :=
  res_bind r (fun out => Ok (b :: out)).

(** [binascii.a2b_base64] as [b64decode] calls it (no validation): characters
    outside the alphabet are skipped, a complete pad sequence ends the
    input, and an incomplete last quad is an error.  [quad_pos] counts the
    sextets of the current quad, [leftchar] holds its pending bits and
    [pads] the pad characters seen since the last sextet. *)
Fixpoint a2b_base64 (input : bytes) (quad_pos leftchar pads : N) : res bytes :=
  match input with
  | [] => if (quad_pos =? 0)%N then Ok [] else Raise BinasciiError
  | c :: rest =>
      if (Byte.to_N c =? 61)%N then
        if (2 <=? quad_pos)%N then
          if (4 <=? quad_pos + (pads + 1))%N then Ok []
          else a2b_base64 rest quad_pos leftchar (pads + 1)%N
        else a2b_base64 rest quad_pos leftchar pads
      else
        match b64_value c with
        | None => a2b_base64 rest quad_pos leftchar pads
        | Some v =>
            if (quad_pos =? 0)%N then a2b_base64 rest 1%N v 0%N
            else if (quad_pos =? 1)%N then
              emit (byte_of ((leftchar * 4 + v / 16) mod 256))
                   (a2b_base64 rest 2%N (v mod 16)%N 0%N)
            else if (quad_pos =? 2)%N then
              emit (byte_of ((leftchar * 16 + v / 4) mod 256))
                   (a2b_base64 rest 3%N (v mod 4)%N 0%N)
            else
              emit (byte_of ((leftchar * 64 + v) mod 256))
                   (a2b_base64 rest 0%N 0%N 0%N)
        end
  end.

Definition b64decode (s : bytes) : res bytes := a2b_base64 s 0%N 0%N 0%N.

(** [b64] of both scripts' helper: [base64.b64encode(data).decode("ascii")]. *)
Definition b64 (data : bytes) : res pystr := ascii_decode (b64encode data).

(** [b64d]'s two steps on a [str]: [base64.b64decode(value.encode("ascii"))]. *)
Definition b64d_str (value : pystr) : res bytes :=
  res_bind (ascii_encode value) b64decode.

(** ** UTF-8: [str.encode("utf-8")] and [bytes.decode("utf-8")] *)

(** A lone surrogate cannot be encoded; numbers from [0x110000] on are not
    code points of a [str] at all and are refused the same way. *)
Definition utf8_encode_cp (c : N) : res bytes :=
  (if c <? 128 then Ok [byte_of c]
   else if c <? 2048 then
     Ok [byte_of (192 + c / 64); byte_of (128 + c mod 64)]
   else if (55296 <=? c) && (c <=? 57343) then Raise UnicodeEncodeError
   else if c <? 65536 then
     Ok [byte_of (224 + c / 4096); byte_of (128 + c / 64 mod 64);
         byte_of (128 + c mod 64)]
   else if c <? 1114112 then
     Ok [byte_of (240 + c / 262144); byte_of (128 + c / 4096 mod 64);
         byte_of (128 + c / 64 mod 64); byte_of (128 + c mod 64)]
   else Raise UnicodeEncodeError)%N.

Fixpoint utf8_encode (s : pystr) : res bytes :=
  match s with
  | [] => Ok []
  | c :: s' =>
      res_bind (utf8_encode_cp c) (fun e =>
      res_bind (utf8_encode s') (fun bs => Ok (e ++ bs)))
  end.

(** A continuation byte [10xxxxxx]. *)
Definition utf8_cont (b : byte) : bool :=
  ((128 <=? Byte.to_N b) && (Byte.to_N b <? 192))%N.

Definition utf8_low (b : byte) : N := (Byte.to_N b - 128)%N.

Definition res_cons (c : N) (r : res pystr) : res pystr :=
  res_bind r (fun s => Ok (c :: s)).

(** The strict decoder: overlong forms, surrogates and values past
    [0x10FFFF] are errors. *)
Fixpoint utf8_decode (bs : bytes) : res pystr :=
  match bs with
  | [] => Ok []
  | b0 :: r0 =>
      let x := Byte.to_N b0 in
      if (x <? 128)%N then res_cons x (utf8_decode r0)
      else if ((194 <=? x) && (x <? 224))%N then
        match r0 with
        | b1 :: r1 =>
            if utf8_cont b1
            then res_cons ((x - 192) * 64 + utf8_low b1)%N (utf8_decode r1)
            else Raise UnicodeDecodeError
        | _ => Raise UnicodeDecodeError
        end
      else if ((224 <=? x) && (x <? 240))%N then
        match r0 with
        | b1 :: b2 :: r2 =>
            let c := ((x - 224) * 4096 + utf8_low b1 * 64 + utf8_low b2)%N in
            if utf8_cont b1 && utf8_cont b2 && (2048 <=? c)%N
               && negb ((55296 <=? c) && (c <=? 57343))%N
            then res_cons c (utf8_decode r2)
            else Raise UnicodeDecodeError
        | _ => Raise UnicodeDecodeError
        end
      else if ((240 <=? x) && (x <? 245))%N then
        match r0 with
        | b1 :: b2 :: b3 :: r3 =>
            let c := ((x - 240) * 262144 + utf8_low b1 * 4096
                      + utf8_low b2 * 64 + utf8_low b3)%N in
            if utf8_cont b1 && utf8_cont b2 && utf8_cont b3
               && (65536 <=? c)%N && (c <? 1114112)%N
            then res_cons c (utf8_decode r3)
            else Raise UnicodeDecodeError
        | _ => Raise UnicodeDecodeError
        end
      else Raise UnicodeDecodeError
  end.

(** [s.rstrip("\n")]: every trailing line feed is removed. *)
Fixpoint rstrip_newline (s : pystr) : pystr :=
  match s with
  | [] => []
  | c :: s' =>
      match rstrip_newline s' with
      | [] => if (c =? 10)%N then [] else [c]
      | r => c :: r
      end
  end.

(* ================================================================== *)
(** * Dictionaries and JSON text *)
(* ================================================================== *)

Definition nl : pystr := [10%N].
Definition dq : pystr := [34%N].

(** A double-quoted piece of text, as the source writes it inside its
    literals. *)
Definition quoted (s : pystr) : pystr := dq ++ s ++ dq.

Fixpoint lookup (V : Type) (items : list (pystr * V)) (key : pystr)
  : option V :=
  match items with
  | [] => None
  | (k, v) :: items' => if pystr_eqb k key then Some v else lookup items' key
  end.

(** [d[key]] on a [dict]. *)
Definition getitem (V : Type) (d : list (pystr * V)) (key : pystr) : res V :=
  match lookup d key with
  | Some v => Ok v
  | None => Raise (KeyError key)
  end.

(** [v[key]] on a JSON value with a [str] key: only a [dict] can be
    subscripted that way. *)
Definition subscript (v : json) (key : pystr) : res json :=
  match v with
  | JDict items => getitem items key
  | _ => Raise TypeError
  end.

(** [v == s] for a [str] literal [s]. *)
Definition json_eq_str (v : json) (s : pystr) : bool :=
  match v with
  | JStr t => pystr_eqb t s
  | _ => false
  end.

(** The order of [str]: by code point, a prefix first. *)
Fixpoint pystr_leb (s t : pystr) : bool :=
  match s, t with
  | [], _ => true
  | _ :: _, [] => false
  | a :: s', b :: t' =>
      if (a <? b)%N then true
      else if (b <? a)%N then false
      else pystr_leb s' t'
  end.

Fixpoint insert_item (V : Type) (kv : pystr * V) (items : list (pystr * V))
  : list (pystr * V) :=
  match items with
  | [] => [kv]
  | kv' :: items' =>
      if pystr_leb (fst kv') (fst kv) then kv' :: insert_item kv items'
      else kv :: kv' :: items'
  end.

(** The items of a [dict] in the order [sort_keys=True] writes them. *)
Fixpoint sort_items (V : Type) (items : list (pystr * V)) : list (pystr * V) :=
  match items with
  | [] => []
  | kv :: items' => insert_item kv (sort_items items')
  end.

Fixpoint join (sep : pystr) (parts : list pystr) : pystr :=
  match parts with
  | [] => []
  | [p] => p
  | p :: parts' => p ++ sep ++ join sep parts'
  end.

Definition decimal (z : Z) : pystr :=
  py (NilZero.string_of_int (Z.to_int z)).

Definition hex_digit (d : N) : N :=
  (if d <? 10 then 48 + d else 87 + d)%N.

(** [\uXXXX] *)
Definition u_escape (c : N) : pystr :=
  [92; 117; hex_digit (c / 4096 mod 16); hex_digit (c / 256 mod 16);
   hex_digit (c / 16 mod 16); hex_digit (c mod 16)]%N.

(** One character of a JSON string with [ensure_ascii], the default. *)
Definition json_escape_char (c : N) : pystr :=
  (if c =? 34 then [92; 34]
   else if c =? 92 then [92; 92]
   else if c =? 10 then [92; 110]
   else if c =? 13 then [92; 114]
   else if c =? 9 then [92; 116]
   else if c =? 8 then [92; 98]
   else if c =? 12 then [92; 102]
   else if (32 <=? c) && (c <=? 126) then [c]
   else if c <? 65536 then u_escape c
   else u_escape (55296 + (c - 65536) / 1024 mod 1024)
        ++ u_escape (56320 + (c - 65536) mod 1024))%N.

Definition json_string (s : pystr) : pystr :=
  quoted (flat_map json_escape_char s).

(** [json.dumps(v, sort_keys=True)]: one line, [", "] between items and
    [": "] after a key. *)
Fixpoint json_dumps (v : json) : pystr :=
  match v with
  | JNull => py "null"
  | JBool true => py "true"
  | JBool false => py "false"
  | JInt z => decimal z
  | JStr s => json_string s
  | JList l => py "[" ++ join (py ", ") (map json_dumps l) ++ py "]"
  | JDict items =>
      py "{"
      ++ join (py ", ")
           (map (fun kv => json_string (fst kv) ++ py ": " ++ snd kv)
                (sort_items
                   (map (fun kv => (fst kv, json_dumps (snd kv))) items)))
      ++ py "}"
  end.

(** The document read back from a file written with [sort_keys=True]: the
    same tree, the items of every [dict] in key order. *)
Fixpoint json_sorted (v : json) : json :=
  match v with
  | JList l => JList (map json_sorted l)
  | JDict items =>
      JDict (sort_items (map (fun kv => (fst kv, json_sorted (snd kv))) items))
  | _ => v
  end.

(** A [dict] of integers as a JSON value. *)
Definition dict_of_ints (d : list (pystr * Z)) : json :=
  JDict (map (fun kv => (fst kv, JInt (snd kv))) d).

(* ================================================================== *)
(** * The runtime the scripts call into *)
(* ================================================================== *)

(** The two AEAD classes of [cryptography.hazmat.primitives.ciphers.aead]
    the scripts try to import. *)
Inductive aead_class : Type :=
| XChaCha20Poly1305
| ChaCha20Poly1305.

(** The nonce size each class asks for. *)
Definition nonce_size (a : aead_class) : nat :=
  match a with
  | XChaCha20Poly1305 => 24
  | ChaCha20Poly1305 => 12
  end.

(** What the Python installation provides.  [have_xchacha] and [have_chacha]
    say whether the imports succeed; [aead_init] is the constructor's check
    of the key, [aead_encrypt] and [aead_decrypt] the two methods (key,
    nonce, data, associated data); [int_of_str] is [int(s)] on a [str] and
    [repr] is [str(v)] of a value that is not a [str]. *)
Record runtime : Type := Runtime {
  have_xchacha : bool;
  have_chacha : bool;
  scrypt : bytes -> bytes -> Z -> Z -> Z -> Z -> res bytes;
  aead_init : aead_class -> bytes -> res unit;
  aead_encrypt : aead_class -> bytes -> bytes -> bytes -> bytes -> res bytes;
  aead_decrypt : aead_class -> bytes -> bytes -> bytes -> bytes -> res bytes;
  int_of_str : pystr -> res Z;
  repr : json -> pystr
}.

(** A call into the cryptographic runtime, with its arguments. *)
Inductive call : Type :=
| Urandom (n : nat)
| Scrypt (password salt : bytes) (n r p dklen : Z)
| AeadNew (a : aead_class) (key : bytes)
| AeadEncrypt (a : aead_class) (key nonce data aad : bytes)
| AeadDecrypt (a : aead_class) (key nonce data aad : bytes).

(** What a script can see and change: the line waiting on standard input,
    the password typed at the [getpass] prompt, the bytes [os.urandom] hands
    out and how many it has handed out, the files [demo.json] (as the
    document it holds) and [demo.jsonc] (as text), both output streams, and
    the calls made so far, oldest first. *)
Record world : Type := World {
  stdin_line : pystr;
  typed_password : pystr;
  entropy : nat -> byte;
  drawn : nat;
  demo_json : option json;
  demo_jsonc : option pystr;
  stdout : pystr;
  stderr : pystr;
  calls : list call
}.

Definition set_drawn (n : nat) (w : world) : world :=
  World (stdin_line w) (typed_password w) (entropy w) n (demo_json w)
        (demo_jsonc w) (stdout w) (stderr w) (calls w).

Definition set_demo_json (f : option json) (w : world) : world :=
  World (stdin_line w) (typed_password w) (entropy w) (drawn w) f
        (demo_jsonc w) (stdout w) (stderr w) (calls w).

Definition set_demo_jsonc (f : option pystr) (w : world) : world :=
  World (stdin_line w) (typed_password w) (entropy w) (drawn w) (demo_json w)
        f (stdout w) (stderr w) (calls w).

Definition set_stdout (s : pystr) (w : world) : world :=
  World (stdin_line w) (typed_password w) (entropy w) (drawn w) (demo_json w)
        (demo_jsonc w) s (stderr w) (calls w).

Definition set_stderr (s : pystr) (w : world) : world :=
  World (stdin_line w) (typed_password w) (entropy w) (drawn w) (demo_json w)
        (demo_jsonc w) (stdout w) s (calls w).

Definition set_calls (l : list call) (w : world) : world :=
  World (stdin_line w) (typed_password w) (entropy w) (drawn w) (demo_json w)
        (demo_jsonc w) (stdout w) (stderr w) l.

Definition set_typed_password (s : pystr) (w : world) : world :=
  World (stdin_line w) s (entropy w) (drawn w) (demo_json w)
        (demo_jsonc w) (stdout w) (stderr w) (calls w).

(** ** The monad of a script: state and exceptions *)

Definition M (A : Type) : Type := world -> res A * world.

Definition ret (A : Type) (a : A) : M A := fun w => (Ok a, w).

Definition bind (A B : Type) (m : M A) (k : A -> M B) : M B :=
  fun w =>
    match m w with
    | (Ok a, w') => k a w'
    | (Raise e, w') => (Raise e, w')
    end.

Definition raise (A : Type) (e : exn) : M A := fun w => (Raise e, w).
Arguments raise {A} e.

(** A pure expression that may raise. *)
Definition lift (A : Type) (r : res A) : M A := fun w => (r, w).

(** [try: m  except Exception as e: handler e] *)
Definition catch (A : Type) (m : M A) (handler : exn -> M A) : M A :=
  fun w =>
    match m w with
    | (Ok a, w') => (Ok a, w')
    | (Raise e, w') => handler e w'
    end.

Declare Scope script_scope.
Delimit Scope script_scope with script.
Notation "x <- m ;; k" := (bind m (fun x => k))
  (at level 61, m at next level, right associativity) : script_scope.
Notation "m ;; k" := (bind m (fun _ => k))
  (at level 61, right associativity) : script_scope.
Open Scope script_scope.

(** ** Console, files and entropy *)

Definition stdout_write (s : pystr) : M unit :=
  fun w => (Ok tt, set_stdout (stdout w ++ s) w).

Definition print (s : pystr) : M unit := stdout_write (s ++ nl).

Definition stderr_write (s : pystr) : M unit :=
  fun w => (Ok tt, set_stderr (stderr w ++ s) w).

(** [sys.stdin.readline()] *)
Definition readline : M pystr := fun w => (Ok (stdin_line w), w).

(** [getpass(prompt)]: the prompt goes to the terminal, not to a stream the
    scripts write. *)
Definition getpass (prompt : pystr) : M pystr :=
  fun w => (Ok (typed_password w), w).

Definition record (c : call) : M unit :=
  fun w => (Ok tt, set_calls (calls w ++ [c]) w).

(** The [n] bytes of the entropy source from position [pos] on. *)
Definition slice (ent : nat -> byte) (pos n : nat) : bytes :=
  map ent (seq pos n).

(** [os.urandom(n)]: the next [n] bytes of the entropy source. *)
Definition urandom (n : nat) : M bytes :=
  record (Urandom n) ;;
  fun w => (Ok (slice (entropy w) (drawn w) n), set_drawn (drawn w + n) w).

(** [with open("demo.json", "w") as handle: json.dump(out, handle, indent=2,
    sort_keys=True)] *)
Definition json_dump (out : json) : M unit :=
  fun w => (Ok tt, set_demo_json (Some (json_sorted out)) w).

(** [with open("demo.json", "r") as handle: json.load(handle)] *)
Definition json_load : M json :=
  fun w =>
    match demo_json w with
    | Some v => (Ok v, w)
    | None => (Raise FileNotFoundError, w)
    end.

(** [open("demo.jsonc", "w")] empties the file; [handle.write] appends. *)
Definition open_jsonc : M unit :=
  fun w => (Ok tt, set_demo_jsonc (Some []) w).

Definition handle_write (s : pystr) : M unit :=
  fun w =>
    (Ok tt,
     set_demo_jsonc (Some (match demo_jsonc w with
                           | Some t => t ++ s
                           | None => s
                           end)) w).

(** An AEAD object: its class and its key. *)
Record cipher : Type := Cipher {
  cipher_class : aead_class;
  cipher_key : bytes
}.

Section Runtime.

Variable rt : runtime.

(** A field [{v}] of an f-string. *)
Definition format (v : json) : pystr :=
  match v with
  | JStr s => s
  | _ => repr rt v
  end.

(** [int(v)] *)
Definition int (v : json) : res Z :=
  match v with
  | JInt z => Ok z
  | JBool b => Ok (if b then 1 else 0)%Z
  | JStr s => int_of_str rt s
  | _ => Raise TypeError
  end.

Definition hashlib_scrypt (password salt : bytes) (n r p dklen : Z)
  : M bytes :=
  record (Scrypt password salt n r p dklen) ;;
  lift (scrypt rt password salt n r p dklen).

(** [XChaCha20Poly1305(key)] or [ChaCha20Poly1305(key)] *)
Definition construct (a : aead_class) (key : bytes) : M cipher :=
  record (AeadNew a key) ;;
  lift (aead_init rt a key) ;;
  ret (Cipher a key).

(** [c.encrypt(nonce, data, aad)] *)
Definition encrypt (c : cipher) (nonce data aad : bytes) : M bytes :=
  record (AeadEncrypt (cipher_class c) (cipher_key c) nonce data aad) ;;
  lift (aead_encrypt rt (cipher_class c) (cipher_key c) nonce data aad).

(** [c.decrypt(nonce, data, aad)] *)
Definition decrypt (c : cipher) (nonce data aad : bytes) : M bytes :=
  record (AeadDecrypt (cipher_class c) (cipher_key c) nonce data aad) ;;
  lift (aead_decrypt rt (cipher_class c) (cipher_key c) nonce data aad).

End Runtime.

(* ================================================================== *)
(** * [scripts/crypto_encrypt.py] *)
(* ================================================================== *)

Module Encrypt.
Section Script.

Variable rt : runtime.

(** The two globals the import block sets. *)
Record globals : Type := Globals {
  AEAD : pystr;
  NonceLen : nat
}.

(** The [try: ... except Exception: ...] block around the imports. *)
Definition imports : M globals :=
  if have_xchacha rt then
    ret (Globals (py "xchacha20poly1305") 24)
  else if have_chacha rt then
    stderr_write
      (py "XChaCha20Poly1305 unavailable, falling back to ChaCha20Poly1305 for demo."
       ++ nl) ;;
    stderr_write
      (py "This changes nonce length but keeps the envelope flow identical."
       ++ nl) ;;
    ret (Globals (py "chacha20poly1305") 12)
  else
    stderr_write (py "missing dependency: python 'cryptography' (AEAD)" ++ nl) ;;
    stderr_write (py "install: pip install cryptography" ++ nl) ;;
    raise ImportError.

Variable g : globals.

Definition aead_new (key : bytes) : M cipher :=
  if pystr_eqb (AEAD g) (py "xchacha20poly1305")
  then construct rt XChaCha20Poly1305 key
  else construct rt ChaCha20Poly1305 key.

Definition kdf_params : list (pystr * Z) :=
  [(py "n", 2 ^ 14); (py "r", 8); (py "p", 1); (py "dk_len", 32)]%Z.

(** The lines of [demo.jsonc], each field read back from [out]. *)
Definition write_jsonc (out : json) : M unit :=
  open_jsonc ;;
  handle_write (py "// Demo bundle for crypto_decrypt.py" ++ nl) ;;
  handle_write (py "// This file is JSONC (JSON with comments)." ++ nl) ;;
  handle_write (py "{" ++ nl) ;;
  aead <- lift (subscript out (py "aead")) ;;
  handle_write (py "  " ++ quoted (py "aead") ++ py ": "
                ++ quoted (format rt aead) ++ py "," ++ nl) ;;
  handle_write
    (py "  // Base64: nonce_vault || vault_key_enc (vault key wrapped by master key)"
     ++ nl) ;;
  vault_key_enc_b64 <- lift (subscript out (py "vault_key_enc_b64")) ;;
  handle_write (py "  " ++ quoted (py "vault_key_enc_b64") ++ py ": "
                ++ quoted (format rt vault_key_enc_b64) ++ py "," ++ nl) ;;
  handle_write
    (py "  // Base64: nonce_dek || ct_dek (per-item DEK wrapped by vault key)"
     ++ nl) ;;
  enc_dek_b64 <- lift (subscript out (py "enc_dek_b64")) ;;
  handle_write (py "  " ++ quoted (py "enc_dek_b64") ++ py ": "
                ++ quoted (format rt enc_dek_b64) ++ py "," ++ nl) ;;
  handle_write (py "  // Base64: payload nonce" ++ nl) ;;
  nonce_payload_b64 <- lift (subscript out (py "nonce_payload_b64")) ;;
  handle_write (py "  " ++ quoted (py "nonce_payload_b64") ++ py ": "
                ++ quoted (format rt nonce_payload_b64) ++ py "," ++ nl) ;;
  handle_write (py "  // Base64: encrypted payload (AEAD ciphertext)" ++ nl) ;;
  ciphertext_b64 <- lift (subscript out (py "ciphertext_b64")) ;;
  handle_write (py "  " ++ quoted (py "ciphertext_b64") ++ py ": "
                ++ quoted (format rt ciphertext_b64) ++ py "," ++ nl) ;;
  handle_write
    (py "  // KDF parameters used to derive master key (demo only)" ++ nl) ;;
  handle_write (py "  " ++ quoted (py "kdf") ++ py ": {" ++ nl) ;;
  kdf_type <- lift (res_bind (subscript out (py "kdf"))
                      (fun kdf => subscript kdf (py "type"))) ;;
  handle_write (py "    " ++ quoted (py "type") ++ py ": "
                ++ quoted (format rt kdf_type) ++ py "," ++ nl) ;;
  kdf_salt_b64 <- lift (res_bind (subscript out (py "kdf"))
                          (fun kdf => subscript kdf (py "salt_b64"))) ;;
  handle_write (py "    " ++ quoted (py "salt_b64") ++ py ": "
                ++ quoted (format rt kdf_salt_b64) ++ py "," ++ nl) ;;
  params <- lift (res_bind (subscript out (py "kdf"))
                    (fun kdf => subscript kdf (py "params"))) ;;
  handle_write (py "    " ++ quoted (py "params") ++ py ": "
                ++ json_dumps params ++ nl) ;;
  handle_write (py "  }" ++ nl) ;;
  handle_write (py "}" ++ nl).

Definition main : M Z :=
  print (py "Enter plaintext to encrypt:") ;;
  line <- readline ;;
  plaintext <- lift (utf8_encode (rstrip_newline line)) ;;
  match plaintext with
  | [] =>
      stderr_write (py "plaintext cannot be empty" ++ nl) ;;
      ret 2%Z
  | _ :: _ =>
  master_password <- getpass (py "Master password: ") ;;
  match master_password with
  | [] =>
      stderr_write (py "master password cannot be empty" ++ nl) ;;
      ret 2%Z
  | _ :: _ =>
  kdf_salt <- urandom 16 ;;
  password <- lift (utf8_encode master_password) ;;
  n <- lift (getitem kdf_params (py "n")) ;;
  r <- lift (getitem kdf_params (py "r")) ;;
  p <- lift (getitem kdf_params (py "p")) ;;
  dk_len <- lift (getitem kdf_params (py "dk_len")) ;;
  master_key <- hashlib_scrypt rt password kdf_salt n r p dk_len ;;

  vault_key <- urandom 32 ;;
  nonce_vault <- urandom (NonceLen g) ;;
  wrap_master <- aead_new master_key ;;
  vault_key_enc <- encrypt rt wrap_master nonce_vault vault_key [] ;;

  dek <- urandom 32 ;;

  nonce_dekwrap <- urandom (NonceLen g) ;;
  wrap <- aead_new vault_key ;;
  ct_dekwrap <- encrypt rt wrap nonce_dekwrap dek [] ;;
  let enc_dek := nonce_dekwrap ++ ct_dekwrap in

  nonce_payload <- urandom (NonceLen g) ;;
  payload_cipher <- aead_new dek ;;
  ciphertext <- encrypt rt payload_cipher nonce_payload plaintext [] ;;

  salt_b64 <- lift (b64 kdf_salt) ;;
  vault_key_enc_b64 <- lift (b64 (nonce_vault ++ vault_key_enc)) ;;
  enc_dek_b64 <- lift (b64 enc_dek) ;;
  nonce_payload_b64 <- lift (b64 nonce_payload) ;;
  ciphertext_b64 <- lift (b64 ciphertext) ;;
  let out :=
    JDict [(py "aead", JStr (AEAD g));
           (py "kdf",
            JDict [(py "type", JStr (py "scrypt"));
                   (py "salt_b64", JStr salt_b64);
                   (py "params", dict_of_ints kdf_params)]);
           (py "vault_key_enc_b64", JStr vault_key_enc_b64);
           (py "enc_dek_b64", JStr enc_dek_b64);
           (py "nonce_payload_b64", JStr nonce_payload_b64);
           (py "ciphertext_b64", JStr ciphertext_b64)] in
  json_dump out ;;
  write_jsonc out ;;
  print (py "Wrote demo.json and demo.jsonc") ;;
  ret 0%Z
  end
  end.

End Script.

(** The whole script: the imports, then [raise SystemExit(main())]. *)
Definition script (rt : runtime) : M Z :=
g <- imports rt ;; main rt g.

End Encrypt.

(* ================================================================== *)
(** * [scripts/crypto_decrypt.py] *)
(* ================================================================== *)

Module Decrypt.
Section Script.

Variable rt : runtime.

(** [b64d(value)]: anything but a [str] has no [encode]. *)
Definition b64d (value : json) : res bytes :=
  match value with
  | JStr s => b64d_str s
  | _ => Raise AttributeError
  end.

Definition aead_new (aead : json) (key : bytes) : M (cipher * nat) :=
  if json_eq_str aead (py "xchacha20poly1305") then
    if have_xchacha rt then
      c <- construct rt XChaCha20Poly1305 key ;; ret (c, 24)
    else
      raise (RuntimeError
               (py "XChaCha20Poly1305 is not available in this Python build."))
  else if json_eq_str aead (py "chacha20poly1305") then
    if have_chacha rt then
      c <- construct rt ChaCha20Poly1305 key ;; ret (c, 12)
    else
      raise (RuntimeError
               (py "ChaCha20Poly1305 is not available in this Python build."))
  else raise (RuntimeError (py "unsupported AEAD: " ++ format rt aead)).

Definition main : M Z :=
  loaded <- catch (payload <- json_load ;; ret (Some payload))
                  (fun e =>
                     match e with
                     | FileNotFoundError =>
                         stderr_write (py "demo.json not found" ++ nl) ;;
                         ret None
                     | _ => raise e
                     end) ;;
  match loaded with
  | None => ret 2%Z
  | Some payload =>
  aead <- lift (subscript payload (py "aead")) ;;
  vault_key_enc <- lift (res_bind (subscript payload (py "vault_key_enc_b64"))
                           b64d) ;;
  enc_dek <- lift (res_bind (subscript payload (py "enc_dek_b64")) b64d) ;;
  nonce_payload <- lift (res_bind (subscript payload (py "nonce_payload_b64"))
                           b64d) ;;
  ciphertext <- lift (res_bind (subscript payload (py "ciphertext_b64"))
                        b64d) ;;

  master_password <- getpass (py "Master password: ") ;;
  match master_password with
  | [] =>
      stderr_write (py "master password cannot be empty" ++ nl) ;;
      ret 2%Z
  | _ :: _ =>
  kdf <- lift (subscript payload (py "kdf")) ;;
  params <- lift (subscript kdf (py "params")) ;;
  kdf_salt <- lift (res_bind (subscript kdf (py "salt_b64")) b64d) ;;
  password <- lift (utf8_encode master_password) ;;
  n <- lift (res_bind (subscript params (py "n")) (int rt)) ;;
  r <- lift (res_bind (subscript params (py "r")) (int rt)) ;;
  p <- lift (res_bind (subscript params (py "p")) (int rt)) ;;
  dklen <- lift (res_bind (subscript params (py "dk_len")) (int rt)) ;;
  master_key <- hashlib_scrypt rt password kdf_salt n r p dklen ;;

  made <- aead_new aead master_key ;;
  let wrap_master := fst made in
  let nonce_len := snd made in
  let nonce_vault := firstn nonce_len vault_key_enc in
  let ct_vault := skipn nonce_len vault_key_enc in
  unwrapped <- catch (vault_key <- decrypt rt wrap_master nonce_vault ct_vault [] ;;
                      ret (Some vault_key))
                     (fun _ =>
                        stderr_write
                          (py "decrypt failed (wrong master password?)" ++ nl) ;;
                        ret None) ;;
  match unwrapped with
  | None => ret 3%Z
  | Some vault_key =>
  made <- aead_new aead vault_key ;;
  let wrap := fst made in
  let nonce_len := snd made in
  let nonce_dek := firstn nonce_len enc_dek in
  let ct_dek := skipn nonce_len enc_dek in
  dek <- decrypt rt wrap nonce_dek ct_dek [] ;;

  made <- aead_new aead dek ;;
  let payload_cipher := fst made in
  plaintext <- decrypt rt payload_cipher nonce_payload ciphertext [] ;;

  text <- lift (utf8_decode plaintext) ;;
  stdout_write (text ++ nl) ;;
  ret 0%Z
  end
  end
  end.

End Script.

(** The whole script: [raise SystemExit(main())]; both imports are optional. *)
Definition script (rt : runtime) : M Z := main rt.

End Decrypt.

(* ================================================================== *)
(** * Runs and the laws of the runtime *)
(* ================================================================== *)

(** A fresh world: nothing written, nothing drawn, no file. *)
Definition initial (line password : pystr) (ent : nat -> byte) : world :=
  World line password ent 0 None None [] [] [].

(** The class a script's global [AEAD] stands for. *)
Definition class_of (rt : runtime) : aead_class :=
  if have_xchacha rt then XChaCha20Poly1305 else ChaCha20Poly1305.

Definition class_name (a : aead_class) : pystr :=
  match a with
  | XChaCha20Poly1305 => py "xchacha20poly1305"
  | ChaCha20Poly1305 => py "chacha20poly1305"
  end.

(** The calls of a log that do cryptographic work: everything but the
    entropy draws is a derivation, a key set-up, an encryption or a
    decryption; a draw generates a key, a salt or a nonce. *)
Definition is_kdf (c : call) : bool :=
  match c with Scrypt _ _ _ _ _ _ => true | _ => false end.

Definition is_decrypt (c : call) : bool :=
  match c with AeadDecrypt _ _ _ _ _ => true | _ => false end.

Definition is_urandom (c : call) : bool :=
  match c with Urandom _ => true | _ => false end.

Definition is_encrypt (c : call) : bool :=
  match c with AeadEncrypt _ _ _ _ _ => true | _ => false end.

(** [hashlib.scrypt] with the parameters of [crypto_encrypt.py] returns a
    key of the length asked for. *)
Definition scrypt_derives (rt : runtime) : Prop :=
  forall password salt,
    exists key, scrypt rt password salt 16384 8 1 32 = Ok key
                /\ length key = 32.

(** Both constructors take a key of 32 bytes. *)
Definition aead_takes_32 (rt : runtime) : Prop :=
  forall a key, length key = 32 -> aead_init rt a key = Ok tt.

(** [encrypt] succeeds on a 32-byte key and a nonce of the class's size. *)
Definition aead_encrypts (rt : runtime) : Prop :=
  forall a key nonce data,
    length key = 32 -> length nonce = nonce_size a ->
    exists ct, aead_encrypt rt a key nonce data [] = Ok ct.

(** [decrypt] undoes [encrypt] under the same key and nonce. *)
Definition aead_correct (rt : runtime) : Prop :=
  forall a key nonce data ct,
    aead_encrypt rt a key nonce data [] = Ok ct ->
    aead_decrypt rt a key nonce ct [] = Ok data.

(** [decrypt] raises on a nonce that has not the class's size. *)
Definition aead_checks_nonce (rt : runtime) : Prop :=
  forall a key nonce data,
    length nonce <> nonce_size a ->
    exists e, aead_decrypt rt a key nonce data [] = Raise e.

(** ** A small runtime for concrete runs

    Not a cipher: the "ciphertext" is the key, the nonce and the data in a
    row, and "decryption" checks the first two.  It obeys every law above. *)
Module Toy.

Definition scrypt (password salt : bytes) (n r p dklen : Z) : res bytes :=
  Ok (firstn (Z.to_nat dklen)
        (password ++ salt ++ repeat x00 (Z.to_nat dklen))).

Definition aead_init (a : aead_class) (key : bytes) : res unit :=
  if length key =? 32 then Ok tt else Raise ValueError.

Definition aead_encrypt (a : aead_class) (key nonce data aad : bytes)
  : res bytes :=
  if length nonce =? nonce_size a then Ok (key ++ nonce ++ data)
  else Raise ValueError.

Definition aead_decrypt (a : aead_class) (key nonce data aad : bytes)
  : res bytes :=
  if length nonce =? nonce_size a then
    if bytes_eqb (firstn (length key + length nonce) data) (key ++ nonce)
    then Ok (skipn (length key + length nonce) data)
    else Raise InvalidTag
  else Raise ValueError.

Definition int_of_str (s : pystr) : res Z := Raise ValueError.

Definition rt (xchacha chacha : bool) : runtime :=
  Runtime xchacha chacha scrypt aead_init aead_encrypt aead_decrypt
          int_of_str json_dumps.

(** The byte [i] of the entropy source. *)
Definition ent (i : nat) : byte := byte_of (N.of_nat i mod 256).

(** The line ["hello vault\n"] and the password ["correct horse"]. *)
Definition start : world :=
  initial (py "hello vault" ++ nl) (py "correct horse") ent.

(** The two inputs as [bytes]. *)
Definition payload : bytes := map byte_of (py "hello vault").
Definition password : bytes := map byte_of (py "correct horse").

(** The world after [crypto_encrypt.py] has run in [start]. *)
Definition sealed (xchacha : bool) : world :=
  snd (Encrypt.script (rt xchacha true) start).

End Toy.

(** ** A runtime whose key derivation reads the password as HMAC does

    [hashlib.scrypt] feeds the password to PBKDF2-HMAC-SHA256 as the HMAC
    key, and HMAC fills a key shorter than its block of 64 bytes with zero
    bytes: a password and the same password followed by NUL characters give
    the same key.  The derivation below keeps that step and nothing else of
    the function (a key longer than the block, which HMAC hashes first, is
    left as it is); the cipher is the one of [Toy]. *)
Module Padded.

Definition hmac_block (key : bytes) : bytes :=
  key ++ repeat x00 (64 - length key).

Definition scrypt (password salt : bytes) (n r p dklen : Z) : res bytes :=
  Toy.scrypt (salt ++ hmac_block password) [] n r p dklen.

Definition rt : runtime :=
  Runtime true true scrypt Toy.aead_init Toy.aead_encrypt Toy.aead_decrypt
          Toy.int_of_str json_dumps.

(** The password of [Toy.start] followed by a NUL character. *)
Definition other_password : pystr := py "correct horse" ++ [0%N].

(** The world after [crypto_encrypt.py] has run in [Toy.start], and that
    world with the other password typed. *)
Definition sealed : world := snd (Encrypt.script rt Toy.start).

Definition reopened : world := set_typed_password other_password sealed.

End Padded.

(** Bit [i] of byte [j] of [data] flipped. *)
Definition flip_bit (j : nat) (i : N) (data : bytes) : bytes :=
  firstn j data
  ++ match skipn j data with
     | [] => []
     | b :: rest => byte_of (N.lxor (Byte.to_N b) (2 ^ i)) :: rest
     end.

(** The text [b64] makes of [data]. *)
Definition b64_text (data : bytes) : pystr := map Byte.to_N (b64encode data).

(** The document [crypto_encrypt.py] leaves in [demo.json], from its six
    variable fields: the items in the key order of [sort_keys=True]. *)
Definition document
  (aead salt_b64 vault_key_enc_b64 enc_dek_b64 nonce_payload_b64
     ciphertext_b64 : pystr) : json :=
  JDict [(py "aead", JStr aead);
         (py "ciphertext_b64", JStr ciphertext_b64);
         (py "enc_dek_b64", JStr enc_dek_b64);
         (py "kdf",
          JDict [(py "params",
                  JDict [(py "dk_len", JInt 32); (py "n", JInt 16384);
                         (py "p", JInt 1); (py "r", JInt 8)]);
                 (py "salt_b64", JStr salt_b64);
                 (py "type", JStr (py "scrypt"))]);
         (py "nonce_payload_b64", JStr nonce_payload_b64);
         (py "vault_key_enc_b64", JStr vault_key_enc_b64)].

(* ================================================================== *)
(** * One run of [crypto_encrypt.py], value by value *)
(* ================================================================== *)

(** The values [main] binds on its way to the envelope. *)
Record sealing : Type := Sealing {
  s_class : aead_class;
  s_password : bytes;
  s_plaintext : bytes;
  s_kdf_salt : bytes;
  s_master_key : bytes;
  s_vault_key : bytes;
  s_nonce_vault : bytes;
  s_vault_key_enc : bytes;
  s_dek : bytes;
  s_nonce_dekwrap : bytes;
  s_ct_dekwrap : bytes;
  s_nonce_payload : bytes;
  s_ciphertext : bytes
}.

(** [s] holds the values of the run that starts in [w]: the inputs are not
    empty, the six draws come from the entropy source in the order of the
    source, and every call into the runtime returned. *)
Definition seals (rt : runtime) (w : world) (s : sealing) : Prop :=
  let nonce_len := nonce_size (s_class s) in
  let ent := entropy w in
  let pos := drawn w in
  (have_xchacha rt || have_chacha rt = true)
  /\ s_class s = class_of rt
  /\ utf8_encode (rstrip_newline (stdin_line w)) = Ok (s_plaintext s)
  /\ s_plaintext s <> []
  /\ typed_password w <> []
  /\ utf8_encode (typed_password w) = Ok (s_password s)
  /\ s_kdf_salt s = slice ent pos 16
  /\ scrypt rt (s_password s) (s_kdf_salt s) 16384 8 1 32
     = Ok (s_master_key s)
  /\ s_vault_key s = slice ent (pos + 16) 32
  /\ s_nonce_vault s = slice ent (pos + 16 + 32) nonce_len
  /\ aead_init rt (s_class s) (s_master_key s) = Ok tt
  /\ aead_encrypt rt (s_class s) (s_master_key s) (s_nonce_vault s)
       (s_vault_key s) [] = Ok (s_vault_key_enc s)
  /\ s_dek s = slice ent (pos + 16 + 32 + nonce_len) 32
  /\ s_nonce_dekwrap s = slice ent (pos + 16 + 32 + nonce_len + 32) nonce_len
  /\ aead_init rt (s_class s) (s_vault_key s) = Ok tt
  /\ aead_encrypt rt (s_class s) (s_vault_key s) (s_nonce_dekwrap s)
       (s_dek s) [] = Ok (s_ct_dekwrap s)
  /\ s_nonce_payload s
     = slice ent (pos + 16 + 32 + nonce_len + 32 + nonce_len) nonce_len
  /\ aead_init rt (s_class s) (s_dek s) = Ok tt
  /\ aead_encrypt rt (s_class s) (s_dek s) (s_nonce_payload s)
       (s_plaintext s) [] = Ok (s_ciphertext s).

(** The calls of that run, in order. *)
Definition seal_calls (s : sealing) : list call :=
  let a := s_class s in
  [Urandom 16;
   Scrypt (s_password s) (s_kdf_salt s) 16384 8 1 32;
   Urandom 32;
   Urandom (nonce_size a);
   AeadNew a (s_master_key s);
   AeadEncrypt a (s_master_key s) (s_nonce_vault s) (s_vault_key s) [];
   Urandom 32;
   Urandom (nonce_size a);
   AeadNew a (s_vault_key s);
   AeadEncrypt a (s_vault_key s) (s_nonce_dekwrap s) (s_dek s) [];
   Urandom (nonce_size a);
   AeadNew a (s_dek s);
   AeadEncrypt a (s_dek s) (s_nonce_payload s) (s_plaintext s) []].

(** The envelope of that run. *)
Definition envelope_of (s : sealing) : json :=
  document (class_name (s_class s))
           (b64_text (s_kdf_salt s))
           (b64_text (s_nonce_vault s ++ s_vault_key_enc s))
           (b64_text (s_nonce_dekwrap s ++ s_ct_dekwrap s))
           (b64_text (s_nonce_payload s))
           (b64_text (s_ciphertext s)).

(** The annotated rendering, written out: the text [demo.jsonc] should hold
    for the seven fields that are strings and the rendered parameters. *)
Definition annotated
  (aead vault_key_enc_b64 enc_dek_b64 nonce_payload_b64 ciphertext_b64
     kdf_type salt_b64 params : pystr) : pystr :=
  concat
    [py "// Demo bundle for crypto_decrypt.py"; nl;
     py "// This file is JSONC (JSON with comments)."; nl;
     py "{"; nl;
     py "  "; dq; py "aead"; dq; py ": "; dq; aead; dq; py ","; nl;
     py "  // Base64: nonce_vault || vault_key_enc (vault key wrapped by master key)";
     nl;
     py "  "; dq; py "vault_key_enc_b64"; dq; py ": "; dq; vault_key_enc_b64;
     dq; py ","; nl;
     py "  // Base64: nonce_dek || ct_dek (per-item DEK wrapped by vault key)";
     nl;
     py "  "; dq; py "enc_dek_b64"; dq; py ": "; dq; enc_dek_b64; dq; py ",";
     nl;
     py "  // Base64: payload nonce"; nl;
     py "  "; dq; py "nonce_payload_b64"; dq; py ": "; dq; nonce_payload_b64;
     dq; py ","; nl;
     py "  // Base64: encrypted payload (AEAD ciphertext)"; nl;
     py "  "; dq; py "ciphertext_b64"; dq; py ": "; dq; ciphertext_b64; dq;
     py ","; nl;
     py "  // KDF parameters used to derive master key (demo only)"; nl;
     py "  "; dq; py "kdf"; dq; py ": {"; nl;
     py "    "; dq; py "type"; dq; py ": "; dq; kdf_type; dq; py ","; nl;
     py "    "; dq; py "salt_b64"; dq; py ": "; dq; salt_b64; dq; py ","; nl;
     py "    "; dq; py "params"; dq; py ": "; params; nl;
     py "  }"; nl;
     py "}"; nl].

(** What the run leaves behind in [w1], started in [w0] (the world after the
    imports). *)
Definition leaves (w0 : world) (s : sealing) (w1 : world) : Prop :=
  demo_json w1 = Some (envelope_of s)
  /\ demo_jsonc w1
     = Some (annotated (class_name (s_class s))
               (b64_text (s_nonce_vault s ++ s_vault_key_enc s))
               (b64_text (s_nonce_dekwrap s ++ s_ct_dekwrap s))
               (b64_text (s_nonce_payload s))
               (b64_text (s_ciphertext s))
               (py "scrypt")
               (b64_text (s_kdf_salt s))
               (json_dumps (dict_of_ints Encrypt.kdf_params)))
  /\ calls w1 = calls w0 ++ seal_calls s
  /\ stdin_line w1 = stdin_line w0
  /\ typed_password w1 = typed_password w0
  /\ entropy w1 = entropy w0
  /\ stdout w1 = stdout w0 ++ py "Enter plaintext to encrypt:" ++ nl
                 ++ py "Wrote demo.json and demo.jsonc" ++ nl
  /\ stderr w1 = stderr w0.

(** The world after the import block of [crypto_encrypt.py]. *)
Definition imported (rt : runtime) (w : world) : world :=
  snd (Encrypt.imports rt w).

(* ================================================================== *)
(** * One run of [crypto_decrypt.py], value by value *)
(* ================================================================== *)

(** The class an algorithm identifier names, as [aead_new] compares it. *)
Definition class_named (aead : json) : option aead_class :=
  if json_eq_str aead (py "xchacha20poly1305") then Some XChaCha20Poly1305
  else if json_eq_str aead (py "chacha20poly1305") then Some ChaCha20Poly1305
  else None.

(** Whether the import of a class succeeded. *)
Definition available (rt : runtime) (a : aead_class) : bool :=
  match a with
  | XChaCha20Poly1305 => have_xchacha rt
  | ChaCha20Poly1305 => have_chacha rt
  end.

(** The message of the [RuntimeError] for a class that is not there. *)
Definition not_available (a : aead_class) : pystr :=
  match a with
  | XChaCha20Poly1305 =>
      py "XChaCha20Poly1305 is not available in this Python build."
  | ChaCha20Poly1305 =>
      py "ChaCha20Poly1305 is not available in this Python build."
  end.

(** What [main] reads from the document before it asks for the password,
    in the order of the source: the identifier and the four decoded
    blobs. *)
Definition header_of (payload : json)
  : res (json * bytes * bytes * bytes * bytes) :=
  res_bind (subscript payload (py "aead")) (fun aead =>
  res_bind (res_bind (subscript payload (py "vault_key_enc_b64")) Decrypt.b64d)
    (fun vault_key_enc =>
  res_bind (res_bind (subscript payload (py "enc_dek_b64")) Decrypt.b64d)
    (fun enc_dek =>
  res_bind (res_bind (subscript payload (py "nonce_payload_b64")) Decrypt.b64d)
    (fun nonce_payload =>
  res_bind (res_bind (subscript payload (py "ciphertext_b64")) Decrypt.b64d)
    (fun ciphertext =>
  Ok (aead, vault_key_enc, enc_dek, nonce_payload, ciphertext)))))).

(** The five fields [main] reads first, at lines 43 to 47. *)
Definition header_fields : list pystr :=
  [py "aead"; py "vault_key_enc_b64"; py "enc_dek_b64";
   py "nonce_payload_b64"; py "ciphertext_b64"].

(** What [main] reads after the password: the salt and the four numbers
    it hands to [hashlib.scrypt]. *)
Definition kdf_inputs_of (rt : runtime) (payload : json)
  : res (bytes * Z * Z * Z * Z) :=
  res_bind (subscript payload (py "kdf")) (fun kdf =>
  res_bind (subscript kdf (py "params")) (fun params =>
  res_bind (res_bind (subscript kdf (py "salt_b64")) Decrypt.b64d)
    (fun kdf_salt =>
  res_bind (res_bind (subscript params (py "n")) (int rt)) (fun n =>
  res_bind (res_bind (subscript params (py "r")) (int rt)) (fun r =>
  res_bind (res_bind (subscript params (py "p")) (int rt)) (fun p =>
  res_bind (res_bind (subscript params (py "dk_len")) (int rt)) (fun dklen =>
  Ok (kdf_salt, n, r, p, dklen)))))))).

(** The document with the value at a top-level key replaced. *)
Definition replace_field (key : pystr) (value : json) (doc : json) : json :=
  match doc with
  | JDict items =>
      JDict (map (fun kv => if pystr_eqb (fst kv) key then (fst kv, value)
                            else kv) items)
  | _ => doc
  end.

(** The line [main] writes when the first layer does not open. *)
Definition decrypt_failed : pystr :=
  py "decrypt failed (wrong master password?)" ++ nl.

(** The calls of a log that decrypt, and those that derive a key. *)
Definition decrypt_calls (log : list call) : list call :=
  filter is_decrypt log.

Definition kdf_calls (log : list call) : list call :=
  filter is_kdf log.

(** The calls [crypto_decrypt.py] makes when it opens the envelope of [s]
    with the password of [s], in order. *)
Definition open_calls (s : sealing) : list call :=
  let a := s_class s in
  [Scrypt (s_password s) (s_kdf_salt s) 16384 8 1 32;
   AeadNew a (s_master_key s);
   AeadDecrypt a (s_master_key s) (s_nonce_vault s) (s_vault_key_enc s) [];
   AeadNew a (s_vault_key s);
   AeadDecrypt a (s_vault_key s) (s_nonce_dekwrap s) (s_ct_dekwrap s) [];
   AeadNew a (s_dek s);
   AeadDecrypt a (s_dek s) (s_nonce_payload s) (s_ciphertext s) []].

(** The decryptions of one run of [crypto_decrypt.py] on a document whose
    header decodes to the two blobs, the nonce and the ciphertext: one call
    per layer that was reached, each layer keyed with what the one before
    returned, each wrapped key split at the nonce size of the class. *)
Inductive opens (rt : runtime) (a : aead_class)
          (vault_key_enc enc_dek nonce_payload ciphertext : bytes)
  : list call -> Prop :=
| opens_vault (master_key : bytes) :
    opens rt a vault_key_enc enc_dek nonce_payload ciphertext
      [AeadDecrypt a master_key
         (firstn (nonce_size a) vault_key_enc)
         (skipn (nonce_size a) vault_key_enc) []]
| opens_dek (master_key vault_key : bytes) :
    aead_decrypt rt a master_key
      (firstn (nonce_size a) vault_key_enc)
      (skipn (nonce_size a) vault_key_enc) [] = Ok vault_key ->
    opens rt a vault_key_enc enc_dek nonce_payload ciphertext
      [AeadDecrypt a master_key
         (firstn (nonce_size a) vault_key_enc)
         (skipn (nonce_size a) vault_key_enc) [];
       AeadDecrypt a vault_key
         (firstn (nonce_size a) enc_dek)
         (skipn (nonce_size a) enc_dek) []]
| opens_payload (master_key vault_key dek : bytes) :
    aead_decrypt rt a master_key
      (firstn (nonce_size a) vault_key_enc)
      (skipn (nonce_size a) vault_key_enc) [] = Ok vault_key ->
    aead_decrypt rt a vault_key
      (firstn (nonce_size a) enc_dek)
      (skipn (nonce_size a) enc_dek) [] = Ok dek ->
    opens rt a vault_key_enc enc_dek nonce_payload ciphertext
      [AeadDecrypt a master_key
         (firstn (nonce_size a) vault_key_enc)
         (skipn (nonce_size a) vault_key_enc) [];
       AeadDecrypt a vault_key
         (firstn (nonce_size a) enc_dek)
         (skipn (nonce_size a) enc_dek) [];
       AeadDecrypt a dek nonce_payload ciphertext []].


(** ** Concrete runs of the two scripts *)

(** The bytes a field of the document in [w] decodes to, [[]] when there
    is none. *)
Definition field_bytes (w : world) (key : pystr) : bytes :=
  match demo_json w with
  | Some doc =>
      match res_bind (subscript doc key) Decrypt.b64d with
      | Ok b => b
      | Raise _ => []
      end
  | None => []
  end.

(** [w] with one field of its document replaced. *)
Definition with_field (key : pystr) (value : json) (w : world) : world :=
  set_demo_json (option_map (replace_field key value) (demo_json w)) w.

Module ToyRuns.

(** The envelope of [Toy.sealed true] with an algorithm identifier no
    class has. *)
Definition unknown_algorithm : world :=
  with_field (py "aead") (JStr (py "aes256gcm")) (Toy.sealed true).

(** ... with one bit of the wrapped DEK flipped (byte 20, in its nonce). *)
Definition tampered_dek : world :=
  with_field (py "enc_dek_b64")
    (JStr (b64_text
             (flip_bit 20 0
                (field_bytes (Toy.sealed true) (py "enc_dek_b64")))))
    (Toy.sealed true).

(** ... with one bit of the wrapped vault key flipped. *)
Definition tampered_vault : world :=
  with_field (py "vault_key_enc_b64")
    (JStr (b64_text
             (flip_bit 20 0
                (field_bytes (Toy.sealed true) (py "vault_key_enc_b64")))))
    (Toy.sealed true).


(** ... with a wrapped vault key of two bytes. *)
Definition short_vault : world :=
  with_field (py "vault_key_enc_b64") (JStr (b64_text [x01; x02]))
    (Toy.sealed true).

(** ... without the field [enc_dek_b64]. *)
Definition missing_field : world :=
  set_demo_json
    (match demo_json (Toy.sealed true) with
     | Some (JDict items) =>
         Some (JDict (filter (fun kv => negb (pystr_eqb (fst kv)
                                                (py "enc_dek_b64")))
                        items))
     | other => other
     end)
    (Toy.sealed true).

(** ... opened with the password ["wrong horse"]. *)
Definition wrong_password : world :=
  set_typed_password (py "wrong horse") (Toy.sealed true).

(** ... opened with no password. *)
Definition no_password : world :=
  set_typed_password [] (Toy.sealed true).

(** The values of the run that made [Toy.sealed true]. *)
Definition sealing : sealing :=
  let a := XChaCha20Poly1305 in
  let ok := fun r : res bytes =>
              match r with Ok b => b | Raise _ => [] end in
  let salt := slice Toy.ent 0 16 in
  let mk := ok (Toy.scrypt Toy.password salt 16384 8 1 32) in
  let vk := slice Toy.ent 16 32 in
  let nv := slice Toy.ent 48 24 in
  let dek := slice Toy.ent 72 32 in
  let nd := slice Toy.ent 104 24 in
  let np := slice Toy.ent 128 24 in
  Sealing a Toy.password Toy.payload salt mk vk nv
          (ok (Toy.aead_encrypt a mk nv vk []))
          dek nd (ok (Toy.aead_encrypt a vk nd dek []))
          np (ok (Toy.aead_encrypt a dek np Toy.payload [])).

(** The envelope of [Toy.sealed true] with text that is not base64 around
    the wrapped vault key: two exclamation marks before it, a remark after
    its padding. *)
Definition malformed_base64_doc : json :=
  replace_field (py "vault_key_enc_b64")
    (JStr (py "!!"
           ++ b64_text (s_nonce_vault sealing ++ s_vault_key_enc sealing)
           ++ py "***not base64***"))
    (envelope_of sealing).

Definition malformed_base64 : world :=
  set_demo_json (Some malformed_base64_doc) (Toy.sealed true).

End ToyRuns.

(* ================================================================== *)
(** * Facts about the codecs *)
(* ================================================================== *)

Ltac Zify.zify_post_hook ::= Z.to_euclidean_division_equations.

Lemma to_N_lt_256 (b : byte) : (Byte.to_N b < 256)%N.
Proof. pose proof (Byte.to_N_bounded b). lia. Qed.

Lemma to_N_byte_of (n : N) : (n < 256)%N -> Byte.to_N (byte_of n) = n.
Proof.
  intros Hn. unfold byte_of.
  destruct (Byte.of_N n) as [b|] eqn:E.
  - now apply Byte.to_of_N.
  - apply Byte.of_N_None_iff in E. lia.
Qed.

Lemma byte_of_to_N (b : byte) : byte_of (Byte.to_N b) = b.
Proof. unfold byte_of. now rewrite Byte.of_to_N. Qed.

Lemma b64_char_code (s : N) :
  (s < 64)%N ->
  Byte.to_N (b64_char s) =
  (if s <? 26 then s + 65 else if s <? 52 then s + 71
   else if s <? 62 then s - 4 else if s =? 62 then 43 else 47)%N.
Proof.
  intros Hs. unfold b64_char. apply to_N_byte_of.
  repeat match goal with
         | |- context [(?a <? ?b)%N] => destruct (N.ltb_spec a b)
         | |- context [(?a =? ?b)%N] => destruct (N.eqb_spec a b)
         end; lia.
Qed.

Lemma b64_char_not_pad (s : N) :
  (s < 64)%N -> (Byte.to_N (b64_char s) =? 61)%N = false.
Proof.
  intros Hs. rewrite b64_char_code by assumption. apply N.eqb_neq.
  repeat match goal with
         | |- context [(?a <? ?b)%N] => destruct (N.ltb_spec a b)
         | |- context [(?a =? ?b)%N] => destruct (N.eqb_spec a b)
         end; lia.
Qed.

Lemma b64_value_char (s : N) :
  (s < 64)%N -> b64_value (b64_char s) = Some s.
Proof.
  intros Hs. unfold b64_value. rewrite b64_char_code by assumption.
  cbv zeta.
  repeat match goal with
         | |- context [(?a <? ?b)%N] => destruct (N.ltb_spec a b)
         | |- context [(?a =? ?b)%N] => destruct (N.eqb_spec a b)
         | |- context [(?a <=? ?b)%N] => destruct (N.leb_spec a b)
         end; cbn [andb]; try (f_equal; lia); try lia.
Qed.

Lemma b64_char_ascii (s : N) : (Byte.to_N (b64_char s) <? 128)%N = true.
Proof.
  apply N.ltb_lt. unfold b64_char.
  repeat match goal with
         | |- context [(?a <? ?b)%N] => destruct (N.ltb_spec a b)
         | |- context [(?a =? ?b)%N] => destruct (N.eqb_spec a b)
         end; rewrite to_N_byte_of; lia.
Qed.

(** One alphabet character read by the decoder. *)
Lemma a2b_base64_sextet (s : N) (rest : bytes) (q lc p : N) :
  (s < 64)%N ->
  a2b_base64 (b64_char s :: rest) q lc p =
  if (q =? 0)%N then a2b_base64 rest 1%N s 0%N
  else if (q =? 1)%N then
    emit (byte_of ((lc * 4 + s / 16) mod 256))
         (a2b_base64 rest 2%N (s mod 16)%N 0%N)
  else if (q =? 2)%N then
    emit (byte_of ((lc * 16 + s / 4) mod 256))
         (a2b_base64 rest 3%N (s mod 4)%N 0%N)
  else
    emit (byte_of ((lc * 64 + s) mod 256)) (a2b_base64 rest 0%N 0%N 0%N).
Proof.
  intros Hs. cbn [a2b_base64].
  now rewrite b64_char_not_pad, b64_value_char by assumption.
Qed.

Lemma list_ind3 (A : Type) (P : list A -> Prop) :
  P [] -> (forall a, P [a]) -> (forall a b, P [a; b]) ->
  (forall a b c l, P l -> P (a :: b :: c :: l)) ->
  forall l, P l.
Proof.
  intros H0 H1 H2 H3.
  fix IH 1. intros [|a [|b [|c l]]].
  - exact H0.
  - apply H1.
  - apply H2.
  - apply H3, IH.
Qed.

Lemma byte_of_eq (n : N) (b : byte) : n = Byte.to_N b -> byte_of n = b.
Proof. intros ->. apply byte_of_to_N. Qed.

Theorem b64decode_b64encode (data : bytes) :
  b64decode (b64encode data) = Ok data.
Proof.
  unfold b64decode. induction data as [|a|a b|a b c l IH] using list_ind3.
  - reflexivity.
  - pose proof (to_N_lt_256 a) as Ha.
    cbn [b64encode].
    rewrite !a2b_base64_sextet by lia. cbn [N.eqb Pos.eqb].
    cbn [a2b_base64 b64_pad]. cbn. f_equal. f_equal.
    apply byte_of_eq. lia.
  - pose proof (to_N_lt_256 a) as Ha. pose proof (to_N_lt_256 b) as Hb.
    cbn [b64encode].
    rewrite !a2b_base64_sextet by lia. cbn [N.eqb Pos.eqb].
    cbn [a2b_base64 b64_pad]. cbn. f_equal. f_equal; [|f_equal].
    all: apply byte_of_eq; lia.
  - pose proof (to_N_lt_256 a) as Ha. pose proof (to_N_lt_256 b) as Hb.
    pose proof (to_N_lt_256 c) as Hc.
    cbn [b64encode].
    rewrite !a2b_base64_sextet by lia. cbn [N.eqb Pos.eqb].
    rewrite IH. cbn [emit res_bind]. f_equal. f_equal; [|f_equal; [|f_equal]].
    all: apply byte_of_eq; lia.
Qed.
Lemma res_cons_ok c r s : r = Ok s -> res_cons c r = Ok (c :: s).
Proof. now intros ->. Qed.

Lemma Ok_inj (A : Type) (a b : A) : Ok a = Ok b -> a = b.
Proof. now intros [= ->]. Qed.

Ltac cmp_cases :=
  repeat match goal with
         | |- context [(?a <? ?b)%N] => destruct (N.ltb_spec a b); try lia
         | |- context [(?a <=? ?b)%N] => destruct (N.leb_spec a b); try lia
         end.

Lemma utf8_decode_encode_cp (c : N) (e rest : bytes) :
  utf8_encode_cp c = Ok e ->
  utf8_decode (e ++ rest) = res_cons c (utf8_decode rest).
Proof.
  unfold utf8_encode_cp.
  destruct (N.ltb_spec c 128) as [H1|H1].
  { intros He; apply Ok_inj in He; subst e. cbn [app utf8_decode].
    rewrite to_N_byte_of by lia.
    destruct (N.ltb_spec c 128); [reflexivity|lia]. }
  pose proof (N.div_mod' c 64) as E1.
  pose proof (N.mod_lt c 64 ltac:(lia)) as B1.
  replace (c / 4096)%N with (c / 64 / 64)%N
    by (rewrite N.Div0.div_div by lia; reflexivity).
  replace (c / 262144)%N with (c / 64 / 64 / 64)%N
    by (rewrite !N.Div0.div_div by lia; reflexivity).
  remember (c / 64)%N as q1 eqn:Q1. remember (c mod 64)%N as r1 eqn:R1.
  clear Q1 R1.
  destruct (N.ltb_spec c 2048) as [H2|H2].
  { intros He; apply Ok_inj in He; subst e. cbn [app utf8_decode]. unfold utf8_cont, utf8_low.

    rewrite !to_N_byte_of by lia.
    cmp_cases. cbn [andb]. f_equal. lia. }
  pose proof (N.div_mod' q1 64) as E2.
  pose proof (N.mod_lt q1 64 ltac:(lia)) as B2.
  replace (q1 / 4096)%N with (q1 / 64 / 64)%N
    by (rewrite N.Div0.div_div by lia; reflexivity).
  remember (q1 / 64)%N as q2 eqn:Q2. remember (q1 mod 64)%N as r2 eqn:R2.
  clear Q2 R2.
  destruct (N.leb_spec 55296 c) as [H3|H3];
    destruct (N.leb_spec c 57343) as [H4|H4]; cbn [andb]; try discriminate.
  all: destruct (N.ltb_spec c 65536) as [H5|H5].
  all: try (intros He; apply Ok_inj in He; subst e; cbn [app utf8_decode]; unfold utf8_cont, utf8_low;
            rewrite !to_N_byte_of by lia; cmp_cases; cbn [andb negb];
            f_equal; lia).
  all: pose proof (N.div_mod' q2 64) as E3;
    pose proof (N.mod_lt q2 64 ltac:(lia)) as B3;
    remember (q2 / 64)%N as q3 eqn:Q3; remember (q2 mod 64)%N as r3 eqn:R3;
    clear Q3 R3.
  all: destruct (N.ltb_spec c 1114112) as [H6|H6]; try discriminate.
  all: intros He; apply Ok_inj in He; subst e; cbn [app utf8_decode]; unfold utf8_cont, utf8_low;
    rewrite !to_N_byte_of by lia; cmp_cases; cbn [andb negb]; f_equal; lia.
Qed.

Theorem utf8_decode_encode (s : pystr) (bs : bytes) :
  utf8_encode s = Ok bs -> utf8_decode bs = Ok s.
Proof.
  revert bs. induction s as [|c s IH]; intros bs.
  - now intros [= <-].
  - cbn [utf8_encode].
    destruct (utf8_encode_cp c) as [e|] eqn:Ec; [|discriminate].
    destruct (utf8_encode s) as [bs'|] eqn:Es; [|discriminate].
    cbn [res_bind]. intros He; apply Ok_inj in He; subst bs.
    rewrite (utf8_decode_encode_cp _ _ Ec), (IH _ eq_refl). reflexivity.
Qed.

Lemma ascii_decode_b64encode (data : bytes) :
  ascii_decode (b64encode data) = Ok (b64_text data).
Proof.
  unfold b64_text.
  induction data as [|a|a b|a b c l IH] using list_ind3.
  - reflexivity.
  - cbn [b64encode ascii_decode map]. rewrite !b64_char_ascii. reflexivity.
  - cbn [b64encode ascii_decode map]. rewrite !b64_char_ascii. reflexivity.
  - cbn [b64encode ascii_decode map]. rewrite !b64_char_ascii, IH. reflexivity.
Qed.

Lemma b64_total (data : bytes) : b64 data = Ok (b64_text data).
Proof. apply ascii_decode_b64encode. Qed.

Lemma ascii_encode_decode (bs : bytes) (s : pystr) :
  ascii_decode bs = Ok s -> ascii_encode s = Ok bs.
Proof.
  revert s. induction bs as [|b bs IH]; intros s; cbn [ascii_decode].
  - intros He. apply Ok_inj in He. now subst s.
  - destruct (N.ltb_spec (Byte.to_N b) 128) as [Hb|Hb]; [|discriminate].
    destruct (ascii_decode bs) as [s'|] eqn:E; [|discriminate].
    cbn [res_bind]. intros He. apply Ok_inj in He. subst s.
    cbn [ascii_encode]. apply N.ltb_lt in Hb. rewrite Hb.
    rewrite (IH _ eq_refl). cbn [res_bind]. now rewrite byte_of_to_N.
Qed.

(** [b64d] undoes [b64]. *)
Lemma b64d_str_b64_text (data : bytes) : b64d_str (b64_text data) = Ok data.
Proof.
  unfold b64d_str.
  rewrite (ascii_encode_decode _ (ascii_decode_b64encode data)).
  apply b64decode_b64encode.
Qed.

Lemma utf8_encode_nil (s : pystr) : utf8_encode s = Ok [] -> s = [].
Proof.
  destruct s as [|c s]; [reflexivity|]. cbn [utf8_encode].
  destruct (utf8_encode_cp c) as [e|] eqn:Ec; [|discriminate].
  destruct (utf8_encode s) as [bs|]; [|discriminate].
  cbn [res_bind]. intros He. apply Ok_inj in He.
  apply app_eq_nil in He. destruct He as [-> _].
  revert Ec. unfold utf8_encode_cp.
  repeat match goal with
         | |- context [if ?b then _ else _] => destruct b
         end; discriminate.
Qed.

Lemma utf8_encode_inj (s t : pystr) (bs : bytes) :
  utf8_encode s = Ok bs -> utf8_encode t = Ok bs -> s = t.
Proof.
  intros Hs Ht. apply utf8_decode_encode in Hs, Ht. congruence.
Qed.

(* ================================================================== *)
(** * Running a script step by step *)
(* ================================================================== *)

Section Steps.

Variable rt : runtime.
Variables A B : Type.
Variable k : A -> M B.
Variable w : world.

Lemma bind_ret (a : A) : bind (ret a) k w = k a w.
Proof. reflexivity. Qed.

Lemma bind_raise (e : exn) : bind (raise e) k w = (Raise e, w).
Proof. reflexivity. Qed.

Lemma bind_lift_Ok (r : res A) (a : A) :
  r = Ok a -> bind (lift r) k w = k a w.
Proof. now intros ->. Qed.

Lemma bind_lift_Raise (r : res A) (e : exn) :
  r = Raise e -> bind (lift r) k w = (Raise e, w).
Proof. now intros ->. Qed.

Lemma bind_bind (C : Type) (m : M C) (h : C -> M A) :
  bind (bind m h) k w = bind m (fun c => bind (h c) k) w.
Proof. unfold bind. destruct (m w) as [[c|e] w']; reflexivity. Qed.

End Steps.

Section UnitSteps.

Variable rt : runtime.
Variable B : Type.
Variable w : world.

Lemma bind_record (c : call) (k : unit -> M B) :
  bind (record c) k w = k tt (set_calls (calls w ++ [c]) w).
Proof. reflexivity. Qed.

Lemma bind_stdout_write (s : pystr) (k : unit -> M B) :
  bind (stdout_write s) k w = k tt (set_stdout (stdout w ++ s) w).
Proof. reflexivity. Qed.

Lemma bind_print (s : pystr) (k : unit -> M B) :
  bind (print s) k w = k tt (set_stdout (stdout w ++ s ++ nl) w).
Proof. reflexivity. Qed.

Lemma bind_stderr_write (s : pystr) (k : unit -> M B) :
  bind (stderr_write s) k w = k tt (set_stderr (stderr w ++ s) w).
Proof. reflexivity. Qed.

Lemma bind_readline (k : pystr -> M B) :
  bind readline k w = k (stdin_line w) w.
Proof. reflexivity. Qed.

Lemma bind_getpass (prompt : pystr) (k : pystr -> M B) :
  bind (getpass prompt) k w = k (typed_password w) w.
Proof. reflexivity. Qed.

Lemma bind_urandom (n : nat) (k : bytes -> M B) :
  bind (urandom n) k w =
  k (slice (entropy w) (drawn w) n)
    (set_drawn (drawn w + n) (set_calls (calls w ++ [Urandom n]) w)).
Proof. reflexivity. Qed.

Lemma bind_scrypt_Ok password salt n r p dklen key (k : bytes -> M B) :
  scrypt rt password salt n r p dklen = Ok key ->
  bind (hashlib_scrypt rt password salt n r p dklen) k w =
  k key (set_calls (calls w ++ [Scrypt password salt n r p dklen]) w).
Proof. unfold hashlib_scrypt, bind, record, lift. now intros ->. Qed.

Lemma bind_scrypt_Raise password salt n r p dklen e (k : bytes -> M B) :
  scrypt rt password salt n r p dklen = Raise e ->
  bind (hashlib_scrypt rt password salt n r p dklen) k w =
  (Raise e, set_calls (calls w ++ [Scrypt password salt n r p dklen]) w).
Proof. unfold hashlib_scrypt, bind, record, lift. now intros ->. Qed.

Lemma bind_construct_Ok a key (k : cipher -> M B) :
  aead_init rt a key = Ok tt ->
  bind (construct rt a key) k w =
  k (Cipher a key) (set_calls (calls w ++ [AeadNew a key]) w).
Proof. unfold construct, bind, record, lift, ret. now intros ->. Qed.

Lemma bind_construct_Raise a key e (k : cipher -> M B) :
  aead_init rt a key = Raise e ->
  bind (construct rt a key) k w =
  (Raise e, set_calls (calls w ++ [AeadNew a key]) w).
Proof. unfold construct, bind, record, lift, ret. now intros ->. Qed.

Lemma bind_encrypt_Ok a key nonce data aad ct (k : bytes -> M B) :
  aead_encrypt rt a key nonce data aad = Ok ct ->
  bind (encrypt rt (Cipher a key) nonce data aad) k w =
  k ct (set_calls (calls w ++ [AeadEncrypt a key nonce data aad]) w).
Proof. unfold encrypt, bind, record, lift. cbn. now intros ->. Qed.

Lemma bind_encrypt_Raise a key nonce data aad e (k : bytes -> M B) :
  aead_encrypt rt a key nonce data aad = Raise e ->
  bind (encrypt rt (Cipher a key) nonce data aad) k w =
  (Raise e, set_calls (calls w ++ [AeadEncrypt a key nonce data aad]) w).
Proof. unfold encrypt, bind, record, lift. cbn. now intros ->. Qed.

Lemma bind_decrypt_Ok a key nonce data aad pt (k : bytes -> M B) :
  aead_decrypt rt a key nonce data aad = Ok pt ->
  bind (decrypt rt (Cipher a key) nonce data aad) k w =
  k pt (set_calls (calls w ++ [AeadDecrypt a key nonce data aad]) w).
Proof. unfold decrypt, bind, record, lift. cbn. now intros ->. Qed.

Lemma bind_decrypt_Raise a key nonce data aad e (k : bytes -> M B) :
  aead_decrypt rt a key nonce data aad = Raise e ->
  bind (decrypt rt (Cipher a key) nonce data aad) k w =
  (Raise e, set_calls (calls w ++ [AeadDecrypt a key nonce data aad]) w).
Proof. unfold decrypt, bind, record, lift. cbn. now intros ->. Qed.

End UnitSteps.

(* ================================================================== *)
(** * The run of [crypto_encrypt.py] *)
(* ================================================================== *)

Ltac simpl_world :=
  cbn [stdin_line typed_password entropy drawn demo_json demo_jsonc stdout
       stderr calls set_drawn set_demo_json set_demo_jsonc set_stdout
       set_stderr set_calls set_typed_password
       Encrypt.AEAD Encrypt.NonceLen cipher_class cipher_key fst snd].

Lemma encrypt_aead_new rt (a : aead_class) (key : bytes) :
  Encrypt.aead_new rt (Encrypt.Globals (class_name a) (nonce_size a)) key
  = construct rt a key.
Proof. destruct a; reflexivity. Qed.

Lemma json_sorted_out (aead salt v e n c : pystr) :
  json_sorted
    (JDict [(py "aead", JStr aead);
            (py "kdf",
             JDict [(py "type", JStr (py "scrypt"));
                    (py "salt_b64", JStr salt);
                    (py "params", dict_of_ints Encrypt.kdf_params)]);
            (py "vault_key_enc_b64", JStr v);
            (py "enc_dek_b64", JStr e);
            (py "nonce_payload_b64", JStr n);
            (py "ciphertext_b64", JStr c)])
  = document aead salt v e n c.
Proof. reflexivity. Qed.


Ltac run_step :=
  first
    [ rewrite bind_ret
    | rewrite bind_raise
    | rewrite bind_record
    | rewrite bind_print
    | rewrite bind_stdout_write
    | rewrite bind_stderr_write
    | rewrite bind_readline
    | rewrite bind_getpass
    | rewrite bind_urandom
    | rewrite encrypt_aead_new
    | erewrite bind_lift_Ok by (eassumption || apply b64_total)
    | erewrite bind_lift_Raise by eassumption
    | erewrite bind_scrypt_Ok by eassumption
    | erewrite bind_scrypt_Raise by eassumption
    | erewrite bind_construct_Ok by eassumption
    | erewrite bind_construct_Raise by eassumption
    | erewrite bind_encrypt_Ok by eassumption
    | erewrite bind_encrypt_Raise by eassumption
    | erewrite bind_decrypt_Ok by eassumption
    | erewrite bind_decrypt_Raise by eassumption ].

Ltac norm_world :=
  unfold set_drawn, set_demo_json, set_demo_jsonc, set_stdout, set_stderr,
    set_calls, set_typed_password;
  cbn [stdin_line typed_password entropy drawn demo_json demo_jsonc stdout
       stderr calls Encrypt.AEAD Encrypt.NonceLen cipher_class cipher_key
       fst snd format].

Ltac run := repeat (run_step; norm_world).

Lemma bind_json_dump (B : Type) (out : json) (k : unit -> M B) (w : world) :
  bind (json_dump out) k w = k tt (set_demo_json (Some (json_sorted out)) w).
Proof. reflexivity. Qed.

Lemma bind_open_jsonc (B : Type) (k : unit -> M B) (w : world) :
  bind open_jsonc k w = k tt (set_demo_jsonc (Some []) w).
Proof. reflexivity. Qed.

Lemma bind_handle_write (B : Type) (s : pystr) (k : unit -> M B) (w : world) :
  bind (handle_write s) k w =
  k tt (set_demo_jsonc (Some (match demo_jsonc w with
                              | Some t => t ++ s
                              | None => s
                              end)) w).
Proof. reflexivity. Qed.




Lemma bind_run (A B : Type) (m : M A) (k : A -> M B) (w w' : world) (a : A) :
  m w = (Ok a, w') -> bind m k w = k a w'.
Proof. unfold bind. now intros ->. Qed.

Lemma handle_write_run (s : pystr) (w : world) :
  handle_write s w =
  (Ok tt,
   set_demo_jsonc (Some (match demo_jsonc w with
                         | Some t => t ++ s
                         | None => s
                         end)) w).
Proof. reflexivity. Qed.

Lemma write_jsonc_run (rt : runtime) (aead salt v e n c : pystr) (w : world) :
  Encrypt.write_jsonc rt
    (JDict [(py "aead", JStr aead);
            (py "kdf",
             JDict [(py "type", JStr (py "scrypt"));
                    (py "salt_b64", JStr salt);
                    (py "params", dict_of_ints Encrypt.kdf_params)]);
            (py "vault_key_enc_b64", JStr v);
            (py "enc_dek_b64", JStr e);
            (py "nonce_payload_b64", JStr n);
            (py "ciphertext_b64", JStr c)]) w
  = (Ok tt,
     set_demo_jsonc
       (Some (annotated aead v e n c (py "scrypt") salt
                (json_dumps (dict_of_ints Encrypt.kdf_params)))) w).
Proof.
  unfold Encrypt.write_jsonc.
  repeat (first
    [ rewrite bind_open_jsonc
    | rewrite bind_handle_write
    | erewrite bind_lift_Ok by reflexivity ];
  norm_world).
  rewrite handle_write_run. norm_world.
  unfold annotated, quoted. cbn [concat].
  rewrite <- !app_assoc. rewrite app_nil_r. cbn [app].
  reflexivity.
Qed.

Lemma imports_run (rt : runtime) (w : world) :
  have_xchacha rt || have_chacha rt = true ->
  Encrypt.imports rt w =
  (Ok (Encrypt.Globals (class_name (class_of rt)) (nonce_size (class_of rt))),
   imported rt w).
Proof.
  unfold imported, Encrypt.imports, class_of.
  destruct (have_xchacha rt); [reflexivity|].
  destruct (have_chacha rt); [reflexivity|discriminate].
Qed.

Lemma imported_inputs (rt : runtime) (w : world) :
  have_xchacha rt || have_chacha rt = true ->
  stdin_line (imported rt w) = stdin_line w
  /\ typed_password (imported rt w) = typed_password w
  /\ entropy (imported rt w) = entropy w
  /\ drawn (imported rt w) = drawn w
  /\ demo_json (imported rt w) = demo_json w
  /\ demo_jsonc (imported rt w) = demo_jsonc w
  /\ stdout (imported rt w) = stdout w
  /\ calls (imported rt w) = calls w.
Proof.
  unfold imported, Encrypt.imports.
  destruct (have_xchacha rt); [repeat split|].
  destruct (have_chacha rt); [repeat split|discriminate].
Qed.

Lemma getitem_kdf_params :
  getitem Encrypt.kdf_params (py "n") = Ok 16384%Z
  /\ getitem Encrypt.kdf_params (py "r") = Ok 8%Z
  /\ getitem Encrypt.kdf_params (py "p") = Ok 1%Z
  /\ getitem Encrypt.kdf_params (py "dk_len") = Ok 32%Z.
Proof. repeat split. Qed.

Lemma main_forward (rt : runtime) (a : aead_class) (w : world) (s : sealing) :
  let nonce_len := nonce_size a in
  let ent := entropy w in
  let pos := drawn w in
  s_class s = a ->
  utf8_encode (rstrip_newline (stdin_line w)) = Ok (s_plaintext s) ->
  s_plaintext s <> [] ->
  typed_password w <> [] ->
  utf8_encode (typed_password w) = Ok (s_password s) ->
  s_kdf_salt s = slice ent pos 16 ->
  scrypt rt (s_password s) (s_kdf_salt s) 16384 8 1 32 = Ok (s_master_key s) ->
  s_vault_key s = slice ent (pos + 16) 32 ->
  s_nonce_vault s = slice ent (pos + 16 + 32) nonce_len ->
  aead_init rt a (s_master_key s) = Ok tt ->
  aead_encrypt rt a (s_master_key s) (s_nonce_vault s) (s_vault_key s) []
  = Ok (s_vault_key_enc s) ->
  s_dek s = slice ent (pos + 16 + 32 + nonce_len) 32 ->
  s_nonce_dekwrap s = slice ent (pos + 16 + 32 + nonce_len + 32) nonce_len ->
  aead_init rt a (s_vault_key s) = Ok tt ->
  aead_encrypt rt a (s_vault_key s) (s_nonce_dekwrap s) (s_dek s) []
  = Ok (s_ct_dekwrap s) ->
  s_nonce_payload s
  = slice ent (pos + 16 + 32 + nonce_len + 32 + nonce_len) nonce_len ->
  aead_init rt a (s_dek s) = Ok tt ->
  aead_encrypt rt a (s_dek s) (s_nonce_payload s) (s_plaintext s) []
  = Ok (s_ciphertext s) ->
  exists w1,
    Encrypt.main rt (Encrypt.Globals (class_name a) (nonce_size a)) w
    = (Ok 0%Z, w1)
    /\ leaves w s w1.
Proof.
  intros nonce_len ent pos Ha HP HP0 HW0 HW Esalt Hmk Evk Env Imk Hvke Edek End
         Ivk Hctd Enp Idek Hct.
  subst nonce_len ent pos.
  pose proof getitem_kdf_params as (Gn & Gr & Gp & Gd).
  destruct s as [a' W P salt mk vk nv vke dek nd ctd np ct].
  cbn [s_class s_password s_plaintext s_kdf_salt s_master_key s_vault_key
       s_nonce_vault s_vault_key_enc s_dek s_nonce_dekwrap s_ct_dekwrap
       s_nonce_payload s_ciphertext] in *.
  subst a' salt vk nv dek nd np.
  destruct P as [|b P]; [congruence|].
  destruct (typed_password w) as [|c pw] eqn:Epw; [congruence|].
  unfold Encrypt.main.
  run.
  rewrite Epw. norm_world.
  run.
  rewrite bind_json_dump, json_sorted_out. norm_world.
  erewrite bind_run by apply write_jsonc_run. norm_world.
  run.
  eexists. split; [reflexivity|].
  unfold leaves, envelope_of, seal_calls.
  cbn [s_class s_password s_plaintext s_kdf_salt s_master_key s_vault_key
       s_nonce_vault s_vault_key_enc s_dek s_nonce_dekwrap s_ct_dekwrap
       s_nonce_payload s_ciphertext].
  norm_world.
  rewrite <- !app_assoc. cbn [app].
  repeat split; try reflexivity. now symmetry.
Qed.

Lemma pair_inj (A B : Type) (a a' : A) (b b' : B) :
  (a, b) = (a', b') -> a = a' /\ b = b'.
Proof. intros H. split; congruence. Qed.

Lemma length_slice (ent : nat -> byte) (pos n : nat) :
  length (slice ent pos n) = n.
Proof. unfold slice. now rewrite length_map, length_seq. Qed.

Lemma seals_imported (rt : runtime) (w : world) (s : sealing) :
  seals rt (imported rt w) s <-> seals rt w s.
Proof.
  unfold seals.
  destruct (have_xchacha rt || have_chacha rt) eqn:Hav.
  - destruct (imported_inputs rt w Hav)
      as (Il & Ip & Ie & Id & _ & _ & _ & _).
    rewrite Il, Ip, Ie, Id. reflexivity.
  - split; intros (H & _); discriminate.
Qed.

Lemma main_seals (rt : runtime) (w : world) (s : sealing) :
  seals rt w s ->
  exists w1,
    Encrypt.main rt
      (Encrypt.Globals (class_name (class_of rt)) (nonce_size (class_of rt))) w
    = (Ok 0%Z, w1)
    /\ leaves w s w1.
Proof.
  unfold seals.
  intros (Hav & Ha & HP & HP0 & HW0 & HW & Esalt & Hmk & Evk & Env & Imk & Hvke
          & Edek & End & Ivk & Hctd & Enp & Idek & Hct).
  rewrite <- Ha. apply main_forward; auto.
Qed.

(** A run that binds the values of [s] ends with status 0 and leaves the
    envelope of [s]. *)
Lemma seal_forward (rt : runtime) (w : world) (s : sealing) :
  seals rt w s ->
  exists w1,
    Encrypt.script rt w = (Ok 0%Z, w1) /\ leaves (imported rt w) s w1.
Proof.
  intros Hs. pose proof Hs as (Hav & _).
  unfold Encrypt.script.
  erewrite bind_run by (apply imports_run; assumption).
  apply main_seals. now apply seals_imported.
Qed.

(** With a runtime that obeys its laws, every run on non-empty input binds
    all its values. *)
Lemma seal_total (rt : runtime) (w : world) (P W : bytes) :
  scrypt_derives rt -> aead_takes_32 rt -> aead_encrypts rt ->
  have_xchacha rt || have_chacha rt = true ->
  utf8_encode (rstrip_newline (stdin_line w)) = Ok P -> P <> [] ->
  utf8_encode (typed_password w) = Ok W -> W <> [] ->
  exists s, seals rt w s /\ s_plaintext s = P /\ s_password s = W
            /\ length (s_master_key s) = 32.
Proof.
  intros Hkdf Hinit Henc Hav HP HP0 HW HW0.
  set (a := class_of rt).
  set (ent := entropy w). set (pos := drawn w). set (nl_ := nonce_size a).
  destruct (Hkdf W (slice ent pos 16)) as (mk & Hmk & Lmk).
  destruct (Henc a mk (slice ent (pos + 16 + 32) nl_) (slice ent (pos + 16) 32))
    as (vke & Hvke); [assumption|apply length_slice|].
  destruct (Henc a (slice ent (pos + 16) 32)
              (slice ent (pos + 16 + 32 + nl_ + 32) nl_)
              (slice ent (pos + 16 + 32 + nl_) 32))
    as (ctd & Hctd); [apply length_slice|apply length_slice|].
  destruct (Henc a (slice ent (pos + 16 + 32 + nl_) 32)
              (slice ent (pos + 16 + 32 + nl_ + 32 + nl_) nl_) P)
    as (ct & Hct); [apply length_slice|apply length_slice|].
  exists (Sealing a W P (slice ent pos 16) mk (slice ent (pos + 16) 32)
            (slice ent (pos + 16 + 32) nl_) vke
            (slice ent (pos + 16 + 32 + nl_) 32)
            (slice ent (pos + 16 + 32 + nl_ + 32) nl_) ctd
            (slice ent (pos + 16 + 32 + nl_ + 32 + nl_) nl_) ct).
  unfold seals.
  cbn [s_class s_password s_plaintext s_kdf_salt s_master_key s_vault_key
       s_nonce_vault s_vault_key_enc s_dek s_nonce_dekwrap s_ct_dekwrap
       s_nonce_payload s_ciphertext].
  repeat split; auto using length_slice.
  intros E. rewrite E in HW. cbn in HW. apply Ok_inj in HW. congruence.
Qed.

Ltac fail_run :=
  unfold Encrypt.main; run;
  intros Hrun; apply pair_inj in Hrun; destruct Hrun; discriminate.

Ltac fail_run_pw Epw :=
  unfold Encrypt.main; run; rewrite <- Epw; norm_world; run;
  intros Hrun; apply pair_inj in Hrun; destruct Hrun; discriminate.

(** Every run of [main] that ends with status 0 bound all its values. *)
Lemma main_inversion (rt : runtime) (w w1 : world) :
  have_xchacha rt || have_chacha rt = true ->
  Encrypt.main rt
    (Encrypt.Globals (class_name (class_of rt)) (nonce_size (class_of rt))) w
  = (Ok 0%Z, w1) ->
  exists s, seals rt w s /\ leaves w s w1.
Proof.
  intros Hav.
  pose proof getitem_kdf_params as (Gn & Gr & Gp & Gd).
  assert (forall s, seals rt w s ->
            Encrypt.main rt
              (Encrypt.Globals (class_name (class_of rt))
                 (nonce_size (class_of rt))) w = (Ok 0%Z, w1) ->
            exists s, seals rt w s /\ leaves w s w1) as Hdone.
  { intros s Hs Hrun. exists s. split; [assumption|].
    destruct (main_seals Hs) as (w1' & Hrun' & Hl).
    rewrite Hrun' in Hrun. apply pair_inj in Hrun. destruct Hrun as [_ <-].
    exact Hl. }
  destruct (utf8_encode (rstrip_newline (stdin_line w))) as [P|e] eqn:HP.
  2:{ fail_run. }
  destruct P as [|b P].
  { fail_run. }
  remember (typed_password w) as tp eqn:Epw.
  destruct tp as [|c pw].
  { fail_run_pw Epw. }
  destruct (utf8_encode (c :: pw)) as [W|e] eqn:HW.
  2:{ fail_run_pw Epw. }
  destruct (scrypt rt W (slice (entropy w) (drawn w) 16) 16384 8 1 32)
    as [mk|e] eqn:Hmk.
  2:{ fail_run_pw Epw. }
  destruct (aead_init rt (class_of rt) mk) as [[]|e] eqn:Imk.
  2:{ fail_run_pw Epw. }
  destruct (aead_encrypt rt (class_of rt) mk
              (slice (entropy w) (drawn w + 16 + 32) (nonce_size (class_of rt)))
              (slice (entropy w) (drawn w + 16) 32) []) as [vke|e] eqn:Hvke.
  2:{ fail_run_pw Epw. }
  destruct (aead_init rt (class_of rt) (slice (entropy w) (drawn w + 16) 32))
    as [[]|e] eqn:Ivk.
  2:{ fail_run_pw Epw. }
  destruct (aead_encrypt rt (class_of rt)
              (slice (entropy w) (drawn w + 16) 32)
              (slice (entropy w)
                 (drawn w + 16 + 32 + nonce_size (class_of rt) + 32)
                 (nonce_size (class_of rt)))
              (slice (entropy w)
                 (drawn w + 16 + 32 + nonce_size (class_of rt)) 32) [])
    as [ctd|e] eqn:Hctd.
  2:{ fail_run_pw Epw. }
  destruct (aead_init rt (class_of rt)
              (slice (entropy w)
                 (drawn w + 16 + 32 + nonce_size (class_of rt)) 32))
    as [[]|e] eqn:Idek.
  2:{ fail_run_pw Epw. }
  destruct (aead_encrypt rt (class_of rt)
              (slice (entropy w)
                 (drawn w + 16 + 32 + nonce_size (class_of rt)) 32)
              (slice (entropy w)
                 (drawn w + 16 + 32 + nonce_size (class_of rt) + 32
                  + nonce_size (class_of rt))
                 (nonce_size (class_of rt)))
              (b :: P) [])
    as [ct|e] eqn:Hct.
  2:{ fail_run_pw Epw. }
  apply (Hdone
           (Sealing (class_of rt) W (b :: P)
              (slice (entropy w) (drawn w) 16) mk
              (slice (entropy w) (drawn w + 16) 32)
              (slice (entropy w) (drawn w + 16 + 32)
                 (nonce_size (class_of rt)))
              vke
              (slice (entropy w)
                 (drawn w + 16 + 32 + nonce_size (class_of rt)) 32)
              (slice (entropy w)
                 (drawn w + 16 + 32 + nonce_size (class_of rt) + 32)
                 (nonce_size (class_of rt)))
              ctd
              (slice (entropy w)
                 (drawn w + 16 + 32 + nonce_size (class_of rt) + 32
                  + nonce_size (class_of rt))
                 (nonce_size (class_of rt)))
              ct)).
  unfold seals.
  cbn [s_class s_password s_plaintext s_kdf_salt s_master_key s_vault_key
       s_nonce_vault s_vault_key_enc s_dek s_nonce_dekwrap s_ct_dekwrap
       s_nonce_payload s_ciphertext].
  rewrite <- Epw.
  repeat split; auto; discriminate.
Qed.

(** Every run of the script that ends with status 0 bound all its values. *)
Lemma seal_inversion (rt : runtime) (w w1 : world) :
  Encrypt.script rt w = (Ok 0%Z, w1) ->
  exists s, seals rt w s /\ leaves (imported rt w) s w1.
Proof.
  destruct (have_xchacha rt || have_chacha rt) eqn:Hav.
  2:{ unfold Encrypt.script, Encrypt.imports, bind.
      apply orb_false_iff in Hav. destruct Hav as [-> ->]. discriminate. }
  unfold Encrypt.script.
  erewrite bind_run by (apply imports_run; assumption).
  intros Hrun. apply main_inversion in Hrun; [|assumption]. destruct Hrun as (s & Hs & Hl).
  exists s. split; [now apply seals_imported|assumption].
Qed.

(* ================================================================== *)
(** * The run of [crypto_decrypt.py] *)
(* ================================================================== *)

Lemma pystr_eqb_eq (s t : pystr) : pystr_eqb s t = true <-> s = t.
Proof.
  revert t. induction s as [|a s IH]; intros [|b t]; cbn [pystr_eqb];
    try (split; [discriminate|discriminate]); try tauto.
  rewrite andb_true_iff, N.eqb_eq, IH. split.
  - intros [-> ->]. reflexivity.
  - intros [= -> ->]. auto.
Qed.

Lemma class_named_name (a : aead_class) :
  class_named (JStr (class_name a)) = Some a.
Proof. destruct a; reflexivity. Qed.

Lemma class_named_inv (aead : json) (a : aead_class) :
  class_named aead = Some a -> aead = JStr (class_name a).
Proof.
  unfold class_named, json_eq_str. destruct aead as [| | |s| |]; try discriminate.
  destruct (pystr_eqb s (py "xchacha20poly1305")) eqn:Ex.
  - intros [= <-]. apply pystr_eqb_eq in Ex. now subst s.
  - destruct (pystr_eqb s (py "chacha20poly1305")) eqn:Ec; [|discriminate].
    intros [= <-]. apply pystr_eqb_eq in Ec. now subst s.
Qed.

Section AeadNew.

Variable rt : runtime.
Variable B : Type.
Variable k : cipher * nat -> M B.
Variable w : world.
Variable aead : json.
Variable key : bytes.

Lemma bind_aead_new_unknown :
  class_named aead = None ->
  bind (Decrypt.aead_new rt aead key) k w =
  (Raise (RuntimeError (py "unsupported AEAD: " ++ format rt aead)), w).
Proof.
  unfold class_named, Decrypt.aead_new.
  destruct (json_eq_str aead (py "xchacha20poly1305")); [discriminate|].
  destruct (json_eq_str aead (py "chacha20poly1305")); [discriminate|].
  reflexivity.
Qed.

Variable a : aead_class.
Hypothesis Hname : class_named aead = Some a.

Lemma aead_new_named :
  Decrypt.aead_new rt aead key =
  if available rt a
  then bind (construct rt a key) (fun c => ret (c, nonce_size a))
  else raise (RuntimeError (not_available a)).
Proof.
  apply class_named_inv in Hname. subst aead. destruct a; reflexivity.
Qed.

Lemma bind_aead_new_missing :
  available rt a = false ->
  bind (Decrypt.aead_new rt aead key) k w =
  (Raise (RuntimeError (not_available a)), w).
Proof. intros Hav. rewrite aead_new_named, Hav. reflexivity. Qed.

Lemma bind_aead_new_Ok :
  available rt a = true -> aead_init rt a key = Ok tt ->
  bind (Decrypt.aead_new rt aead key) k w =
  k (Cipher a key, nonce_size a) (set_calls (calls w ++ [AeadNew a key]) w).
Proof.
  intros Hav Hinit. rewrite aead_new_named, Hav.
  unfold bind, construct, record, lift, ret. rewrite Hinit. reflexivity.
Qed.

Lemma bind_aead_new_Raise (e : exn) :
  available rt a = true -> aead_init rt a key = Raise e ->
  bind (Decrypt.aead_new rt aead key) k w =
  (Raise e, set_calls (calls w ++ [AeadNew a key]) w).
Proof.
  intros Hav Hinit. rewrite aead_new_named, Hav.
  unfold bind, construct, record, lift, ret. rewrite Hinit. reflexivity.
Qed.

End AeadNew.

Section Catch.

Variables A B : Type.
Variable m : M A.
Variable handler : exn -> M A.
Variable k : A -> M B.
Variables w w' : world.

Lemma bind_catch_Ok (a : A) :
  m w = (Ok a, w') -> bind (catch m handler) k w = k a w'.
Proof. unfold bind, catch. now intros ->. Qed.

Lemma bind_catch_Raise (e : exn) :
  m w = (Raise e, w') ->
  bind (catch m handler) k w = bind (handler e) k w'.
Proof. unfold bind, catch. now intros ->. Qed.

End Catch.

Lemma json_load_Some (w : world) (payload : json) :
  demo_json w = Some payload ->
  bind json_load (fun payload => ret (Some payload)) w = (Ok (Some payload), w).
Proof. unfold bind, json_load, ret. now intros ->. Qed.

Lemma json_load_None (w : world) :
  demo_json w = None ->
  bind json_load (fun payload => ret (Some payload)) w
  = (Raise FileNotFoundError, w).
Proof. unfold bind, json_load, ret. now intros ->. Qed.

Lemma unwrap_Ok (rt : runtime) a key nonce data (vault_key : bytes) (w : world) :
  aead_decrypt rt a key nonce data [] = Ok vault_key ->
  bind (decrypt rt (Cipher a key) nonce data [])
       (fun vault_key => ret (Some vault_key)) w
  = (Ok (Some vault_key),
     set_calls (calls w ++ [AeadDecrypt a key nonce data []]) w).
Proof. intros H. now erewrite bind_decrypt_Ok by eassumption. Qed.

Lemma unwrap_Raise (rt : runtime) a key nonce data (e : exn) (w : world) :
  aead_decrypt rt a key nonce data [] = Raise e ->
  bind (decrypt rt (Cipher a key) nonce data [])
       (fun vault_key => ret (Some vault_key)) w
  = (Raise e, set_calls (calls w ++ [AeadDecrypt a key nonce data []]) w).
Proof. intros H. now erewrite bind_decrypt_Raise by eassumption. Qed.

Ltac drun_step :=
  first
    [ rewrite bind_ret
    | rewrite bind_raise
    | rewrite bind_record
    | rewrite bind_stdout_write
    | rewrite bind_stderr_write
    | rewrite bind_getpass
    | erewrite bind_catch_Ok by (apply json_load_Some; eassumption)
    | erewrite bind_catch_Raise by (apply json_load_None; eassumption)
    | erewrite bind_catch_Ok by (apply unwrap_Ok; eassumption)
    | erewrite bind_catch_Raise by (apply unwrap_Raise; eassumption)
    | erewrite bind_lift_Ok by eassumption
    | erewrite bind_lift_Raise by eassumption
    | erewrite bind_scrypt_Ok by eassumption
    | erewrite bind_scrypt_Raise by eassumption
    | erewrite bind_aead_new_Ok by eassumption
    | erewrite bind_aead_new_Raise by eassumption
    | erewrite bind_aead_new_missing by eassumption
    | erewrite bind_aead_new_unknown by eassumption
    | erewrite bind_decrypt_Ok by eassumption
    | erewrite bind_decrypt_Raise by eassumption ].

Ltac drun := repeat (drun_step; norm_world).

Lemma res_bind_Ok_inv (A B : Type) (r : res A) (f : A -> res B) (b : B) :
  res_bind r f = Ok b -> exists a, r = Ok a /\ f a = Ok b.
Proof. destruct r as [a|e]; [|discriminate]. intros H. now exists a. Qed.

Lemma header_of_Ok (payload aead : json) (v e n c : bytes) :
  header_of payload = Ok (aead, v, e, n, c) ->
  subscript payload (py "aead") = Ok aead
  /\ res_bind (subscript payload (py "vault_key_enc_b64")) Decrypt.b64d = Ok v
  /\ res_bind (subscript payload (py "enc_dek_b64")) Decrypt.b64d = Ok e
  /\ res_bind (subscript payload (py "nonce_payload_b64")) Decrypt.b64d = Ok n
  /\ res_bind (subscript payload (py "ciphertext_b64")) Decrypt.b64d = Ok c.
Proof.
  unfold header_of. intros H.
  apply res_bind_Ok_inv in H. destruct H as (aead' & H1 & H).
  apply res_bind_Ok_inv in H. destruct H as (v' & H2 & H).
  apply res_bind_Ok_inv in H. destruct H as (e' & H3 & H).
  apply res_bind_Ok_inv in H. destruct H as (n' & H4 & H).
  apply res_bind_Ok_inv in H. destruct H as (c' & H5 & H).
  apply Ok_inj in H. injection H as <- <- <- <- <-. auto.
Qed.

Lemma kdf_inputs_of_Ok (rt : runtime) (payload : json) (salt : bytes)
      (n r p dklen : Z) :
  kdf_inputs_of rt payload = Ok (salt, n, r, p, dklen) ->
  exists kdf params,
    subscript payload (py "kdf") = Ok kdf
    /\ subscript kdf (py "params") = Ok params
    /\ res_bind (subscript kdf (py "salt_b64")) Decrypt.b64d = Ok salt
    /\ res_bind (subscript params (py "n")) (int rt) = Ok n
    /\ res_bind (subscript params (py "r")) (int rt) = Ok r
    /\ res_bind (subscript params (py "p")) (int rt) = Ok p
    /\ res_bind (subscript params (py "dk_len")) (int rt) = Ok dklen.
Proof.
  unfold kdf_inputs_of. intros H.
  apply res_bind_Ok_inv in H. destruct H as (kdf & H1 & H).
  apply res_bind_Ok_inv in H. destruct H as (params & H2 & H).
  apply res_bind_Ok_inv in H. destruct H as (salt' & H3 & H).
  apply res_bind_Ok_inv in H. destruct H as (n' & H4 & H).
  apply res_bind_Ok_inv in H. destruct H as (r' & H5 & H).
  apply res_bind_Ok_inv in H. destruct H as (p' & H6 & H).
  apply res_bind_Ok_inv in H. destruct H as (d' & H7 & H).
  apply Ok_inj in H. injection H as <- <- <- <- <-.
  exists kdf, params. auto 10.
Qed.

Lemma document_fields (aead salt v e n c : pystr) :
  let doc := document aead salt v e n c in
  subscript doc (py "aead") = Ok (JStr aead)
  /\ subscript doc (py "vault_key_enc_b64") = Ok (JStr v)
  /\ subscript doc (py "enc_dek_b64") = Ok (JStr e)
  /\ subscript doc (py "nonce_payload_b64") = Ok (JStr n)
  /\ subscript doc (py "ciphertext_b64") = Ok (JStr c)
  /\ exists kdf params,
       subscript doc (py "kdf") = Ok kdf
       /\ subscript kdf (py "type") = Ok (JStr (py "scrypt"))
       /\ subscript kdf (py "salt_b64") = Ok (JStr salt)
       /\ subscript kdf (py "params") = Ok params
       /\ subscript params (py "n") = Ok (JInt 16384)
       /\ subscript params (py "r") = Ok (JInt 8)
       /\ subscript params (py "p") = Ok (JInt 1)
       /\ subscript params (py "dk_len") = Ok (JInt 32)
       /\ json_dumps params = json_dumps (dict_of_ints Encrypt.kdf_params).
Proof.
  cbv zeta. repeat split.
  eexists. eexists. repeat split.
Qed.

Lemma b64d_b64_text (data : bytes) :
  Decrypt.b64d (JStr (b64_text data)) = Ok data.
Proof. apply b64d_str_b64_text. Qed.

Lemma header_of_document (aead salt : pystr) (v e n c : bytes) :
  header_of (document aead salt (b64_text v) (b64_text e) (b64_text n)
               (b64_text c))
  = Ok (JStr aead, v, e, n, c).
Proof.
  destruct (document_fields aead salt (b64_text v) (b64_text e) (b64_text n)
              (b64_text c)) as (H1 & H2 & H3 & H4 & H5 & _).
  unfold header_of. rewrite H1, H2, H3, H4, H5. cbn [res_bind].
  rewrite !b64d_b64_text. reflexivity.
Qed.

Lemma kdf_inputs_of_document (rt : runtime) (aead v e n c : pystr)
      (salt : bytes) :
  kdf_inputs_of rt (document aead (b64_text salt) v e n c)
  = Ok (salt, 16384, 8, 1, 32)%Z.
Proof.
  destruct (document_fields aead (b64_text salt) v e n c)
    as (_ & _ & _ & _ & _ & kdf & params & H1 & _ & H2 & H3 & H4 & H5 & H6
        & H7 & _).
  unfold kdf_inputs_of. rewrite H1. cbn [res_bind]. rewrite H3, H2.
  cbn [res_bind]. rewrite b64d_b64_text, H4, H5, H6, H7. reflexivity.
Qed.

Lemma firstn_app_exact (A : Type) (l r : list A) (n : nat) :
  length l = n -> firstn n (l ++ r) = l.
Proof.
  intros <-. rewrite firstn_app, Nat.sub_diag, firstn_all. cbn.
  apply app_nil_r.
Qed.

Lemma skipn_app_exact (A : Type) (l r : list A) (n : nat) :
  length l = n -> skipn n (l ++ r) = r.
Proof.
  intros <-. rewrite skipn_app, Nat.sub_diag, skipn_all. reflexivity.
Qed.

Lemma available_class_of (rt : runtime) :
  have_xchacha rt || have_chacha rt = true -> available rt (class_of rt) = true.
Proof.
  unfold available, class_of. destruct (have_xchacha rt) eqn:E; cbn; auto.
Qed.

(** The facts about a sealing that the opening uses. *)
Lemma seals_facts (rt : runtime) (w : world) (s : sealing) :
  seals rt w s ->
  available rt (s_class s) = true
  /\ length (s_nonce_vault s) = nonce_size (s_class s)
  /\ length (s_nonce_dekwrap s) = nonce_size (s_class s)
  /\ length (s_nonce_payload s) = nonce_size (s_class s)
  /\ length (s_vault_key s) = 32
  /\ length (s_dek s) = 32
  /\ length (s_kdf_salt s) = 16.
Proof.
  unfold seals.
  intros (Hav & Ha & HP & HP0 & HW0 & HW & Esalt & Hmk & Evk & Env & Imk & Hvke
          & Edek & End & Ivk & Hctd & Enp & Idek & Hct).
  rewrite Esalt, Evk, Env, Edek, End, Enp, !length_slice, Ha.
  repeat split. now apply available_class_of.
Qed.

Lemma open_sealed (rt : runtime) (w w' : world) (s : sealing) (text : pystr) :
  seals rt w s -> aead_correct rt ->
  demo_json w' = Some (envelope_of s) ->
  typed_password w' = typed_password w ->
  utf8_decode (s_plaintext s) = Ok text ->
  Decrypt.script rt w'
  = (Ok 0%Z,
     set_stdout (stdout w' ++ text ++ nl)
       (set_calls (calls w' ++ open_calls s) w')).
Proof.
  intros Hs Hcorrect Hdoc Hpw Htext.
  destruct (seals_facts Hs) as (Hav & Lnv & Lnd & Lnp & Lvk & Ldek & Lsalt).
  destruct Hs as (_ & Ha & HP & HP0 & HW0 & HW & Esalt & Hmk & Evk & Env & Imk
                  & Hvke & Edek & End & Ivk & Hctd & Enp & Idek & Hct).
  apply Hcorrect in Hvke, Hctd, Hct.
  pose proof (header_of_document (class_name (s_class s))
                (b64_text (s_kdf_salt s))
                (s_nonce_vault s ++ s_vault_key_enc s)
                (s_nonce_dekwrap s ++ s_ct_dekwrap s)
                (s_nonce_payload s) (s_ciphertext s)) as Hh.
  apply header_of_Ok in Hh. destruct Hh as (H1 & H2 & H3 & H4 & H5).
  pose proof (kdf_inputs_of_document rt (class_name (s_class s))
                (b64_text (s_nonce_vault s ++ s_vault_key_enc s))
                (b64_text (s_nonce_dekwrap s ++ s_ct_dekwrap s))
                (b64_text (s_nonce_payload s)) (b64_text (s_ciphertext s))
                (s_kdf_salt s)) as Hk.
  apply kdf_inputs_of_Ok in Hk.
  destruct Hk as (kdf & params & K1 & K2 & K3 & K4 & K5 & K6 & K7).
  pose proof (class_named_name (s_class s)) as Hname.
  fold (envelope_of s) in H1, H2, H3, H4, H5, K1.
  unfold Decrypt.script, Decrypt.main.
  drun.
  rewrite Hpw.
  destruct (typed_password w) as [|c pw] eqn:Epw; [congruence|].
  drun.
  rewrite firstn_app_exact, skipn_app_exact by assumption.
  drun.
  rewrite firstn_app_exact, skipn_app_exact by assumption.
  drun.
  unfold open_calls. rewrite <- !app_assoc. cbn [app].
  rewrite <- Hpw. reflexivity.
Qed.

Ltac explore_step :=
  match goal with
  | |- context [bind (lift ?r) _ _] => destruct r eqn:?
  | |- context [bind (hashlib_scrypt ?rt ?a ?b ?c ?d ?e ?f) _ _] =>
      destruct (scrypt rt a b c d e f) eqn:?
  | |- context [bind (Decrypt.aead_new ?rt ?aead ?key) _ _] =>
      lazymatch goal with
      | H : class_named aead = Some ?a |- _ =>
          lazymatch goal with
          | H2 : available rt a = true |- _ =>
              destruct (aead_init rt a key) as [[]|] eqn:?
          | _ => destruct (available rt a) eqn:?
          end
      | _ => destruct (class_named aead) eqn:?
      end
  | |- context [bind (catch (bind (decrypt ?rt (Cipher ?a ?key) ?n ?d ?aad) _) _)
                  _ _] =>
      destruct (aead_decrypt rt a key n d aad) eqn:?
  | |- context [bind (decrypt ?rt (Cipher ?a ?key) ?n ?d ?aad) _ _] =>
      destruct (aead_decrypt rt a key n d aad) eqn:?
  | |- context [match typed_password ?w with [] => _ | _ :: _ => _ end] =>
      destruct (typed_password w) eqn:?
  end.

Lemma bind_lift_Ok_lit (A B : Type) (a : A) (k : A -> M B) (w : world) :
  bind (lift (Ok a)) k w = k a w.
Proof. reflexivity. Qed.

Lemma bind_lift_Raise_lit (A B : Type) (e : exn) (k : A -> M B) (w : world) :
  bind (lift (Raise e)) k w = (Raise e, w).
Proof. reflexivity. Qed.

Lemma bind_handler (A B : Type) (s : pystr) (a : A) (k : A -> M B)
      (w : world) :
  bind (bind (stderr_write s) (fun _ => ret a)) k w
  = k a (set_stderr (stderr w ++ s) w).
Proof. reflexivity. Qed.

Ltac explore :=
  repeat (first [ rewrite bind_lift_Ok_lit | rewrite bind_lift_Raise_lit
                | rewrite bind_handler | drun_step | explore_step ];
          norm_world);
  unfold ret.

Ltac leaf Hrun :=
  intros Hrun; apply pair_inj in Hrun; destruct Hrun as [<- <-];
  cbn [snd fst calls stdout stderr demo_json demo_jsonc typed_password].

Lemma decrypt_calls_app (l l' : list call) :
  decrypt_calls (l ++ l') = decrypt_calls l ++ decrypt_calls l'.
Proof. apply filter_app. Qed.


(* ================================================================== *)
(** * The small runtime obeys the laws *)
(* ================================================================== *)

Lemma bytes_eqb_eq (s t : bytes) : bytes_eqb s t = true <-> s = t.
Proof.
  revert t. induction s as [|a s IH]; intros [|b t]; cbn [bytes_eqb];
    try (split; [discriminate|discriminate]); try tauto.
  rewrite andb_true_iff, IH. split.
  - intros [Hab ->]. apply Byte.byte_dec_bl in Hab. now subst.
  - intros [= -> ->]. split; [now apply Byte.byte_dec_lb|reflexivity].
Qed.

Lemma Toy_scrypt_derives (x c : bool) : scrypt_derives (Toy.rt x c).
Proof.
  intros password salt. eexists. split; [reflexivity|].
  rewrite length_firstn, !length_app, repeat_length.
  change (Z.to_nat 32) with 32. lia.
Qed.

Lemma Toy_aead_takes_32 (x c : bool) : aead_takes_32 (Toy.rt x c).
Proof. intros a key Hk. cbn. unfold Toy.aead_init. now rewrite Hk. Qed.

Lemma Toy_aead_encrypts (x c : bool) : aead_encrypts (Toy.rt x c).
Proof.
  intros a key nonce data _ Hn. eexists. cbn. unfold Toy.aead_encrypt.
  rewrite Hn, Nat.eqb_refl. reflexivity.
Qed.

Lemma Toy_encrypt_inv (a : aead_class) (key nonce data aad ct : bytes) :
  Toy.aead_encrypt a key nonce data aad = Ok ct ->
  length nonce = nonce_size a /\ ct = key ++ nonce ++ data.
Proof.
  unfold Toy.aead_encrypt.
  destruct (Nat.eqb_spec (length nonce) (nonce_size a)) as [E|E];
    [|discriminate].
  intros H. apply Ok_inj in H. auto.
Qed.

Lemma Toy_aead_correct (x c : bool) : aead_correct (Toy.rt x c).
Proof.
  intros a key nonce data ct H. cbn in *.
  apply Toy_encrypt_inv in H. destruct H as [Hn ->].
  unfold Toy.aead_decrypt. rewrite Hn, Nat.eqb_refl, <- Hn.
  rewrite app_assoc.
  rewrite firstn_app_exact, skipn_app_exact by (now rewrite length_app).
  replace (bytes_eqb (key ++ nonce) (key ++ nonce)) with true
    by (symmetry; now apply bytes_eqb_eq).
  reflexivity.
Qed.


Lemma Toy_aead_checks_nonce (x c : bool) : aead_checks_nonce (Toy.rt x c).
Proof.
  intros a key nonce data Hn. cbn. unfold Toy.aead_decrypt.
  destruct (Nat.eqb_spec (length nonce) (nonce_size a)) as [E|E];
    [contradiction|]. eexists. reflexivity.
Qed.


Lemma toy_seals : seals (Toy.rt true true) Toy.start ToyRuns.sealing.
Proof. unfold seals. cbv zeta. repeat split; try discriminate. Qed.

Lemma toy_sealed_run :
  Encrypt.script (Toy.rt true true) Toy.start = (Ok 0%Z, Toy.sealed true).
Proof. vm_compute. reflexivity. Qed.

(** The hypotheses a run on the envelope of [s] can use. *)
Lemma envelope_reads (rt : runtime) (s : sealing) :
  subscript (envelope_of s) (py "aead") = Ok (JStr (class_name (s_class s)))
  /\ res_bind (subscript (envelope_of s) (py "vault_key_enc_b64")) Decrypt.b64d
     = Ok (s_nonce_vault s ++ s_vault_key_enc s)
  /\ res_bind (subscript (envelope_of s) (py "enc_dek_b64")) Decrypt.b64d
     = Ok (s_nonce_dekwrap s ++ s_ct_dekwrap s)
  /\ res_bind (subscript (envelope_of s) (py "nonce_payload_b64")) Decrypt.b64d
     = Ok (s_nonce_payload s)
  /\ res_bind (subscript (envelope_of s) (py "ciphertext_b64")) Decrypt.b64d
     = Ok (s_ciphertext s)
  /\ exists kdf params,
       subscript (envelope_of s) (py "kdf") = Ok kdf
       /\ subscript kdf (py "params") = Ok params
       /\ res_bind (subscript kdf (py "salt_b64")) Decrypt.b64d
          = Ok (s_kdf_salt s)
       /\ res_bind (subscript params (py "n")) (int rt) = Ok 16384%Z
       /\ res_bind (subscript params (py "r")) (int rt) = Ok 8%Z
       /\ res_bind (subscript params (py "p")) (int rt) = Ok 1%Z
       /\ res_bind (subscript params (py "dk_len")) (int rt) = Ok 32%Z.
Proof.
  pose proof (header_of_document (class_name (s_class s))
                (b64_text (s_kdf_salt s))
                (s_nonce_vault s ++ s_vault_key_enc s)
                (s_nonce_dekwrap s ++ s_ct_dekwrap s)
                (s_nonce_payload s) (s_ciphertext s)) as Hh.
  apply header_of_Ok in Hh. destruct Hh as (H1 & H2 & H3 & H4 & H5).
  pose proof (kdf_inputs_of_document rt (class_name (s_class s))
                (b64_text (s_nonce_vault s ++ s_vault_key_enc s))
                (b64_text (s_nonce_dekwrap s ++ s_ct_dekwrap s))
                (b64_text (s_nonce_payload s)) (b64_text (s_ciphertext s))
                (s_kdf_salt s)) as Hk.
  apply kdf_inputs_of_Ok in Hk.
  repeat split; assumption.
Qed.


Lemma lookup_replace_same (key : pystr) (value : json)
      (items : list (pystr * json)) (v : json) :
  lookup items key = Some v ->
  lookup (map (fun kv => if pystr_eqb (fst kv) key then (fst kv, value)
                         else kv) items) key
  = Some value.
Proof.
  induction items as [|[k x] items IH]; cbn [lookup map fst]; [discriminate|].
  destruct (pystr_eqb k key) eqn:E; cbn [lookup]; rewrite E; auto.
Qed.

Lemma lookup_replace_other (key key' : pystr) (value : json)
      (items : list (pystr * json)) :
  pystr_eqb key key' = false ->
  lookup (map (fun kv => if pystr_eqb (fst kv) key then (fst kv, value)
                         else kv) items) key'
  = lookup items key'.
Proof.
  intros Hne.
  induction items as [|[k x] items IH]; cbn [lookup map fst]; [reflexivity|].
  destruct (pystr_eqb k key) eqn:E; cbn [lookup].
  - apply pystr_eqb_eq in E. subst k. rewrite Hne. exact IH.
  - rewrite IH. reflexivity.
Qed.

(** The envelope of [s] with the wrapped DEK replaced by [blob]. *)
Lemma tampered_dek_reads (rt : runtime) (s : sealing) (blob : bytes) :
  let doc := replace_field (py "enc_dek_b64") (JStr (b64_text blob))
               (envelope_of s) in
  subscript doc (py "aead") = Ok (JStr (class_name (s_class s)))
  /\ res_bind (subscript doc (py "vault_key_enc_b64")) Decrypt.b64d
     = Ok (s_nonce_vault s ++ s_vault_key_enc s)
  /\ res_bind (subscript doc (py "enc_dek_b64")) Decrypt.b64d = Ok blob
  /\ res_bind (subscript doc (py "nonce_payload_b64")) Decrypt.b64d
     = Ok (s_nonce_payload s)
  /\ res_bind (subscript doc (py "ciphertext_b64")) Decrypt.b64d
     = Ok (s_ciphertext s)
  /\ subscript doc (py "kdf") = subscript (envelope_of s) (py "kdf").
Proof.
  destruct (envelope_reads rt s) as (H1 & H2 & H3 & H4 & H5 & _).
  cbv zeta. unfold envelope_of, document, replace_field in *.
  cbn [subscript] in *. unfold getitem in *.
  rewrite !lookup_replace_other by reflexivity.
  erewrite lookup_replace_same by reflexivity.
  cbn [res_bind]. rewrite b64d_b64_text. repeat split; assumption.
Qed.


Lemma firstn_short (A : Type) (l : list A) (n : nat) :
  length l < n -> firstn n l = l /\ skipn n l = [].
Proof.
  intros H. split; [apply firstn_all2 | apply skipn_all2]; lia.
Qed.


Lemma kdf_calls_app (l l' : list call) :
  kdf_calls (l ++ l') = kdf_calls l ++ kdf_calls l'.
Proof. apply filter_app. Qed.

Lemma imported_calls (rt : runtime) (w : world) :
  calls (imported rt w) = calls w.
Proof.
  unfold imported, Encrypt.imports.
  destruct (have_xchacha rt); [reflexivity|].
  destruct (have_chacha rt); reflexivity.
Qed.

Lemma Raise_inj (A : Type) (e e' : exn) : @Raise A e = Raise e' -> e = e'.
Proof. now intros [= ->]. Qed.

(** A run of [crypto_decrypt.py] that stops at a failing read of the header,
    and one that stops at a failing read of the key-derivation fields. *)
Ltac header_fails H :=
  cbn [res_bind] in H; apply Raise_inj in H; subst;
  unfold Decrypt.script, Decrypt.main; drun; reflexivity.

Ltac kdf_fails H Epw :=
  cbn [res_bind] in H; apply Raise_inj in H; subst;
  unfold Decrypt.script, Decrypt.main; drun; rewrite Epw; norm_world;
  drun; reflexivity.

(* ================================================================== *)
(** * What the decoder lets through, and what a run depends on *)
(* ================================================================== *)

Lemma a2b_base64_skip (b : byte) (pre post : bytes) (q l p : N) :
  Byte.to_N b <> 61%N -> b64_value b = None ->
  a2b_base64 (pre ++ b :: post) q l p = a2b_base64 (pre ++ post) q l p.
Proof.
  intros Hpad Hval. revert q l p.
  induction pre as [|c pre IH]; intros q l p; cbn [app a2b_base64].
  - apply N.eqb_neq in Hpad. rewrite Hpad, Hval. reflexivity.
  - destruct (Byte.to_N c =? 61)%N.
    + destruct (2 <=? q)%N; [|apply IH].
      destruct (4 <=? q + (p + 1))%N; [reflexivity|apply IH].
    + destruct (b64_value c) as [v|]; [|apply IH].
      destruct (q =? 0)%N; [apply IH|].
      destruct (q =? 1)%N; [now rewrite IH|].
      destruct (q =? 2)%N; now rewrite IH.
Qed.

Lemma ascii_encode_app (s t : pystr) :
  ascii_encode (s ++ t)
  = res_bind (ascii_encode s) (fun a =>
    res_bind (ascii_encode t) (fun b => Ok (a ++ b))).
Proof.
  induction s as [|c s IH]; cbn [app ascii_encode].
  - cbn [res_bind]. destruct (ascii_encode t); reflexivity.
  - destruct (c <? 128)%N; [|reflexivity].
    rewrite IH. destruct (ascii_encode s) as [a|]; [|reflexivity].
    cbn [res_bind]. destruct (ascii_encode t); reflexivity.
Qed.

(** [b64d] skips a character outside the alphabet. *)
Lemma b64d_skips (s t : pystr) (c : N) :
  (c < 128)%N -> c <> 61%N -> b64_value (byte_of c) = None ->
  Decrypt.b64d (JStr (s ++ c :: t)) = Decrypt.b64d (JStr (s ++ t)).
Proof.
  intros Hc Hpad Hval. cbn [Decrypt.b64d]. unfold b64d_str.
  rewrite !ascii_encode_app. cbn [ascii_encode].
  apply N.ltb_lt in Hc. rewrite Hc.
  destruct (ascii_encode s) as [a|]; [|reflexivity]. cbn [res_bind].
  destruct (ascii_encode t) as [b|]; [|reflexivity]. cbn [res_bind].
  unfold b64decode. apply a2b_base64_skip; [|assumption].
  apply N.ltb_lt in Hc. rewrite to_N_byte_of by lia. assumption.
Qed.

(** No base64 text begins with an exclamation mark. *)
Lemma b64_text_head (data : bytes) (rest : pystr) :
  b64_text data <> 33%N :: rest.
Proof.
  unfold b64_text.
  assert (forall x : byte, Byte.to_N (b64_char (Byte.to_N x / 4)) <> 33%N)
    as Hc.
  { intros x. pose proof (to_N_lt_256 x) as Hx.
    rewrite b64_char_code by (apply N.Div0.div_lt_upper_bound; lia).
    repeat match goal with
           | |- context [(?a <? ?b)%N] => destruct (N.ltb_spec a b)
           | |- context [(?a =? ?b)%N] => destruct (N.eqb_spec a b)
           end; lia. }
  destruct data as [|a [|b [|c l]]]; cbn [b64encode map];
    [discriminate| | |]; intros H; injection H as H _; now apply Hc in H.
Qed.

(** A header field that is not there makes the reads raise. *)
Lemma missing_header_field (items : list (pystr * json)) (key : pystr) :
  In key header_fields -> lookup items key = None ->
  exists e, header_of (JDict items) = Raise e.
Proof.
  intros Hin Hnone.
  destruct (header_of (JDict items)) as [h|e] eqn:Hh; [|now exists e].
  destruct h as [[[[aead v] ed] np] ct]. apply header_of_Ok in Hh.
  destruct Hh as (H1 & H2 & H3 & H4 & H5).
  apply res_bind_Ok_inv in H2, H3, H4, H5.
  destruct H2 as (x2 & H2 & _). destruct H3 as (x3 & H3 & _).
  destruct H4 as (x4 & H4 & _). destruct H5 as (x5 & H5 & _).
  cbn [subscript] in H1, H2, H3, H4, H5. unfold getitem in *.
  unfold header_fields in Hin. cbn [In] in Hin.
  destruct Hin as [<-|[<-|[<-|[<-|[<-|[]]]]]];
    rewrite Hnone in *; discriminate.
Qed.

(** Two documents whose fields decode to the same values open alike. *)
Lemma same_reads_same_run (rt : runtime) (w : world) (payload payload' : json)
      (h : json * bytes * bytes * bytes * bytes)
      (k : bytes * Z * Z * Z * Z) :
  demo_json w = Some payload ->
  header_of payload = Ok h -> header_of payload' = Ok h ->
  kdf_inputs_of rt payload = Ok k -> kdf_inputs_of rt payload' = Ok k ->
  Decrypt.script rt (set_demo_json (Some payload') w)
  = (fst (Decrypt.script rt w),
     set_demo_json (Some payload') (snd (Decrypt.script rt w))).
Proof.
  intros Hdoc Hh Hh' Hk Hk'.
  destruct h as [[[[aead v] ed] np] ct]. destruct k as [[[[salt n] r] p] dk].
  apply header_of_Ok in Hh, Hh'.
  destruct Hh as (H1 & H2 & H3 & H4 & H5).
  destruct Hh' as (G1 & G2 & G3 & G4 & G5).
  apply kdf_inputs_of_Ok in Hk, Hk'.
  destruct Hk as (kdf & params & K1 & K2 & K3 & K4 & K5 & K6 & K7).
  destruct Hk' as (kdf' & params' & L1 & L2 & L3 & L4 & L5 & L6 & L7).
  assert (demo_json (set_demo_json (Some payload') w) = Some payload')
    as Hdoc' by reflexivity.
  unfold Decrypt.script, Decrypt.main.
  drun.
  destruct (typed_password w) as [|c pw] eqn:Epw.
  - drun. norm_world. unfold ret. cbn [fst snd]. norm_world.
    rewrite ?Epw. reflexivity.
  - norm_world. rewrite ?Epw. explore.
    all: cbn [fst snd]; norm_world; rewrite ?Epw; reflexivity.
Qed.

(* ================================================================== *)
(** * Runs that stop, tampered envelopes, and the entropy source *)
(* ================================================================== *)


(** The envelope of [s] with the wrapped vault key, or the payload
    ciphertext, replaced by [blob]. *)
Lemma tampered_vault_reads (rt : runtime) (s : sealing) (blob : bytes) :
  let doc := replace_field (py "vault_key_enc_b64") (JStr (b64_text blob))
               (envelope_of s) in
  subscript doc (py "aead") = Ok (JStr (class_name (s_class s)))
  /\ res_bind (subscript doc (py "vault_key_enc_b64")) Decrypt.b64d = Ok blob
  /\ res_bind (subscript doc (py "enc_dek_b64")) Decrypt.b64d
     = Ok (s_nonce_dekwrap s ++ s_ct_dekwrap s)
  /\ res_bind (subscript doc (py "nonce_payload_b64")) Decrypt.b64d
     = Ok (s_nonce_payload s)
  /\ res_bind (subscript doc (py "ciphertext_b64")) Decrypt.b64d
     = Ok (s_ciphertext s)
  /\ subscript doc (py "kdf") = subscript (envelope_of s) (py "kdf").
Proof.
  destruct (envelope_reads rt s) as (H1 & H2 & H3 & H4 & H5 & _).
  cbv zeta. unfold envelope_of, document, replace_field in *.
  cbn [subscript] in *. unfold getitem in *.
  rewrite !lookup_replace_other by reflexivity.
  erewrite lookup_replace_same by reflexivity.
  cbn [res_bind]. rewrite b64d_b64_text. repeat split; assumption.
Qed.




Lemma length_b64encode (data : bytes) :
  length (b64encode data) = 4 * ((length data + 2) / 3).
Proof.
  induction data as [|a|a b|a b c l IH] using list_ind3.
  - reflexivity.
  - reflexivity.
  - reflexivity.
  - cbn [b64encode length]. rewrite IH.
    replace (S (S (S (length l))) + 2) with (1 * 3 + (length l + 2)) by lia.
    rewrite Nat.div_add_l by lia. lia.
Qed.

Lemma slice_app (ent : nat -> byte) (pos a b : nat) :
  slice ent pos (a + b) = slice ent pos a ++ slice ent (pos + a) b.
Proof. unfold slice. now rewrite seq_app, map_app. Qed.

(* ================================================================== *)
(** * The properties of the specification *)
(* ================================================================== *)

(** C1 (round trip). For every non-empty payload [P] and non-empty password
    [W] (the UTF-8 bytes of the line read, without its line feeds, and of
    the password typed), [crypto_encrypt.py] ends with status 0 and leaves
    an envelope, and [crypto_decrypt.py], run on that envelope with the same
    password typed, ends with status 0, prints the text of [P] and a line
    feed, and its last decryption returned exactly [P].  The runtime is
    assumed to derive keys, to accept 32-byte keys, to encrypt under a nonce
    of the right size and to decrypt what it encrypted. *)
Theorem round_trip (rt : runtime) (w : world) (P W : bytes) :
  scrypt_derives rt -> aead_takes_32 rt -> aead_encrypts rt ->
  aead_correct rt ->
  have_xchacha rt || have_chacha rt = true ->
  utf8_encode (rstrip_newline (stdin_line w)) = Ok P -> P <> [] ->
  utf8_encode (typed_password w) = Ok W -> W <> [] ->
  exists envelope w1,
    Encrypt.script rt w = (Ok 0%Z, w1)
    /\ demo_json w1 = Some envelope
    /\ forall w',
         demo_json w' = Some envelope ->
         typed_password w' = typed_password w ->
         exists w2,
           Decrypt.script rt w' = (Ok 0%Z, w2)
           /\ stdout w2 = stdout w' ++ rstrip_newline (stdin_line w) ++ nl
           /\ exists a key nonce data,
                last (calls w2) (Urandom 0) = AeadDecrypt a key nonce data []
                /\ aead_decrypt rt a key nonce data [] = Ok P.
Proof.
  intros Hkdf Hinit Henc Hcorrect Hav HP HP0 HW HW0.
  destruct (seal_total w Hkdf Hinit Henc Hav HP HP0 HW HW0)
    as (s & Hs & EP & EW & _).
  destruct (seal_forward Hs) as (w1 & Hrun & Hdoc & _).
  exists (envelope_of s), w1. split; [assumption|]. split; [assumption|].
  intros w' Hdoc' Hpw.
  assert (utf8_decode (s_plaintext s) = Ok (rstrip_newline (stdin_line w)))
    as Htext by (rewrite EP; now apply utf8_decode_encode).
  rewrite (@open_sealed rt w w' s _ Hs Hcorrect Hdoc' Hpw Htext).
  eexists. split; [reflexivity|]. split; [reflexivity|].
  exists (s_class s), (s_dek s), (s_nonce_payload s), (s_ciphertext s).
  cbn [calls set_stdout set_calls]. unfold open_calls.
  match goal with
  | |- context [?l ++ [?c1; ?c2; ?c3; ?c4; ?c5; ?c6; ?c7]] =>
      change (l ++ [c1; c2; c3; c4; c5; c6; c7])
        with (l ++ [c1; c2; c3; c4; c5; c6] ++ [c7])
  end.
  rewrite app_assoc, last_last. split; [reflexivity|].
  destruct Hs as (_ & _ & _ & _ & _ & _ & _ & _ & _ & _ & _ & _ & _ & _ & _
                  & _ & _ & _ & Hct).
  rewrite <- EP. now apply Hcorrect.
Qed.

Lemma round_trip_witness :
  exists envelope w1,
    Encrypt.script (Toy.rt true true) Toy.start = (Ok 0%Z, w1)
    /\ demo_json w1 = Some envelope
    /\ forall w',
         demo_json w' = Some envelope ->
         typed_password w' = typed_password Toy.start ->
         exists w2,
           Decrypt.script (Toy.rt true true) w' = (Ok 0%Z, w2)
           /\ stdout w2
              = stdout w' ++ rstrip_newline (stdin_line Toy.start) ++ nl
           /\ exists a key nonce data,
                last (calls w2) (Urandom 0) = AeadDecrypt a key nonce data []
                /\ aead_decrypt (Toy.rt true true) a key nonce data []
                   = Ok Toy.payload.
Proof.
  apply (@round_trip (Toy.rt true true) Toy.start Toy.payload Toy.password).
  - apply Toy_scrypt_derives.
  - apply Toy_aead_takes_32.
  - apply Toy_aead_encrypts.
  - apply Toy_aead_correct.
  - reflexivity.
  - vm_compute. reflexivity.
  - discriminate.
  - vm_compute. reflexivity.
  - discriminate.
Defined.

(** C2 (tamper detection without layer leakage), as the code behaves on the
    second layer.  Let [crypto_encrypt.py] have sealed an envelope, and let
    its field [enc_dek_b64] be replaced by the base64 text of any [blob]
    that the runtime refuses to decrypt under the vault key, raising [e].
    Then [crypto_decrypt.py], with the right password typed, does not end
    with status 3: the exception [e] leaves [main] uncaught, and nothing is
    written on the standard error or the standard output.  Only the first
    decryption is inside the [try]. *)
Theorem tampered_dek_is_not_caught
        (rt : runtime) (w w1 w' : world) (blob : bytes) (e : exn) :
  aead_correct rt ->
  Encrypt.script rt w = (Ok 0%Z, w1) ->
  demo_json w'
  = option_map (replace_field (py "enc_dek_b64") (JStr (b64_text blob)))
      (demo_json w1) ->
  typed_password w' = typed_password w ->
  aead_decrypt rt (class_of rt) (slice (entropy w) (drawn w + 16) 32)
    (firstn (nonce_size (class_of rt)) blob)
    (skipn (nonce_size (class_of rt)) blob) [] = Raise e ->
  exists w2,
    Decrypt.script rt w' = (Raise e, w2)
    /\ stdout w2 = stdout w'
    /\ stderr w2 = stderr w'.
Proof.
  intros Hcorrect Hrun Hdoc Hpw Hdec.
  apply seal_inversion in Hrun. destruct Hrun as (s & Hs & Hdoc1 & _).
  destruct (seals_facts Hs) as (Hav & Lnv & Lnd & Lnp & Lvk & Ldek & Lsalt).
  destruct Hs as (_ & Ha & HP & HP0 & HW0 & HW & Esalt & Hmk & Evk & Env & Imk
                  & Hvke & Edek & End & Ivk & _).
  rewrite Hdoc1 in Hdoc. cbn [option_map] in Hdoc.
  apply Hcorrect in Hvke.
  rewrite <- Ha, <- Evk in Hdec.
  destruct (tampered_dek_reads rt s blob) as (H1 & H2 & H3 & H4 & H5 & Hk).
  destruct (envelope_reads rt s)
    as (_ & _ & _ & _ & _ & kdf & params & K1 & K2 & K3 & K4 & K5 & K6 & K7).
  rewrite <- Hk in K1.
  pose proof (class_named_name (s_class s)) as Hname.
  destruct (typed_password w) as [|c pw] eqn:Epw; [congruence|].
  unfold Decrypt.script, Decrypt.main.
  drun. rewrite Hpw. norm_world. drun.
  rewrite firstn_app_exact, skipn_app_exact by assumption.
  drun.
  eexists. split; [reflexivity|]. split; reflexivity.
Qed.

Lemma tampered_dek_is_not_caught_witness :
  exists w2,
    Decrypt.script (Toy.rt true true) ToyRuns.tampered_dek
    = (Raise InvalidTag, w2)
    /\ stdout w2 = stdout ToyRuns.tampered_dek
    /\ stderr w2 = stderr ToyRuns.tampered_dek.
Proof.
  apply (@tampered_dek_is_not_caught (Toy.rt true true) Toy.start
           (Toy.sealed true) ToyRuns.tampered_dek
           (flip_bit 20 0 (field_bytes (Toy.sealed true) (py "enc_dek_b64")))
           InvalidTag).
  - apply Toy_aead_correct.
  - vm_compute. reflexivity.
  - vm_compute. reflexivity.
  - vm_compute. reflexivity.
  - vm_compute. reflexivity.
Defined.

(** C3 (wrong password fails closed), as the code has it. Let
    [crypto_encrypt.py] have sealed a payload under the password [W1], and
    let [crypto_decrypt.py] run on that envelope with a non-empty password
    [W2] typed.  If the cipher refuses the stored wrapped vault key under
    the master key that [hashlib.scrypt] derives from [W2] and the stored
    salt, the run ends with status 3, writes
    [decrypt failed (wrong master password?)] on the standard error, writes
    nothing on the standard output and makes one decryption call only.  If
    [hashlib.scrypt] derives from [W2] the key it derived from [W1], the
    run ends with status 0 and prints the payload, whether or not the two
    passwords are the same. *)
Theorem wrong_password_fails_closed
        (rt : runtime) (w w1 w' : world) (envelope aead : json)
        (vault_key_enc enc_dek nonce_payload ciphertext W1 W2 : bytes) :
  Encrypt.script rt w = (Ok 0%Z, w1) ->
  utf8_encode (typed_password w) = Ok W1 ->
  demo_json w1 = Some envelope ->
  demo_json w' = Some envelope ->
  header_of envelope
  = Ok (aead, vault_key_enc, enc_dek, nonce_payload, ciphertext) ->
  utf8_encode (typed_password w') = Ok W2 -> W2 <> [] ->
  (forall master_key e,
      scrypt rt W2 (slice (entropy w) (drawn w) 16) 16384 8 1 32
      = Ok master_key ->
      aead_init rt (class_of rt) master_key = Ok tt ->
      aead_decrypt rt (class_of rt) master_key
        (firstn (nonce_size (class_of rt)) vault_key_enc)
        (skipn (nonce_size (class_of rt)) vault_key_enc) [] = Raise e ->
      exists w2,
        Decrypt.script rt w' = (Ok 3%Z, w2)
        /\ stdout w2 = stdout w'
        /\ stderr w2 = stderr w' ++ decrypt_failed
        /\ exists d,
             decrypt_calls (calls w2) = decrypt_calls (calls w') ++ [d])
  /\ (aead_correct rt ->
      scrypt rt W2 (slice (entropy w) (drawn w) 16) 16384 8 1 32
      = scrypt rt W1 (slice (entropy w) (drawn w) 16) 16384 8 1 32 ->
      exists w2,
        Decrypt.script rt w' = (Ok 0%Z, w2)
        /\ stdout w2 = stdout w' ++ rstrip_newline (stdin_line w) ++ nl
        /\ stderr w2 = stderr w').
Proof.
  intros Hrun HW1 Hdoc1 Hdoc Hh HW2 HW20.
  apply seal_inversion in Hrun. destruct Hrun as (s & Hs & Hdoc1' & _).
  rewrite Hdoc1' in Hdoc1. injection Hdoc1 as Hdoc1. subst envelope.
  destruct (seals_facts Hs) as (Hav & Lnv & Lnd & Lnp & Lvk & Ldek & Lsalt).
  pose proof Hs as Hs'.
  destruct Hs as (_ & Ha & HP & HP0 & HW0 & HW & Esalt & Hmk & Evk & Env & Imk
                  & Hvke & Edek & End & Ivk & Hctd & Enp & Idek & Hct).
  assert (s_password s = W1) as EW by congruence.
  rewrite EW, Esalt in Hmk.
  destruct (envelope_reads rt s)
    as (H1 & H2 & H3 & H4 & H5 & kdf & params & K1 & K2 & K3 & K4 & K5 & K6
        & K7).
  rewrite Esalt in K3.
  pose proof Hh as Hh'. apply header_of_Ok in Hh'.
  destruct Hh' as (G1 & G2 & G3 & G4 & G5).
  assert (aead = JStr (class_name (s_class s))) as -> by congruence.
  assert (vault_key_enc = s_nonce_vault s ++ s_vault_key_enc s) as ->
      by congruence.
  assert (enc_dek = s_nonce_dekwrap s ++ s_ct_dekwrap s) as -> by congruence.
  assert (nonce_payload = s_nonce_payload s) as -> by congruence.
  assert (ciphertext = s_ciphertext s) as -> by congruence.
  pose proof (class_named_name (s_class s)) as Hname.
  assert (typed_password w' <> []) as Hpw'.
  { intros E. rewrite E in HW2. cbn in HW2. apply Ok_inj in HW2. congruence. }
  rewrite <- Ha.
  split.
  - intros mk2 e Hmk2 Imk2 Hdec.
    destruct (typed_password w') as [|c pw] eqn:Epw; [congruence|].
    unfold Decrypt.script, Decrypt.main.
    drun. rewrite Epw. norm_world. drun.
    rewrite bind_handler. norm_world. unfold ret.
    eexists. split; [reflexivity|].
    cbn [stdout stderr calls].
    split; [reflexivity|]. split; [reflexivity|].
    eexists. rewrite !decrypt_calls_app. cbn [decrypt_calls filter is_decrypt].
    rewrite !app_nil_r. reflexivity.
  - intros Hcorrect Hsame. rewrite Hmk in Hsame.
    apply Hcorrect in Hvke, Hctd, Hct.
    assert (utf8_decode (s_plaintext s) = Ok (rstrip_newline (stdin_line w)))
      as Htext by now apply utf8_decode_encode.
    destruct (typed_password w') as [|c pw] eqn:Epw; [congruence|].
    unfold Decrypt.script, Decrypt.main.
    drun. rewrite Epw. norm_world. drun.
    rewrite firstn_app_exact, skipn_app_exact by assumption.
    drun.
    rewrite firstn_app_exact, skipn_app_exact by assumption.
    drun.
    eexists. split; [reflexivity|]. split; reflexivity.
Qed.

Lemma wrong_password_fails_closed_witness :
  (exists w2,
      Decrypt.script (Toy.rt true true) ToyRuns.wrong_password = (Ok 3%Z, w2)
      /\ stdout w2 = stdout ToyRuns.wrong_password
      /\ stderr w2 = stderr ToyRuns.wrong_password ++ decrypt_failed
      /\ exists d,
           decrypt_calls (calls w2)
           = decrypt_calls (calls ToyRuns.wrong_password) ++ [d])
  /\ (exists w2,
        Decrypt.script Padded.rt Padded.reopened = (Ok 0%Z, w2)
        /\ stdout w2
           = stdout Padded.reopened ++ rstrip_newline (stdin_line Toy.start)
             ++ nl
        /\ stderr w2 = stderr Padded.reopened).
Proof.
  split.
  - remember (envelope_of ToyRuns.sealing) as envelope eqn:Ee.
    destruct (@wrong_password_fails_closed (Toy.rt true true) Toy.start
                (Toy.sealed true) ToyRuns.wrong_password envelope
                (JStr (py "xchacha20poly1305"))
                (field_bytes (Toy.sealed true) (py "vault_key_enc_b64"))
                (field_bytes (Toy.sealed true) (py "enc_dek_b64"))
                (field_bytes (Toy.sealed true) (py "nonce_payload_b64"))
                (field_bytes (Toy.sealed true) (py "ciphertext_b64"))
                Toy.password (map byte_of (py "wrong horse")))
      as [Hfail _].
    + vm_compute. reflexivity.
    + vm_compute. reflexivity.
    + subst envelope. vm_compute. reflexivity.
    + subst envelope. vm_compute. reflexivity.
    + subst envelope. vm_compute. reflexivity.
    + vm_compute. reflexivity.
    + discriminate.
    + apply (Hfail (match Toy.scrypt (map byte_of (py "wrong horse"))
                            (slice Toy.ent 0 16) 16384 8 1 32 with
                    | Ok k => k
                    | Raise _ => []
                    end) InvalidTag).
      * vm_compute. reflexivity.
      * vm_compute. reflexivity.
      * vm_compute. reflexivity.
  - remember (match demo_json Padded.sealed with
              | Some doc => doc
              | None => JNull
              end) as envelope eqn:Ee.
    destruct (@wrong_password_fails_closed Padded.rt Toy.start
                Padded.sealed Padded.reopened envelope
                (JStr (py "xchacha20poly1305"))
                (field_bytes Padded.sealed (py "vault_key_enc_b64"))
                (field_bytes Padded.sealed (py "enc_dek_b64"))
                (field_bytes Padded.sealed (py "nonce_payload_b64"))
                (field_bytes Padded.sealed (py "ciphertext_b64"))
                Toy.password (map byte_of Padded.other_password))
      as [_ Hopen].
    + vm_compute. reflexivity.
    + vm_compute. reflexivity.
    + subst envelope. vm_compute. reflexivity.
    + subst envelope. vm_compute. reflexivity.
    + subst envelope. vm_compute. reflexivity.
    + vm_compute. reflexivity.
    + discriminate.
    + apply Hopen.
      * exact (Toy_aead_correct true true).
      * vm_compute. reflexivity.
Defined.

(** C3, two different passwords that open the same envelope: the password
    [correct horse] and the same text followed by a NUL character are read
    by the key derivation as one key block, so the envelope sealed under
    the first is opened by the second, with status 0 and the payload
    printed. *)
Lemma padded_password_opens :
  typed_password Toy.start = py "correct horse"
  /\ typed_password Padded.reopened = py "correct horse" ++ [0%N]
  /\ typed_password Padded.reopened <> typed_password Toy.start
  /\ utf8_encode (typed_password Padded.reopened)
     = Ok (Toy.password ++ [x00])
  /\ Padded.hmac_block (Toy.password ++ [x00])
     = Padded.hmac_block Toy.password
  /\ Encrypt.script Padded.rt Toy.start = (Ok 0%Z, Padded.sealed)
  /\ demo_json Padded.reopened = demo_json Padded.sealed
  /\ fst (Decrypt.script Padded.rt Padded.reopened) = Ok 0%Z
  /\ stdout (snd (Decrypt.script Padded.rt Padded.reopened))
     = stdout Padded.reopened ++ py "hello vault" ++ nl.
Proof.
  split; [vm_compute; reflexivity|].
  split; [vm_compute; reflexivity|].
  split; [vm_compute; discriminate|].
  split; [vm_compute; reflexivity|].
  split; [vm_compute; reflexivity|].
  split; [vm_compute; reflexivity|].
  split; [vm_compute; reflexivity|].
  split; vm_compute; reflexivity.
Qed.

(** C4 (structural rejection), as the code has it. On a document one of
    whose five header reads raises, as it does when a header field is
    missing, [crypto_decrypt.py] ends with that exception and the world as
    it was: no runtime call has been made.  With a non-empty password, the
    same holds when a read of the key-derivation fields raises.  An
    algorithm identifier that names no class is found out later: the run
    derives the master key first ([hashlib.scrypt] is called with the
    stored salt and parameters) and only then raises [RuntimeError] with
    the message [unsupported AEAD: ...]; no cipher is set up and nothing is
    decrypted.  Text that is not base64 is not refused as such: [b64d]
    skips a character outside the alphabet, and two documents whose fields
    decode to the same values give the same run. *)
Theorem structural_failures (rt : runtime) (w : world) (payload : json) :
  demo_json w = Some payload ->
  (forall e,
      header_of payload = Raise e -> Decrypt.script rt w = (Raise e, w))
  /\ (forall items key,
        payload = JDict items -> In key header_fields ->
        lookup items key = None ->
        exists e, Decrypt.script rt w = (Raise e, w))
  /\ (forall h W e,
        header_of payload = Ok h ->
        typed_password w <> [] ->
        utf8_encode (typed_password w) = Ok W ->
        kdf_inputs_of rt payload = Raise e ->
        Decrypt.script rt w = (Raise e, w))
  /\ (forall aead v e n c W salt nn r p dklen master_key,
        header_of payload = Ok (aead, v, e, n, c) ->
        class_named aead = None ->
        typed_password w <> [] ->
        utf8_encode (typed_password w) = Ok W ->
        kdf_inputs_of rt payload = Ok (salt, nn, r, p, dklen) ->
        scrypt rt W salt nn r p dklen = Ok master_key ->
        Decrypt.script rt w
        = (Raise (RuntimeError (py "unsupported AEAD: " ++ format rt aead)),
           set_calls (calls w ++ [Scrypt W salt nn r p dklen]) w))
  /\ (forall s t c,
        (c < 128)%N -> c <> 61%N -> b64_value (byte_of c) = None ->
        Decrypt.b64d (JStr (s ++ c :: t)) = Decrypt.b64d (JStr (s ++ t)))
  /\ (forall payload' h k,
        header_of payload = Ok h -> header_of payload' = Ok h ->
        kdf_inputs_of rt payload = Ok k ->
        kdf_inputs_of rt payload' = Ok k ->
        Decrypt.script rt (set_demo_json (Some payload') w)
        = (fst (Decrypt.script rt w),
           set_demo_json (Some payload') (snd (Decrypt.script rt w)))).
Proof.
  intros Hdoc.
  assert (forall e,
             header_of payload = Raise e ->
             Decrypt.script rt w = (Raise e, w)) as Hhead.
  { intros e. unfold header_of.
    destruct (subscript payload (py "aead")) as [aead|e1] eqn:H1.
    2:{ intros H. header_fails H. }
    cbn [res_bind].
    destruct (res_bind (subscript payload (py "vault_key_enc_b64"))
                Decrypt.b64d) as [v|e2] eqn:H2.
    2:{ intros H. header_fails H. }
    cbn [res_bind].
    destruct (res_bind (subscript payload (py "enc_dek_b64")) Decrypt.b64d)
      as [ed|e3] eqn:H3.
    2:{ intros H. header_fails H. }
    cbn [res_bind].
    destruct (res_bind (subscript payload (py "nonce_payload_b64"))
                Decrypt.b64d) as [np|e4] eqn:H4.
    2:{ intros H. header_fails H. }
    cbn [res_bind].
    destruct (res_bind (subscript payload (py "ciphertext_b64"))
                Decrypt.b64d) as [ct|e5] eqn:H5.
    2:{ intros H. header_fails H. }
    cbn [res_bind]. discriminate. }
  split; [exact Hhead|]. split; [|split; [|split; [|split]]].
  - intros items key -> Hin Hnone.
    destruct (@missing_header_field items key Hin Hnone) as (e & He).
    exists e. now apply Hhead.
  - intros h W e Hh Hpw HW.
    destruct h as [[[[aead v] ed] np] ct]. apply header_of_Ok in Hh.
    destruct Hh as (H1 & H2 & H3 & H4 & H5).
    destruct (typed_password w) as [|c pw] eqn:Epw; [congruence|].
    unfold kdf_inputs_of.
    destruct (subscript payload (py "kdf")) as [kdf|e1] eqn:K1.
    2:{ intros H. kdf_fails H Epw. }
    cbn [res_bind].
    destruct (subscript kdf (py "params")) as [params|e2] eqn:K2.
    2:{ intros H. kdf_fails H Epw. }
    cbn [res_bind].
    destruct (res_bind (subscript kdf (py "salt_b64")) Decrypt.b64d)
      as [salt|e3] eqn:K3.
    2:{ intros H. kdf_fails H Epw. }
    cbn [res_bind].
    destruct (res_bind (subscript params (py "n")) (int rt)) as [nn|e4] eqn:K4.
    2:{ intros H. kdf_fails H Epw. }
    cbn [res_bind].
    destruct (res_bind (subscript params (py "r")) (int rt)) as [r|e5] eqn:K5.
    2:{ intros H. kdf_fails H Epw. }
    cbn [res_bind].
    destruct (res_bind (subscript params (py "p")) (int rt)) as [p|e6] eqn:K6.
    2:{ intros H. kdf_fails H Epw. }
    cbn [res_bind].
    destruct (res_bind (subscript params (py "dk_len")) (int rt))
      as [dklen|e7] eqn:K7.
    2:{ intros H. kdf_fails H Epw. }
    cbn [res_bind]. discriminate.
  - intros aead v ed np ct W salt nn r p dklen mk Hh Hname Hpw HW Hk Hmk.
    apply header_of_Ok in Hh. destruct Hh as (H1 & H2 & H3 & H4 & H5).
    apply kdf_inputs_of_Ok in Hk.
    destruct Hk as (kdf & params & K1 & K2 & K3 & K4 & K5 & K6 & K7).
    destruct (typed_password w) as [|c pw] eqn:Epw; [congruence|].
    unfold Decrypt.script, Decrypt.main. drun. rewrite Epw. norm_world.
    drun. rewrite <- Epw. reflexivity.
  - intros s t c. apply b64d_skips.
  - intros payload' h k Hh Hh' Hk Hk'.
    exact (@same_reads_same_run rt w payload payload' h k Hdoc Hh Hh' Hk Hk').
Qed.

Lemma structural_failures_witness :
  Decrypt.script (Toy.rt true true) ToyRuns.missing_field
  = (Raise (KeyError (py "enc_dek_b64")), ToyRuns.missing_field)
  /\ (exists e,
        Decrypt.script (Toy.rt true true) ToyRuns.missing_field
        = (Raise e, ToyRuns.missing_field))
  /\ Decrypt.script (Toy.rt true true)
       (with_field (py "kdf") (JDict []) (Toy.sealed true))
     = (Raise (KeyError (py "params")),
        with_field (py "kdf") (JDict []) (Toy.sealed true))
  /\ Decrypt.script (Toy.rt true true) ToyRuns.unknown_algorithm
     = (Raise (RuntimeError (py "unsupported AEAD: aes256gcm")),
        set_calls
          (calls ToyRuns.unknown_algorithm
           ++ [Scrypt Toy.password (slice Toy.ent 0 16) 16384 8 1 32])
          ToyRuns.unknown_algorithm)
  /\ Decrypt.b64d (JStr (py "QUJD" ++ 33%N :: py "RA=="))
     = Decrypt.b64d (JStr (py "QUJD" ++ py "RA=="))
  /\ Decrypt.script (Toy.rt true true) ToyRuns.malformed_base64
     = (fst (Decrypt.script (Toy.rt true true) (Toy.sealed true)),
        set_demo_json (Some ToyRuns.malformed_base64_doc)
          (snd (Decrypt.script (Toy.rt true true) (Toy.sealed true)))).
Proof.
  split; [|split; [|split; [|split; [|split]]]].
  - remember (match demo_json ToyRuns.missing_field with
              | Some doc => doc
              | None => JNull
              end) as payload eqn:Ep.
    assert (demo_json ToyRuns.missing_field = Some payload) as Hdoc
        by (subst payload; vm_compute; reflexivity).
    destruct (@structural_failures (Toy.rt true true) ToyRuns.missing_field
                payload Hdoc) as (Hhead & _).
    apply Hhead. subst payload. vm_compute. reflexivity.
  - remember (match demo_json ToyRuns.missing_field with
              | Some (JDict items) => items
              | _ => []
              end) as items eqn:Ei.
    assert (demo_json ToyRuns.missing_field = Some (JDict items)) as Hdoc
        by (subst items; vm_compute; reflexivity).
    destruct (@structural_failures (Toy.rt true true) ToyRuns.missing_field
                (JDict items) Hdoc) as (_ & Hmiss & _).
    apply (Hmiss items (py "enc_dek_b64")).
    + reflexivity.
    + cbn. auto.
    + subst items. vm_compute. reflexivity.
  - remember (match demo_json (with_field (py "kdf") (JDict [])
                                 (Toy.sealed true)) with
              | Some doc => doc
              | None => JNull
              end) as payload eqn:Ep.
    assert (demo_json (with_field (py "kdf") (JDict []) (Toy.sealed true))
            = Some payload) as Hdoc
        by (subst payload; vm_compute; reflexivity).
    destruct (@structural_failures (Toy.rt true true)
                (with_field (py "kdf") (JDict []) (Toy.sealed true))
                payload Hdoc) as (_ & _ & Hkdf & _).
    apply (Hkdf (JStr (py "xchacha20poly1305"),
                 field_bytes (Toy.sealed true) (py "vault_key_enc_b64"),
                 field_bytes (Toy.sealed true) (py "enc_dek_b64"),
                 field_bytes (Toy.sealed true) (py "nonce_payload_b64"),
                 field_bytes (Toy.sealed true) (py "ciphertext_b64"))
                Toy.password).
    + subst payload. vm_compute. reflexivity.
    + vm_compute. discriminate.
    + vm_compute. reflexivity.
    + subst payload. vm_compute. reflexivity.
  - remember (match demo_json ToyRuns.unknown_algorithm with
              | Some doc => doc
              | None => JNull
              end) as payload eqn:Ep.
    assert (demo_json ToyRuns.unknown_algorithm = Some payload) as Hdoc
        by (subst payload; vm_compute; reflexivity).
    destruct (@structural_failures (Toy.rt true true)
                ToyRuns.unknown_algorithm payload Hdoc)
      as (_ & _ & _ & Halg & _).
    apply (Halg (JStr (py "aes256gcm"))
                (field_bytes (Toy.sealed true) (py "vault_key_enc_b64"))
                (field_bytes (Toy.sealed true) (py "enc_dek_b64"))
                (field_bytes (Toy.sealed true) (py "nonce_payload_b64"))
                (field_bytes (Toy.sealed true) (py "ciphertext_b64"))
                Toy.password (slice Toy.ent 0 16) 16384%Z 8%Z 1%Z 32%Z
                (match Toy.scrypt Toy.password (slice Toy.ent 0 16)
                         16384 8 1 32 with Ok k => k | Raise _ => [] end)).
    + subst payload. vm_compute. reflexivity.
    + vm_compute. reflexivity.
    + vm_compute. discriminate.
    + vm_compute. reflexivity.
    + subst payload. vm_compute. reflexivity.
    + vm_compute. reflexivity.
  - remember (envelope_of ToyRuns.sealing) as payload eqn:Ep.
    assert (demo_json (Toy.sealed true) = Some payload) as Hdoc
        by (subst payload; vm_compute; reflexivity).
    destruct (@structural_failures (Toy.rt true true) (Toy.sealed true)
                payload Hdoc) as (_ & _ & _ & _ & Hskip & _).
    apply (Hskip (py "QUJD") (py "RA==") 33%N).
    + reflexivity.
    + discriminate.
    + reflexivity.
  - unfold ToyRuns.malformed_base64.
    remember ToyRuns.malformed_base64_doc as payload' eqn:Ep'.
    remember (envelope_of ToyRuns.sealing) as payload eqn:Ep.
    assert (demo_json (Toy.sealed true) = Some payload) as Hdoc
        by (subst payload; vm_compute; reflexivity).
    destruct (@structural_failures (Toy.rt true true) (Toy.sealed true)
                payload Hdoc) as (_ & _ & _ & _ & _ & Hsame).
    apply (Hsame payload'
                 (JStr (py "xchacha20poly1305"),
                  field_bytes (Toy.sealed true) (py "vault_key_enc_b64"),
                  field_bytes (Toy.sealed true) (py "enc_dek_b64"),
                  field_bytes (Toy.sealed true) (py "nonce_payload_b64"),
                  field_bytes (Toy.sealed true) (py "ciphertext_b64"))
                 (slice Toy.ent 0 16, 16384, 8, 1, 32)%Z).
    + subst payload. vm_compute. reflexivity.
    + subst payload'. vm_compute. reflexivity.
    + subst payload. vm_compute. reflexivity.
    + subst payload'. vm_compute. reflexivity.
Defined.

(** C4, two malformed envelopes that are not rejected before any
    cryptographic operation.  On the sealed envelope with [aead] set to
    [aes256gcm], the run ends with
    [RuntimeError: unsupported AEAD: aes256gcm] and has by then called
    [hashlib.scrypt] on the password and the stored salt.  On the sealed
    envelope whose wrapped vault key has two exclamation marks before its
    base64 text and a remark after it, a text no [b64] call returns, the
    run ends with status 0 and prints the payload. *)
Lemma late_and_lenient_rejection :
  (exists payload,
      demo_json ToyRuns.unknown_algorithm = Some payload
      /\ subscript payload (py "aead") = Ok (JStr (py "aes256gcm")))
  /\ class_named (JStr (py "aes256gcm")) = None
  /\ fst (Decrypt.script (Toy.rt true true) ToyRuns.unknown_algorithm)
     = Raise (RuntimeError (py "unsupported AEAD: aes256gcm"))
  /\ calls (snd (Decrypt.script (Toy.rt true true)
                    ToyRuns.unknown_algorithm))
     = calls ToyRuns.unknown_algorithm
       ++ [Scrypt Toy.password (slice Toy.ent 0 16) 16384 8 1 32]
  /\ demo_json ToyRuns.malformed_base64 = Some ToyRuns.malformed_base64_doc
  /\ subscript ToyRuns.malformed_base64_doc (py "vault_key_enc_b64")
     = Ok (JStr (py "!!"
                 ++ b64_text (s_nonce_vault ToyRuns.sealing
                              ++ s_vault_key_enc ToyRuns.sealing)
                 ++ py "***not base64***"))
  /\ (forall data,
        b64 data
        <> Ok (py "!!"
               ++ b64_text (s_nonce_vault ToyRuns.sealing
                            ++ s_vault_key_enc ToyRuns.sealing)
               ++ py "***not base64***"))
  /\ fst (Decrypt.script (Toy.rt true true) ToyRuns.malformed_base64) = Ok 0%Z
  /\ stdout (snd (Decrypt.script (Toy.rt true true) ToyRuns.malformed_base64))
     = stdout ToyRuns.malformed_base64 ++ py "hello vault" ++ nl.
Proof.
  split; [eexists; split; vm_compute; reflexivity|].
  split; [vm_compute; reflexivity|].
  split; [vm_compute; reflexivity|].
  split; [vm_compute; reflexivity|].
  split; [reflexivity|].
  split; [vm_compute; reflexivity|].
  split.
  { intros data. rewrite b64_total. intros H. apply Ok_inj in H.
    revert H. apply b64_text_head. }
  split; vm_compute; reflexivity.
Qed.

(** C5 (binary sub-layout), as the code has it. After a run of
    [crypto_encrypt.py] that ends with status 0, the envelope holds the
    wrapped vault key and the wrapped DEK each as the base64 text of
    nonce || ciphertext, and the payload as two fields: [nonce_payload_b64],
    the base64 text of the payload nonce alone, and [ciphertext_b64], the
    base64 text of the payload ciphertext alone.  Decoding the five fields
    gives these byte strings back. *)
Theorem envelope_layout (rt : runtime) (w w1 : world) :
  Encrypt.script rt w = (Ok 0%Z, w1) ->
  exists s doc,
    seals rt w s
    /\ calls w1 = calls w ++ seal_calls s
    /\ demo_json w1 = Some doc
    /\ b64 (s_nonce_vault s ++ s_vault_key_enc s)
       = Ok (b64_text (s_nonce_vault s ++ s_vault_key_enc s))
    /\ subscript doc (py "vault_key_enc_b64")
       = Ok (JStr (b64_text (s_nonce_vault s ++ s_vault_key_enc s)))
    /\ subscript doc (py "enc_dek_b64")
       = Ok (JStr (b64_text (s_nonce_dekwrap s ++ s_ct_dekwrap s)))
    /\ subscript doc (py "nonce_payload_b64")
       = Ok (JStr (b64_text (s_nonce_payload s)))
    /\ subscript doc (py "ciphertext_b64")
       = Ok (JStr (b64_text (s_ciphertext s)))
    /\ header_of doc
       = Ok (JStr (class_name (s_class s)),
             s_nonce_vault s ++ s_vault_key_enc s,
             s_nonce_dekwrap s ++ s_ct_dekwrap s,
             s_nonce_payload s, s_ciphertext s).
Proof.
  intros Hrun. apply seal_inversion in Hrun.
  destruct Hrun as (s & Hs & Hdoc & _ & Hcalls & _).
  rewrite imported_calls in Hcalls.
  exists s, (envelope_of s).
  destruct (document_fields (class_name (s_class s))
              (b64_text (s_kdf_salt s))
              (b64_text (s_nonce_vault s ++ s_vault_key_enc s))
              (b64_text (s_nonce_dekwrap s ++ s_ct_dekwrap s))
              (b64_text (s_nonce_payload s)) (b64_text (s_ciphertext s)))
    as (F1 & F2 & F3 & F4 & F5 & _).
  split; [assumption|]. split; [assumption|]. split; [assumption|].
  split; [apply b64_total|].
  split; [exact F2|]. split; [exact F3|]. split; [exact F4|].
  split; [exact F5|]. apply header_of_document.
Qed.

Lemma envelope_layout_witness :
  exists s doc,
    seals (Toy.rt true true) Toy.start s
    /\ calls (Toy.sealed true) = calls Toy.start ++ seal_calls s
    /\ demo_json (Toy.sealed true) = Some doc
    /\ b64 (s_nonce_vault s ++ s_vault_key_enc s)
       = Ok (b64_text (s_nonce_vault s ++ s_vault_key_enc s))
    /\ subscript doc (py "vault_key_enc_b64")
       = Ok (JStr (b64_text (s_nonce_vault s ++ s_vault_key_enc s)))
    /\ subscript doc (py "enc_dek_b64")
       = Ok (JStr (b64_text (s_nonce_dekwrap s ++ s_ct_dekwrap s)))
    /\ subscript doc (py "nonce_payload_b64")
       = Ok (JStr (b64_text (s_nonce_payload s)))
    /\ subscript doc (py "ciphertext_b64")
       = Ok (JStr (b64_text (s_ciphertext s)))
    /\ header_of doc
       = Ok (JStr (class_name (s_class s)),
             s_nonce_vault s ++ s_vault_key_enc s,
             s_nonce_dekwrap s ++ s_ct_dekwrap s,
             s_nonce_payload s, s_ciphertext s).
Proof.
  apply (@envelope_layout (Toy.rt true true) Toy.start).
  vm_compute. reflexivity.
Defined.

(** C5, a sealed envelope in which the payload does not travel as one blob:
    the run on the line [hello vault] stores the payload nonce and the
    payload ciphertext under two keys, the field [ciphertext_b64] does not
    begin with the nonce, and no field of the document is the base64 text
    of nonce || ciphertext. *)
Lemma payload_is_not_one_blob :
  Encrypt.script (Toy.rt true true) Toy.start = (Ok 0%Z, Toy.sealed true)
  /\ seals (Toy.rt true true) Toy.start ToyRuns.sealing
  /\ demo_json (Toy.sealed true) = Some (envelope_of ToyRuns.sealing)
  /\ res_bind (subscript (envelope_of ToyRuns.sealing) (py "nonce_payload_b64"))
       Decrypt.b64d
     = Ok (s_nonce_payload ToyRuns.sealing)
  /\ res_bind (subscript (envelope_of ToyRuns.sealing) (py "ciphertext_b64"))
       Decrypt.b64d
     = Ok (s_ciphertext ToyRuns.sealing)
  /\ s_ciphertext ToyRuns.sealing
     <> s_nonce_payload ToyRuns.sealing ++ s_ciphertext ToyRuns.sealing
  /\ forall key,
       subscript (envelope_of ToyRuns.sealing) key
       <> Ok (JStr (b64_text (s_nonce_payload ToyRuns.sealing
                              ++ s_ciphertext ToyRuns.sealing))).
Proof.
  split; [vm_compute; reflexivity|].
  split; [apply toy_seals|].
  split; [vm_compute; reflexivity|].
  split; [vm_compute; reflexivity|].
  split; [vm_compute; reflexivity|].
  split; [vm_compute; discriminate|].
  intros key. unfold envelope_of, document. cbn [subscript]. unfold getitem.
  cbn [lookup].
  repeat match goal with
         | |- context [pystr_eqb ?k key] => destruct (pystr_eqb k key)
         end.
  all: vm_compute; discriminate.
Qed.

(** C6 (nonce-length-driven split). On a document whose header and
    key-derivation fields decode, whose [aead] identifier names a class
    [a] that is available, with a non-empty password, a master key derived
    and accepted by the class: the identifier is [xchacha20poly1305] with
    nonce length 24 or [chacha20poly1305] with nonce length 12; the run of
    [crypto_decrypt.py] calls [decrypt] with the first [nonce_size a] bytes
    of the wrapped vault key as the nonce and the remainder as the
    ciphertext; when that call returns a vault key the class accepts, the
    run calls [decrypt] with the first [nonce_size a] bytes of the wrapped
    DEK as the nonce and the remainder as the ciphertext; and the
    decryption calls of the run are these, followed at most by the one on
    the payload, and no other. *)
Theorem split_at_declared_nonce_length
        (rt : runtime) (w : world) (payload aead : json) (a : aead_class)
        (vault_key_enc enc_dek nonce_payload ciphertext W salt master_key
           : bytes) (n r p dklen : Z) :
  demo_json w = Some payload ->
  header_of payload
  = Ok (aead, vault_key_enc, enc_dek, nonce_payload, ciphertext) ->
  class_named aead = Some a -> available rt a = true ->
  typed_password w <> [] ->
  utf8_encode (typed_password w) = Ok W ->
  kdf_inputs_of rt payload = Ok (salt, n, r, p, dklen) ->
  scrypt rt W salt n r p dklen = Ok master_key ->
  aead_init rt a master_key = Ok tt ->
  (aead = JStr (py "xchacha20poly1305") /\ nonce_size a = 24
   \/ aead = JStr (py "chacha20poly1305") /\ nonce_size a = 12)
  /\ (exists rest,
        calls (snd (Decrypt.script rt w))
        = calls w
          ++ [Scrypt W salt n r p dklen;
              AeadNew a master_key;
              AeadDecrypt a master_key
                (firstn (nonce_size a) vault_key_enc)
                (skipn (nonce_size a) vault_key_enc) []]
          ++ rest)
  /\ (forall vault_key,
        aead_decrypt rt a master_key
          (firstn (nonce_size a) vault_key_enc)
          (skipn (nonce_size a) vault_key_enc) [] = Ok vault_key ->
        aead_init rt a vault_key = Ok tt ->
        exists rest,
          calls (snd (Decrypt.script rt w))
          = calls w
            ++ [Scrypt W salt n r p dklen;
                AeadNew a master_key;
                AeadDecrypt a master_key
                  (firstn (nonce_size a) vault_key_enc)
                  (skipn (nonce_size a) vault_key_enc) [];
                AeadNew a vault_key;
                AeadDecrypt a vault_key
                  (firstn (nonce_size a) enc_dek)
                  (skipn (nonce_size a) enc_dek) []]
            ++ rest)
  /\ (exists ds,
        decrypt_calls (calls (snd (Decrypt.script rt w)))
        = decrypt_calls (calls w) ++ ds
        /\ opens rt a vault_key_enc enc_dek nonce_payload ciphertext ds).
Proof.
  intros Hdoc Hh Hname Hav Hpw HW Hk Hmk Imk.
  apply header_of_Ok in Hh. destruct Hh as (H1 & H2 & H3 & H4 & H5).
  apply kdf_inputs_of_Ok in Hk.
  destruct Hk as (kdf & params & K1 & K2 & K3 & K4 & K5 & K6 & K7).
  destruct (typed_password w) as [|c pw] eqn:Epw; [congruence|].
  split; [|split; [|split]].
  - pose proof (class_named_inv _ Hname) as ->.
    destruct a; [left|right]; split; reflexivity.
  - destruct (Decrypt.script rt w) as [res w2] eqn:Hrun. revert Hrun.
    unfold Decrypt.script, Decrypt.main.
    drun. rewrite Epw. norm_world. explore.
    all: leaf Hrun.
    all: rewrite <- ?app_assoc; cbn [app]; eexists; reflexivity.
  - intros vault_key Hvk Ivk.
    destruct (Decrypt.script rt w) as [res w2] eqn:Hrun. revert Hrun.
    unfold Decrypt.script, Decrypt.main.
    drun. rewrite Epw. norm_world. explore.
    all: leaf Hrun.
    all: rewrite <- ?app_assoc; cbn [app]; eexists; reflexivity.
  - destruct (Decrypt.script rt w) as [res w2] eqn:Hrun. revert Hrun.
    unfold Decrypt.script, Decrypt.main.
    drun. rewrite Epw. norm_world. explore.
    all: leaf Hrun.
    all: rewrite ?decrypt_calls_app; cbn [decrypt_calls filter is_decrypt];
      rewrite ?app_nil_r, <- ?app_assoc; cbn [app].
    all: eexists; split; [reflexivity|econstructor; eassumption].
Qed.

Lemma split_at_declared_nonce_length_witness :
  (exists rest,
      calls (snd (Decrypt.script (Toy.rt true true) (Toy.sealed true)))
      = calls (Toy.sealed true)
        ++ [Scrypt Toy.password (slice Toy.ent 0 16) 16384 8 1 32;
            AeadNew XChaCha20Poly1305 (s_master_key ToyRuns.sealing);
            AeadDecrypt XChaCha20Poly1305 (s_master_key ToyRuns.sealing)
              (firstn 24 (field_bytes (Toy.sealed true)
                            (py "vault_key_enc_b64")))
              (skipn 24 (field_bytes (Toy.sealed true)
                           (py "vault_key_enc_b64"))) [];
            AeadNew XChaCha20Poly1305 (slice Toy.ent 16 32);
            AeadDecrypt XChaCha20Poly1305 (slice Toy.ent 16 32)
              (firstn 24 (field_bytes (Toy.sealed true) (py "enc_dek_b64")))
              (skipn 24 (field_bytes (Toy.sealed true) (py "enc_dek_b64")))
              []]
        ++ rest)
  /\ (exists rest,
        calls (snd (Decrypt.script (Toy.rt false true) (Toy.sealed false)))
        = calls (Toy.sealed false)
          ++ [Scrypt Toy.password (slice Toy.ent 0 16) 16384 8 1 32;
              AeadNew ChaCha20Poly1305 (s_master_key ToyRuns.sealing);
              AeadDecrypt ChaCha20Poly1305 (s_master_key ToyRuns.sealing)
                (firstn 12 (field_bytes (Toy.sealed false)
                              (py "vault_key_enc_b64")))
                (skipn 12 (field_bytes (Toy.sealed false)
                             (py "vault_key_enc_b64"))) [];
              AeadNew ChaCha20Poly1305 (slice Toy.ent 16 32);
              AeadDecrypt ChaCha20Poly1305 (slice Toy.ent 16 32)
                (firstn 12 (field_bytes (Toy.sealed false)
                              (py "enc_dek_b64")))
                (skipn 12 (field_bytes (Toy.sealed false)
                             (py "enc_dek_b64")))
                []]
          ++ rest).
Proof.
  split.
  - remember (envelope_of ToyRuns.sealing) as payload eqn:Ep.
    destruct (@split_at_declared_nonce_length (Toy.rt true true)
                (Toy.sealed true) payload (JStr (py "xchacha20poly1305"))
                XChaCha20Poly1305
                (field_bytes (Toy.sealed true) (py "vault_key_enc_b64"))
                (field_bytes (Toy.sealed true) (py "enc_dek_b64"))
                (field_bytes (Toy.sealed true) (py "nonce_payload_b64"))
                (field_bytes (Toy.sealed true) (py "ciphertext_b64"))
                Toy.password (slice Toy.ent 0 16)
                (s_master_key ToyRuns.sealing) 16384 8 1 32)
      as (_ & _ & Hdek & _).
    + subst payload. vm_compute. reflexivity.
    + subst payload. vm_compute. reflexivity.
    + reflexivity.
    + reflexivity.
    + vm_compute. discriminate.
    + vm_compute. reflexivity.
    + subst payload. vm_compute. reflexivity.
    + vm_compute. reflexivity.
    + vm_compute. reflexivity.
    + apply (Hdek (slice Toy.ent 16 32)).
      * vm_compute. reflexivity.
      * vm_compute. reflexivity.
  - remember (match demo_json (Toy.sealed false) with
              | Some doc => doc
              | None => JNull
              end) as payload eqn:Ep.
    destruct (@split_at_declared_nonce_length (Toy.rt false true)
                (Toy.sealed false) payload (JStr (py "chacha20poly1305"))
                ChaCha20Poly1305
                (field_bytes (Toy.sealed false) (py "vault_key_enc_b64"))
                (field_bytes (Toy.sealed false) (py "enc_dek_b64"))
                (field_bytes (Toy.sealed false) (py "nonce_payload_b64"))
                (field_bytes (Toy.sealed false) (py "ciphertext_b64"))
                Toy.password (slice Toy.ent 0 16)
                (s_master_key ToyRuns.sealing) 16384 8 1 32)
      as (_ & _ & Hdek & _).
    + subst payload. vm_compute. reflexivity.
    + subst payload. vm_compute. reflexivity.
    + reflexivity.
    + reflexivity.
    + vm_compute. discriminate.
    + vm_compute. reflexivity.
    + subst payload. vm_compute. reflexivity.
    + vm_compute. reflexivity.
    + vm_compute. reflexivity.
    + apply (Hdek (slice Toy.ent 16 32)).
      * vm_compute. reflexivity.
      * vm_compute. reflexivity.
Defined.

(** C7 (empty-input rejection). [crypto_encrypt.py] on an empty payload
    line ends with status 2 and the message [plaintext cannot be empty]; on
    a non-empty payload and an empty password it ends with status 2 and the
    message [master password cannot be empty]; [crypto_decrypt.py] on a
    document whose header decodes and an empty password ends with status 2
    and the same message.  In each case the final world differs from the
    first one by the text written only: no entropy was drawn and no key was
    derived, set up or used; and whatever the document, a run of
    [crypto_decrypt.py] with an empty password leaves the log of runtime
    calls as it was. *)
Theorem empty_input_rejection (rt : runtime) :
  (forall g w,
      utf8_encode (rstrip_newline (stdin_line w)) = Ok [] ->
      Encrypt.main rt g w
      = (Ok 2%Z,
         set_stderr (stderr w ++ py "plaintext cannot be empty" ++ nl)
           (set_stdout (stdout w ++ py "Enter plaintext to encrypt:" ++ nl) w)))
  /\ (forall g w P,
        utf8_encode (rstrip_newline (stdin_line w)) = Ok P -> P <> [] ->
        typed_password w = [] ->
        Encrypt.main rt g w
        = (Ok 2%Z,
           set_stderr (stderr w ++ py "master password cannot be empty" ++ nl)
             (set_stdout (stdout w ++ py "Enter plaintext to encrypt:" ++ nl)
                w)))
  /\ (forall w payload h,
        demo_json w = Some payload -> header_of payload = Ok h ->
        typed_password w = [] ->
        Decrypt.script rt w
        = (Ok 2%Z,
           set_stderr (stderr w ++ py "master password cannot be empty" ++ nl)
             w))
  /\ (forall w,
        typed_password w = [] ->
        calls (snd (Decrypt.script rt w)) = calls w).
Proof.
  split; [|split; [|split]].
  - intros g w HP. unfold Encrypt.main. run. reflexivity.
  - intros g w P HP HP0 Hpw. unfold Encrypt.main.
    destruct P as [|b P]; [congruence|]. run. rewrite Hpw. run. rewrite ?Hpw. reflexivity.
  - intros w payload h Hdoc Hh Hpw.
    destruct h as [[[[aead v] e] n] c]. apply header_of_Ok in Hh.
    destruct Hh as (H1 & H2 & H3 & H4 & H5).
    unfold Decrypt.script, Decrypt.main. drun. rewrite Hpw. drun. unfold ret. norm_world. rewrite ?Hpw. reflexivity.
  - intros w Hpw.
    destruct (Decrypt.script rt w) as [r w2] eqn:Hrun. revert Hrun.
    unfold Decrypt.script, Decrypt.main.
    destruct (demo_json w) as [payload|] eqn:Hdoc.
    + explore.
      all: try (rewrite Hpw; norm_world; explore).
      all: leaf Hrun; first [reflexivity | congruence].
    + explore. leaf Hrun. reflexivity.
Qed.

Lemma empty_input_rejection_witness :
  Encrypt.main (Toy.rt true true) (Encrypt.Globals (py "xchacha20poly1305") 24)
    (initial nl (py "correct horse") Toy.ent)
  = (Ok 2%Z,
     set_stderr (py "plaintext cannot be empty" ++ nl)
       (set_stdout (py "Enter plaintext to encrypt:" ++ nl)
          (initial nl (py "correct horse") Toy.ent)))
  /\ Encrypt.main (Toy.rt true true)
       (Encrypt.Globals (py "xchacha20poly1305") 24)
       (initial (py "hello vault" ++ nl) [] Toy.ent)
     = (Ok 2%Z,
        set_stderr (py "master password cannot be empty" ++ nl)
          (set_stdout (py "Enter plaintext to encrypt:" ++ nl)
             (initial (py "hello vault" ++ nl) [] Toy.ent)))
  /\ Decrypt.script (Toy.rt true true) ToyRuns.no_password
     = (Ok 2%Z,
        set_stderr (stderr ToyRuns.no_password
                    ++ py "master password cannot be empty" ++ nl)
          ToyRuns.no_password)
  /\ calls (snd (Decrypt.script (Toy.rt true true) ToyRuns.no_password))
     = calls ToyRuns.no_password.
Proof.
  destruct (empty_input_rejection (Toy.rt true true))
    as (Hplain & Hpw & Hopen & Hcalls).
  split; [|split; [|split]].
  - apply (Hplain (Encrypt.Globals (py "xchacha20poly1305") 24)
                  (initial nl (py "correct horse") Toy.ent)).
    vm_compute. reflexivity.
  - apply (Hpw (Encrypt.Globals (py "xchacha20poly1305") 24)
               (initial (py "hello vault" ++ nl) [] Toy.ent) Toy.payload).
    + vm_compute. reflexivity.
    + discriminate.
    + reflexivity.
  - remember (envelope_of ToyRuns.sealing) as payload eqn:Ep.
    apply (Hopen ToyRuns.no_password payload
                 (JStr (py "xchacha20poly1305"),
                  field_bytes (Toy.sealed true) (py "vault_key_enc_b64"),
                  field_bytes (Toy.sealed true) (py "enc_dek_b64"),
                  field_bytes (Toy.sealed true) (py "nonce_payload_b64"),
                  field_bytes (Toy.sealed true) (py "ciphertext_b64"))).
    + subst payload. vm_compute. reflexivity.
    + subst payload. vm_compute. reflexivity.
    + reflexivity.
  - apply Hcalls. reflexivity.
Defined.

(** C8 (KDF determinism). [hashlib.scrypt] is a function of its inputs, and
    [crypto_decrypt.py], run with the same password on the envelope that
    [crypto_encrypt.py] left, calls it once with exactly the password
    bytes, the salt and the parameters (n = 16384, r = 8, p = 1,
    dk_len = 32) of the one call [crypto_encrypt.py] made; the key that call
    returns is the key both scripts set their first cipher up with. *)
Theorem master_key_rederived (rt : runtime) (w w1 w' : world) :
  Encrypt.script rt w = (Ok 0%Z, w1) ->
  demo_json w' = demo_json w1 ->
  typed_password w' = typed_password w ->
  exists W salt key,
    utf8_encode (typed_password w) = Ok W
    /\ kdf_calls (calls w1)
       = kdf_calls (calls w) ++ [Scrypt W salt 16384 8 1 32]
    /\ kdf_calls (calls (snd (Decrypt.script rt w')))
       = kdf_calls (calls w') ++ [Scrypt W salt 16384 8 1 32]
    /\ scrypt rt W salt 16384 8 1 32 = Ok key
    /\ In (AeadNew (class_of rt) key) (calls w1)
    /\ In (AeadNew (class_of rt) key) (calls (snd (Decrypt.script rt w'))).
Proof.
  intros Hrun Hdoc Hpw.
  apply seal_inversion in Hrun.
  destruct Hrun as (s & Hs & Hdoc1 & _ & Hcalls & _).
  destruct (seals_facts Hs) as (Hav & Lnv & Lnd & Lnp & Lvk & Ldek & Lsalt).
  destruct Hs as (_ & Ha & HP & HP0 & HW0 & HW & Esalt & Hmk & Evk & Env & Imk
                  & _).
  rewrite Hdoc1 in Hdoc. rewrite imported_calls in Hcalls.
  exists (s_password s), (s_kdf_salt s), (s_master_key s).
  split; [assumption|].
  split.
  { rewrite Hcalls, kdf_calls_app. reflexivity. }
  rewrite <- Ha.
  assert (In (AeadNew (s_class s) (s_master_key s)) (calls w1)) as Hin1.
  { rewrite Hcalls. apply in_or_app. right. unfold seal_calls. cbn. auto 10. }
  destruct (envelope_reads rt s)
    as (H1 & H2 & H3 & H4 & H5 & kdf & params & K1 & K2 & K3 & K4 & K5 & K6
        & K7).
  pose proof (class_named_name (s_class s)) as Hname.
  destruct (typed_password w) as [|c pw] eqn:Epw; [congruence|].
  destruct (Decrypt.script rt w') as [r w2] eqn:Hopen. revert Hopen.
  unfold Decrypt.script, Decrypt.main.
  drun. rewrite Hpw. norm_world. drun.
  explore.
  all: leaf Hopen.
  all: rewrite ?kdf_calls_app; cbn [kdf_calls filter is_kdf];
    rewrite ?app_nil_r.
  all: repeat split; try assumption; try reflexivity.
  all: rewrite ?in_app_iff; cbn [In]; auto 20.
Qed.

Lemma master_key_rederived_witness :
  exists W salt key,
    utf8_encode (typed_password Toy.start) = Ok W
    /\ kdf_calls (calls (Toy.sealed true))
       = kdf_calls (calls Toy.start) ++ [Scrypt W salt 16384 8 1 32]
    /\ kdf_calls (calls (snd (Decrypt.script (Toy.rt true true)
                                (Toy.sealed true))))
       = kdf_calls (calls (Toy.sealed true)) ++ [Scrypt W salt 16384 8 1 32]
    /\ scrypt (Toy.rt true true) W salt 16384 8 1 32 = Ok key
    /\ In (AeadNew (class_of (Toy.rt true true)) key)
          (calls (Toy.sealed true))
    /\ In (AeadNew (class_of (Toy.rt true true)) key)
          (calls (snd (Decrypt.script (Toy.rt true true) (Toy.sealed true)))).
Proof.
  apply (@master_key_rederived (Toy.rt true true) Toy.start (Toy.sealed true)
           (Toy.sealed true)).
  - vm_compute. reflexivity.
  - reflexivity.
  - vm_compute. reflexivity.
Defined.

(** C9 (the annotated rendering carries the fields of the document). After
    a run of [crypto_encrypt.py] that ends with status 0, [demo.jsonc] is
    the fixed comment lines with, between them, the [aead] identifier, the
    two wrapped-key blobs, the payload nonce, the payload ciphertext, the
    KDF type, the salt and the parameters exactly as [demo.json] holds them
    under the same keys. *)
Theorem annotated_rendering_matches (rt : runtime) (w w1 : world) :
  Encrypt.script rt w = (Ok 0%Z, w1) ->
  exists doc kdf params aead vault_key_enc_b64 enc_dek_b64 nonce_payload_b64
         ciphertext_b64 kdf_type salt_b64,
    demo_json w1 = Some doc
    /\ subscript doc (py "aead") = Ok (JStr aead)
    /\ subscript doc (py "vault_key_enc_b64") = Ok (JStr vault_key_enc_b64)
    /\ subscript doc (py "enc_dek_b64") = Ok (JStr enc_dek_b64)
    /\ subscript doc (py "nonce_payload_b64") = Ok (JStr nonce_payload_b64)
    /\ subscript doc (py "ciphertext_b64") = Ok (JStr ciphertext_b64)
    /\ subscript doc (py "kdf") = Ok kdf
    /\ subscript kdf (py "type") = Ok (JStr kdf_type)
    /\ subscript kdf (py "salt_b64") = Ok (JStr salt_b64)
    /\ subscript kdf (py "params") = Ok params
    /\ demo_jsonc w1
       = Some (annotated aead vault_key_enc_b64 enc_dek_b64 nonce_payload_b64
                 ciphertext_b64 kdf_type salt_b64 (json_dumps params)).
Proof.
  intros Hrun. apply seal_inversion in Hrun.
  destruct Hrun as (s & _ & Hdoc & Hjsonc & _).
  destruct (document_fields (class_name (s_class s))
              (b64_text (s_kdf_salt s))
              (b64_text (s_nonce_vault s ++ s_vault_key_enc s))
              (b64_text (s_nonce_dekwrap s ++ s_ct_dekwrap s))
              (b64_text (s_nonce_payload s)) (b64_text (s_ciphertext s)))
    as (F1 & F2 & F3 & F4 & F5 & kdf & params & F6 & F7 & F8 & F9 & _ & _ & _
        & _ & Fd).
  exists (envelope_of s), kdf, params. do 7 eexists.
  split; [exact Hdoc|].
  repeat (split; [eassumption|]).
  rewrite Hjsonc, Fd. reflexivity.
Qed.

Lemma annotated_rendering_matches_witness :
  exists doc kdf params aead vault_key_enc_b64 enc_dek_b64 nonce_payload_b64
         ciphertext_b64 kdf_type salt_b64,
    demo_json (Toy.sealed true) = Some doc
    /\ subscript doc (py "aead") = Ok (JStr aead)
    /\ subscript doc (py "vault_key_enc_b64") = Ok (JStr vault_key_enc_b64)
    /\ subscript doc (py "enc_dek_b64") = Ok (JStr enc_dek_b64)
    /\ subscript doc (py "nonce_payload_b64") = Ok (JStr nonce_payload_b64)
    /\ subscript doc (py "ciphertext_b64") = Ok (JStr ciphertext_b64)
    /\ subscript doc (py "kdf") = Ok kdf
    /\ subscript kdf (py "type") = Ok (JStr kdf_type)
    /\ subscript kdf (py "salt_b64") = Ok (JStr salt_b64)
    /\ subscript kdf (py "params") = Ok params
    /\ demo_jsonc (Toy.sealed true)
       = Some (annotated aead vault_key_enc_b64 enc_dek_b64 nonce_payload_b64
                 ciphertext_b64 kdf_type salt_b64 (json_dumps params)).
Proof.
  apply (@annotated_rendering_matches (Toy.rt true true) Toy.start).
  vm_compute. reflexivity.
Defined.

(** C10 (no length check before the split). On a document whose header
    and key-derivation inputs decode, with the class available, a wrapped
    vault key shorter than the nonce length is split into itself (as the
    nonce) and the empty ciphertext, and handed to [decrypt] as such: when
    the runtime refuses a nonce of the wrong size, the run ends with status
    3 and the message of a failed decryption.  A wrapped DEK shorter than
    the nonce length is split likewise and handed to [decrypt]; there the
    exception leaves [main].  Neither blob is rejected before the
    decryption call. *)
Theorem short_blob_reaches_decryption
        (rt : runtime) (w : world) (payload aead : json) (a : aead_class)
        (vault_key_enc enc_dek nonce_payload ciphertext W salt master_key
           : bytes) (n r p dklen : Z) :
  aead_checks_nonce rt ->
  demo_json w = Some payload ->
  header_of payload
  = Ok (aead, vault_key_enc, enc_dek, nonce_payload, ciphertext) ->
  class_named aead = Some a -> available rt a = true ->
  typed_password w <> [] ->
  utf8_encode (typed_password w) = Ok W ->
  kdf_inputs_of rt payload = Ok (salt, n, r, p, dklen) ->
  scrypt rt W salt n r p dklen = Ok master_key ->
  aead_init rt a master_key = Ok tt ->
  (length vault_key_enc < nonce_size a ->
   firstn (nonce_size a) vault_key_enc = vault_key_enc
   /\ skipn (nonce_size a) vault_key_enc = []
   /\ exists w2,
        Decrypt.script rt w = (Ok 3%Z, w2)
        /\ last (calls w2) (Urandom 0)
           = AeadDecrypt a master_key vault_key_enc [] []
        /\ stderr w2 = stderr w ++ decrypt_failed)
  /\ (forall vault_key,
        aead_decrypt rt a master_key
          (firstn (nonce_size a) vault_key_enc)
          (skipn (nonce_size a) vault_key_enc) [] = Ok vault_key ->
        aead_init rt a vault_key = Ok tt ->
        length enc_dek < nonce_size a ->
        firstn (nonce_size a) enc_dek = enc_dek
        /\ skipn (nonce_size a) enc_dek = []
        /\ exists e w2,
             Decrypt.script rt w = (Raise e, w2)
             /\ last (calls w2) (Urandom 0)
                = AeadDecrypt a vault_key enc_dek [] []
             /\ aead_decrypt rt a vault_key enc_dek [] [] = Raise e
             /\ stderr w2 = stderr w).
Proof.
  intros Hnonce Hdoc Hh Hname Hav Hpw HW Hk Hmk Imk.
  apply header_of_Ok in Hh. destruct Hh as (H1 & H2 & H3 & H4 & H5).
  apply kdf_inputs_of_Ok in Hk.
  destruct Hk as (kdf & params & K1 & K2 & K3 & K4 & K5 & K6 & K7).
  destruct (typed_password w) as [|c pw] eqn:Epw; [congruence|].
  split.
  - intros Hshort. destruct (firstn_short _ Hshort) as [Ef Es].
    split; [assumption|]. split; [assumption|].
    destruct (Hnonce a master_key vault_key_enc []) as (e & Hdec); [lia|].
    unfold Decrypt.script, Decrypt.main.
    drun. rewrite Epw. norm_world. drun. rewrite Ef, Es. drun.
    rewrite bind_handler. norm_world. unfold ret.
    eexists. split; [reflexivity|]. cbn [calls stderr].
    rewrite last_last. split; reflexivity.
  - intros vault_key Hvk Ivk Hshort. destruct (firstn_short _ Hshort) as [Ef Es].
    split; [assumption|]. split; [assumption|].
    destruct (Hnonce a vault_key enc_dek []) as (e & Hdec); [lia|].
    unfold Decrypt.script, Decrypt.main.
    drun. rewrite Epw. norm_world. drun. rewrite Ef, Es. drun.
    eexists. eexists. split; [reflexivity|]. cbn [calls stderr].
    rewrite last_last. repeat split. assumption.
Qed.

Lemma short_blob_reaches_decryption_witness :
  firstn (nonce_size XChaCha20Poly1305) [x01; x02] = [x01; x02]
  /\ skipn (nonce_size XChaCha20Poly1305) [x01; x02] = []
  /\ exists w2,
       Decrypt.script (Toy.rt true true) ToyRuns.short_vault = (Ok 3%Z, w2)
       /\ last (calls w2) (Urandom 0)
          = AeadDecrypt XChaCha20Poly1305 (s_master_key ToyRuns.sealing)
              [x01; x02] [] []
       /\ stderr w2 = stderr ToyRuns.short_vault ++ decrypt_failed.
Proof.
  destruct (@short_blob_reaches_decryption (Toy.rt true true)
              ToyRuns.short_vault
              (match demo_json ToyRuns.short_vault with
               | Some doc => doc
               | None => JNull
               end)
              (JStr (py "xchacha20poly1305")) XChaCha20Poly1305
              [x01; x02]
              (field_bytes ToyRuns.short_vault (py "enc_dek_b64"))
              (field_bytes ToyRuns.short_vault (py "nonce_payload_b64"))
              (field_bytes ToyRuns.short_vault (py "ciphertext_b64"))
              Toy.password (s_kdf_salt ToyRuns.sealing)
              (s_master_key ToyRuns.sealing) 16384 8 1 32) as [H _].
  - apply Toy_aead_checks_nonce.
  - vm_compute. reflexivity.
  - vm_compute. reflexivity.
  - vm_compute. reflexivity.
  - vm_compute. reflexivity.
  - vm_compute. discriminate.
  - vm_compute. reflexivity.
  - vm_compute. reflexivity.
  - vm_compute. reflexivity.
  - vm_compute. reflexivity.
  - apply H. vm_compute. lia.
Defined.

(* ================================================================== *)
(** * Further properties of the two scripts *)
(* ================================================================== *)

(** [crypto_decrypt.py] only reads: whatever the document and the password,
    a run leaves [demo.json], [demo.jsonc], the entropy source and the
    inputs as they were; the runtime calls it adds to the log draw no
    entropy and encrypt nothing, and at most one of them derives a key. *)
Theorem decrypt_is_read_only (rt : runtime) (w : world) :
  demo_json (snd (Decrypt.script rt w)) = demo_json w
  /\ demo_jsonc (snd (Decrypt.script rt w)) = demo_jsonc w
  /\ drawn (snd (Decrypt.script rt w)) = drawn w
  /\ entropy (snd (Decrypt.script rt w)) = entropy w
  /\ stdin_line (snd (Decrypt.script rt w)) = stdin_line w
  /\ typed_password (snd (Decrypt.script rt w)) = typed_password w
  /\ exists made,
       calls (snd (Decrypt.script rt w)) = calls w ++ made
       /\ forallb (fun c => negb (is_urandom c) && negb (is_encrypt c)) made
          = true
       /\ length (kdf_calls made) <= 1.
Proof.
  destruct (Decrypt.script rt w) as [r w2] eqn:Hrun. revert Hrun.
  unfold Decrypt.script, Decrypt.main.
  destruct (demo_json w) as [payload|] eqn:Hdoc.
  - explore.
    all: try congruence.
    all: leaf Hrun.
    all: rewrite ?Hdoc.
    all: repeat (split; [first [reflexivity | assumption
                               | symmetry; assumption]|]).
    all: rewrite <- ?app_assoc; cbn [app].
    all: try solve [ exists []; rewrite app_nil_r; repeat split; cbn; lia
               | eexists; split; [reflexivity|]; split; [reflexivity|cbn; lia] ].
  - explore. leaf Hrun. rewrite ?Hdoc. repeat (split; [reflexivity|]).
    exists []. rewrite app_nil_r. repeat split. cbn. lia.
Qed.



(** Without a [demo.json], [crypto_decrypt.py] ends with status 2 and the
    line [demo.json not found] on the standard error; nothing else of the
    world changes (lines 36 to 41). *)
Theorem missing_envelope_file (rt : runtime) (w : world) :
  demo_json w = None ->
  Decrypt.script rt w
  = (Ok 2%Z, set_stderr (stderr w ++ py "demo.json not found" ++ nl) w).
Proof.
  intros Hdoc. unfold Decrypt.script, Decrypt.main. drun.
  rewrite bind_handler. norm_world. drun. reflexivity.
Qed.

Lemma missing_envelope_file_witness :
  Decrypt.script (Toy.rt true true) Toy.start
  = (Ok 2%Z,
     set_stderr (stderr Toy.start ++ py "demo.json not found" ++ nl)
       Toy.start).
Proof.
  apply (@missing_envelope_file (Toy.rt true true) Toy.start). reflexivity.
Defined.

(** The first layer is guarded: let the wrapped vault key of a sealed
    envelope be replaced by any [blob] that the cipher refuses under the
    master key derived from the password; then [crypto_decrypt.py], run with
    that password, ends with status 3, writes
    [decrypt failed (wrong master password?)], prints nothing, and its one
    decryption call is the one on [blob], cut at the nonce length of the
    class (lines 66 to 72). *)
Theorem tampered_vault_key_is_caught
        (rt : runtime) (w w1 w' : world) (blob W master_key : bytes)
        (e : exn) :
  Encrypt.script rt w = (Ok 0%Z, w1) ->
  demo_json w'
  = option_map (replace_field (py "vault_key_enc_b64")
                  (JStr (b64_text blob)))
      (demo_json w1) ->
  typed_password w' = typed_password w ->
  utf8_encode (typed_password w) = Ok W ->
  scrypt rt W (slice (entropy w) (drawn w) 16) 16384 8 1 32 = Ok master_key ->
  aead_decrypt rt (class_of rt) master_key
    (firstn (nonce_size (class_of rt)) blob)
    (skipn (nonce_size (class_of rt)) blob) [] = Raise e ->
  exists w2,
    Decrypt.script rt w' = (Ok 3%Z, w2)
    /\ stdout w2 = stdout w'
    /\ stderr w2 = stderr w' ++ decrypt_failed
    /\ decrypt_calls (calls w2)
       = decrypt_calls (calls w')
         ++ [AeadDecrypt (class_of rt) master_key
               (firstn (nonce_size (class_of rt)) blob)
               (skipn (nonce_size (class_of rt)) blob) []].
Proof.
  intros Hrun Hdoc Hpw HW' Hmk' Hdec.
  apply seal_inversion in Hrun. destruct Hrun as (s & Hs & Hdoc1 & _).
  destruct (seals_facts Hs) as (Hav & Lnv & Lnd & Lnp & Lvk & Ldek & Lsalt).
  destruct Hs as (_ & Ha & HP & HP0 & HW0 & HW & Esalt & Hmk & Evk & Env & Imk
                  & _).
  rewrite Hdoc1 in Hdoc. cbn [option_map] in Hdoc.
  assert (s_password s = W) as EW by congruence.
  rewrite EW, Esalt in Hmk.
  assert (s_master_key s = master_key) as Emk by congruence.
  rewrite Emk in Imk. rewrite <- Ha in Hdec.
  destruct (tampered_vault_reads rt s blob) as (H1 & H2 & H3 & H4 & H5 & Hk).
  destruct (envelope_reads rt s)
    as (_ & _ & _ & _ & _ & kdf & params & K1 & K2 & K3 & K4 & K5 & K6 & K7).
  rewrite <- Hk in K1. rewrite Esalt in K3.
  pose proof (class_named_name (s_class s)) as Hname.
  destruct (typed_password w) as [|c pw] eqn:Epw; [congruence|].
  unfold Decrypt.script, Decrypt.main.
  drun. rewrite Hpw. norm_world. drun.
  rewrite bind_handler. norm_world. unfold ret.
  rewrite <- Ha.
  eexists. split; [reflexivity|].
  cbn [stdout stderr calls].
  split; [reflexivity|]. split; [reflexivity|].
  rewrite !decrypt_calls_app. cbn [decrypt_calls filter is_decrypt].
  rewrite !app_nil_r. reflexivity.
Qed.

Lemma tampered_vault_key_is_caught_witness :
  exists w2,
    Decrypt.script (Toy.rt true true) ToyRuns.tampered_vault = (Ok 3%Z, w2)
    /\ stdout w2 = stdout ToyRuns.tampered_vault
    /\ stderr w2 = stderr ToyRuns.tampered_vault ++ decrypt_failed
    /\ decrypt_calls (calls w2)
       = decrypt_calls (calls ToyRuns.tampered_vault)
         ++ [AeadDecrypt (class_of (Toy.rt true true))
               (s_master_key ToyRuns.sealing)
               (firstn (nonce_size (class_of (Toy.rt true true)))
                  (flip_bit 20 0
                     (field_bytes (Toy.sealed true)
                        (py "vault_key_enc_b64"))))
               (skipn (nonce_size (class_of (Toy.rt true true)))
                  (flip_bit 20 0
                     (field_bytes (Toy.sealed true)
                        (py "vault_key_enc_b64")))) []].
Proof.
  apply (@tampered_vault_key_is_caught (Toy.rt true true) Toy.start
           (Toy.sealed true) ToyRuns.tampered_vault
           (flip_bit 20 0
              (field_bytes (Toy.sealed true) (py "vault_key_enc_b64")))
           Toy.password (s_master_key ToyRuns.sealing) InvalidTag).
  - vm_compute. reflexivity.
  - vm_compute. reflexivity.
  - vm_compute. reflexivity.
  - vm_compute. reflexivity.
  - vm_compute. reflexivity.
  - vm_compute. reflexivity.
Defined.



(** An envelope whose algorithm is known but whose class could not be
    imported: [aead_new] raises [RuntimeError] with the message that names
    the class, after [main] has derived the master key and before any
    cipher is set up (lines 25, 26, 29 and 30, called from line 66). *)
Theorem unavailable_class_is_reported
        (rt : runtime) (w : world) (payload aead : json) (a : aead_class)
        (v e n c W salt master_key : bytes) (nn r p dklen : Z) :
  demo_json w = Some payload ->
  header_of payload = Ok (aead, v, e, n, c) ->
  class_named aead = Some a -> available rt a = false ->
  typed_password w <> [] ->
  utf8_encode (typed_password w) = Ok W ->
  kdf_inputs_of rt payload = Ok (salt, nn, r, p, dklen) ->
  scrypt rt W salt nn r p dklen = Ok master_key ->
  Decrypt.script rt w
  = (Raise (RuntimeError (not_available a)),
     set_calls (calls w ++ [Scrypt W salt nn r p dklen]) w).
Proof.
  intros Hdoc Hh Hname Hav Hpw HW Hk Hmk.
  apply header_of_Ok in Hh. destruct Hh as (H1 & H2 & H3 & H4 & H5).
  apply kdf_inputs_of_Ok in Hk.
  destruct Hk as (kdf & params & K1 & K2 & K3 & K4 & K5 & K6 & K7).
  destruct (typed_password w) as [|ch pw] eqn:Epw; [congruence|].
  unfold Decrypt.script, Decrypt.main. drun. rewrite Epw. norm_world.
  drun. rewrite <- Epw. reflexivity.
Qed.

Lemma unavailable_class_is_reported_witness :
  Decrypt.script (Toy.rt false true) (Toy.sealed true)
  = (Raise (RuntimeError
              (py "XChaCha20Poly1305 is not available in this Python build.")),
     set_calls
       (calls (Toy.sealed true)
        ++ [Scrypt Toy.password (slice Toy.ent 0 16) 16384 8 1 32])
       (Toy.sealed true)).
Proof.
  remember (envelope_of ToyRuns.sealing) as payload eqn:Ep.
  apply (@unavailable_class_is_reported (Toy.rt false true) (Toy.sealed true)
           payload (JStr (py "xchacha20poly1305")) XChaCha20Poly1305
           (field_bytes (Toy.sealed true) (py "vault_key_enc_b64"))
           (field_bytes (Toy.sealed true) (py "enc_dek_b64"))
           (field_bytes (Toy.sealed true) (py "nonce_payload_b64"))
           (field_bytes (Toy.sealed true) (py "ciphertext_b64"))
           Toy.password (slice Toy.ent 0 16) (s_master_key ToyRuns.sealing)
           16384 8 1 32).
  - subst payload. vm_compute. reflexivity.
  - subst payload. vm_compute. reflexivity.
  - reflexivity.
  - reflexivity.
  - vm_compute. discriminate.
  - vm_compute. reflexivity.
  - subst payload. vm_compute. reflexivity.
  - vm_compute. reflexivity.
Defined.

(** The import block of [crypto_encrypt.py] (lines 9 to 25), when it
    succeeds, sets [AEAD] to the identifier of the class it imported and
    [NonceLen] to that class's nonce length: XChaCha20Poly1305 with 24 when
    it is there, and nothing is written; otherwise ChaCha20Poly1305 with
    12, after two lines of warning on the standard error.  The standard
    output and the call log are as they were. *)
Theorem imports_bind_class_and_nonce_length
        (rt : runtime) (w w1 : world) (g : Encrypt.globals) :
  Encrypt.imports rt w = (Ok g, w1) ->
  class_named (JStr (Encrypt.AEAD g)) = Some (class_of rt)
  /\ available rt (class_of rt) = true
  /\ Encrypt.NonceLen g = nonce_size (class_of rt)
  /\ stdout w1 = stdout w
  /\ calls w1 = calls w
  /\ (have_xchacha rt = true ->
      Encrypt.AEAD g = py "xchacha20poly1305" /\ Encrypt.NonceLen g = 24
      /\ w1 = w)
  /\ (have_xchacha rt = false ->
      Encrypt.AEAD g = py "chacha20poly1305" /\ Encrypt.NonceLen g = 12
      /\ stderr w1
         = stderr w
           ++ (py "XChaCha20Poly1305 unavailable, falling back to ChaCha20Poly1305 for demo."
               ++ nl)
           ++ py "This changes nonce length but keeps the envelope flow identical."
           ++ nl).
Proof.
  unfold Encrypt.imports, class_of, available.
  destruct (have_xchacha rt) eqn:Hx.
  - intros H. apply pair_inj in H. destruct H as [H <-].
    apply Ok_inj in H. subst g. cbn [Encrypt.AEAD Encrypt.NonceLen].
    repeat split; try reflexivity; try assumption; discriminate.
  - destruct (have_chacha rt) eqn:Hc.
    + run. intros H. apply pair_inj in H. destruct H as [H <-].
      apply Ok_inj in H. subst g. cbn [Encrypt.AEAD Encrypt.NonceLen].
      cbn [stdout calls stderr].
      repeat split; try reflexivity; try assumption; try discriminate.
      now rewrite <- app_assoc.
    + run. intros H. apply pair_inj in H. destruct H as [H _]. discriminate.
Qed.

Lemma imports_bind_class_and_nonce_length_witness :
  class_named (JStr (py "chacha20poly1305")) = Some (class_of (Toy.rt false true))
  /\ available (Toy.rt false true) (class_of (Toy.rt false true)) = true
  /\ 12 = nonce_size (class_of (Toy.rt false true))
  /\ stdout (snd (Encrypt.imports (Toy.rt false true) Toy.start))
     = stdout Toy.start
  /\ calls (snd (Encrypt.imports (Toy.rt false true) Toy.start))
     = calls Toy.start
  /\ (have_xchacha (Toy.rt false true) = true ->
      py "chacha20poly1305" = py "xchacha20poly1305" /\ 12 = 24
      /\ snd (Encrypt.imports (Toy.rt false true) Toy.start) = Toy.start)
  /\ (have_xchacha (Toy.rt false true) = false ->
      py "chacha20poly1305" = py "chacha20poly1305" /\ 12 = 12
      /\ stderr (snd (Encrypt.imports (Toy.rt false true) Toy.start))
         = stderr Toy.start
           ++ (py "XChaCha20Poly1305 unavailable, falling back to ChaCha20Poly1305 for demo."
               ++ nl)
           ++ py "This changes nonce length but keeps the envelope flow identical."
           ++ nl).
Proof.
  apply (@imports_bind_class_and_nonce_length (Toy.rt false true) Toy.start
           (snd (Encrypt.imports (Toy.rt false true) Toy.start))
           (Encrypt.Globals (py "chacha20poly1305") 12)).
  reflexivity.
Defined.

(** With neither class importable, [crypto_encrypt.py] writes its two
    lines about the missing dependency on the standard error and the
    [ImportError] leaves the script: [main] is never run (lines 22 to 25). *)
Theorem missing_dependency (rt : runtime) (w : world) :
  have_xchacha rt = false -> have_chacha rt = false ->
  Encrypt.script rt w
  = (Raise ImportError,
     set_stderr
       (stderr w
        ++ (py "missing dependency: python 'cryptography' (AEAD)" ++ nl)
        ++ py "install: pip install cryptography" ++ nl)
       w).
Proof.
  intros Hx Hc. unfold Encrypt.script, Encrypt.imports. rewrite Hx, Hc.
  repeat (rewrite ?bind_bind; run). now rewrite <- app_assoc.
Qed.

Lemma missing_dependency_witness :
  Encrypt.script (Toy.rt false false) Toy.start
  = (Raise ImportError,
     set_stderr
       (stderr Toy.start
        ++ (py "missing dependency: python 'cryptography' (AEAD)" ++ nl)
        ++ py "install: pip install cryptography" ++ nl)
       Toy.start).
Proof.
  apply (@missing_dependency (Toy.rt false false) Toy.start); reflexivity.
Defined.

(** The two [aead_new] agree: for the globals the import block of
    [crypto_encrypt.py] sets, [aead_new] of [crypto_decrypt.py], given the
    identifier [AEAD], makes the same call and returns the same cipher as
    [aead_new] of [crypto_encrypt.py], together with [NonceLen]. *)
Theorem decrypt_aead_new_follows_encrypt
        (rt : runtime) (w0 w1 w : world) (g : Encrypt.globals) (key : bytes) :
  Encrypt.imports rt w0 = (Ok g, w1) ->
  Decrypt.aead_new rt (JStr (Encrypt.AEAD g)) key w
  = (match fst (Encrypt.aead_new rt g key w) with
     | Ok c => Ok (c, Encrypt.NonceLen g)
     | Raise e => Raise e
     end,
     snd (Encrypt.aead_new rt g key w)).
Proof.
  unfold Encrypt.imports.
  destruct (have_xchacha rt) eqn:Hx.
  - intros H. apply pair_inj in H. destruct H as [H _].
    apply Ok_inj in H. subst g.
    unfold Decrypt.aead_new, Encrypt.aead_new.
    cbn [Encrypt.AEAD Encrypt.NonceLen json_eq_str].
    change (pystr_eqb (py "xchacha20poly1305") (py "xchacha20poly1305"))
      with true.
    cbv iota. rewrite Hx.
    unfold bind, construct, record, lift, ret.
    destruct (aead_init rt XChaCha20Poly1305 key) as [[]|e]; reflexivity.
  - destruct (have_chacha rt) eqn:Hc.
    + run. intros H. apply pair_inj in H. destruct H as [H _].
      apply Ok_inj in H. subst g.
      unfold Decrypt.aead_new, Encrypt.aead_new.
      cbn [Encrypt.AEAD Encrypt.NonceLen json_eq_str].
      change (pystr_eqb (py "chacha20poly1305") (py "xchacha20poly1305"))
        with false.
      change (pystr_eqb (py "chacha20poly1305") (py "chacha20poly1305"))
        with true.
      cbv iota. rewrite Hc.
      unfold bind, construct, record, lift, ret.
      destruct (aead_init rt ChaCha20Poly1305 key) as [[]|e]; reflexivity.
    + run. intros H. apply pair_inj in H. destruct H as [H _]. discriminate.
Qed.

Lemma decrypt_aead_new_follows_encrypt_witness :
  Decrypt.aead_new (Toy.rt false true) (JStr (py "chacha20poly1305"))
    (slice Toy.ent 16 32) Toy.start
  = (match fst (Encrypt.aead_new (Toy.rt false true)
                  (Encrypt.Globals (py "chacha20poly1305") 12)
                  (slice Toy.ent 16 32) Toy.start) with
     | Ok c => Ok (c, 12)
     | Raise e => Raise e
     end,
     snd (Encrypt.aead_new (Toy.rt false true)
            (Encrypt.Globals (py "chacha20poly1305") 12)
            (slice Toy.ent 16 32) Toy.start)).
Proof.
  apply (@decrypt_aead_new_follows_encrypt (Toy.rt false true) Toy.start
           (snd (Encrypt.imports (Toy.rt false true) Toy.start)) Toy.start
           (Encrypt.Globals (py "chacha20poly1305") 12)
           (slice Toy.ent 16 32)).
  reflexivity.
Defined.

(** [b64d] of [crypto_decrypt.py] undoes [b64] of [crypto_encrypt.py]:
    [b64] never raises, its text is ASCII and four characters long for every
    three bytes begun, and [b64d] gives the bytes back. *)
Theorem b64d_inverts_b64 (data : bytes) :
  exists text,
    b64 data = Ok text
    /\ Decrypt.b64d (JStr text) = Ok data
    /\ length text = 4 * ((length data + 2) / 3)
    /\ Forall (fun c => (c < 128)%N) text.
Proof.
  exists (b64_text data). split; [apply b64_total|].
  split; [apply b64d_b64_text|]. unfold b64_text.
  split; [rewrite length_map; apply length_b64encode|].
  apply Forall_map.
  induction data as [|a|a b|a b c l IH] using list_ind3;
    cbn [b64encode];
    repeat match goal with
           | |- Forall _ [] => constructor
           | |- Forall _ (b64_pad :: _) =>
               constructor; [vm_compute; reflexivity|]
           | |- Forall _ (b64_char _ :: _) =>
               constructor; [apply N.ltb_lt, b64_char_ascii|]
           end; assumption.
Qed.



(** What a successful run of [crypto_encrypt.py] draws and how it keys its
    three encryptions (lines 50 to 74).  The salt, the vault key, the vault
    nonce, the DEK, the DEK nonce and the payload nonce are, in this order,
    consecutive pieces of one stretch of the entropy source, of 16, 32, n,
    32, n and n bytes, n being the nonce length of the class: no byte is
    used twice.  The master key is derived from the password and the salt;
    the vault key is encrypted under the master key, the DEK under the
    vault key and the payload under the DEK, each with its own nonce and
    no associated data; and these are all the runtime calls of the run. *)
Theorem seal_draws_fresh_entropy (rt : runtime) (w w1 : world) :
  Encrypt.script rt w = (Ok 0%Z, w1) ->
  exists salt vault_key nonce_vault dek nonce_dekwrap nonce_payload
         password master_key plaintext vault_key_enc ct_dekwrap ciphertext,
    salt ++ vault_key ++ nonce_vault ++ dek ++ nonce_dekwrap ++ nonce_payload
    = slice (entropy w) (drawn w) (80 + 3 * nonce_size (class_of rt))
    /\ length salt = 16 /\ length vault_key = 32 /\ length dek = 32
    /\ length nonce_vault = nonce_size (class_of rt)
    /\ length nonce_dekwrap = nonce_size (class_of rt)
    /\ length nonce_payload = nonce_size (class_of rt)
    /\ utf8_encode (typed_password w) = Ok password
    /\ utf8_encode (rstrip_newline (stdin_line w)) = Ok plaintext
    /\ scrypt rt password salt 16384 8 1 32 = Ok master_key
    /\ aead_encrypt rt (class_of rt) master_key nonce_vault vault_key []
       = Ok vault_key_enc
    /\ aead_encrypt rt (class_of rt) vault_key nonce_dekwrap dek []
       = Ok ct_dekwrap
    /\ aead_encrypt rt (class_of rt) dek nonce_payload plaintext []
       = Ok ciphertext
    /\ calls w1
       = calls w
         ++ [Urandom 16;
             Scrypt password salt 16384 8 1 32;
             Urandom 32;
             Urandom (nonce_size (class_of rt));
             AeadNew (class_of rt) master_key;
             AeadEncrypt (class_of rt) master_key nonce_vault vault_key [];
             Urandom 32;
             Urandom (nonce_size (class_of rt));
             AeadNew (class_of rt) vault_key;
             AeadEncrypt (class_of rt) vault_key nonce_dekwrap dek [];
             Urandom (nonce_size (class_of rt));
             AeadNew (class_of rt) dek;
             AeadEncrypt (class_of rt) dek nonce_payload plaintext []].
Proof.
  intros Hrun. apply seal_inversion in Hrun.
  destruct Hrun as (s & Hs & _ & _ & Hcalls & _).
  destruct (seals_facts Hs) as (Hav & Lnv & Lnd & Lnp & Lvk & Ldek & Lsalt).
  destruct Hs as (_ & Ha & HP & HP0 & HW0 & HW & Esalt & Hmk & Evk & Env & Imk
                  & Hvke & Edek & End & Ivk & Hctd & Enp & Idek & Hct).
  rewrite imported_calls in Hcalls. unfold seal_calls in Hcalls.
  rewrite Ha in *.
  exists (s_kdf_salt s), (s_vault_key s), (s_nonce_vault s), (s_dek s),
    (s_nonce_dekwrap s), (s_nonce_payload s), (s_password s),
    (s_master_key s), (s_plaintext s), (s_vault_key_enc s),
    (s_ct_dekwrap s), (s_ciphertext s).
  split.
  { rewrite Esalt, Evk, Env, Edek, End, Enp.
    set (n := nonce_size (class_of rt)).
    replace (80 + 3 * n) with (16 + (32 + (n + (32 + (n + n))))) by lia.
    rewrite !slice_app.
    repeat (f_equal; try (f_equal; lia)). }
  repeat (split; [assumption|]). assumption.
Qed.

Lemma seal_draws_fresh_entropy_witness :
  exists salt vault_key nonce_vault dek nonce_dekwrap nonce_payload
         password master_key plaintext vault_key_enc ct_dekwrap ciphertext,
    salt ++ vault_key ++ nonce_vault ++ dek ++ nonce_dekwrap ++ nonce_payload
    = slice (entropy Toy.start) (drawn Toy.start)
        (80 + 3 * nonce_size (class_of (Toy.rt true true)))
    /\ length salt = 16 /\ length vault_key = 32 /\ length dek = 32
    /\ length nonce_vault = nonce_size (class_of (Toy.rt true true))
    /\ length nonce_dekwrap = nonce_size (class_of (Toy.rt true true))
    /\ length nonce_payload = nonce_size (class_of (Toy.rt true true))
    /\ utf8_encode (typed_password Toy.start) = Ok password
    /\ utf8_encode (rstrip_newline (stdin_line Toy.start)) = Ok plaintext
    /\ scrypt (Toy.rt true true) password salt 16384 8 1 32 = Ok master_key
    /\ aead_encrypt (Toy.rt true true) (class_of (Toy.rt true true))
         master_key nonce_vault vault_key []
       = Ok vault_key_enc
    /\ aead_encrypt (Toy.rt true true) (class_of (Toy.rt true true))
         vault_key nonce_dekwrap dek []
       = Ok ct_dekwrap
    /\ aead_encrypt (Toy.rt true true) (class_of (Toy.rt true true))
         dek nonce_payload plaintext []
       = Ok ciphertext
    /\ calls (Toy.sealed true)
       = calls Toy.start
         ++ [Urandom 16;
             Scrypt password salt 16384 8 1 32;
             Urandom 32;
             Urandom (nonce_size (class_of (Toy.rt true true)));
             AeadNew (class_of (Toy.rt true true)) master_key;
             AeadEncrypt (class_of (Toy.rt true true)) master_key nonce_vault
               vault_key [];
             Urandom 32;
             Urandom (nonce_size (class_of (Toy.rt true true)));
             AeadNew (class_of (Toy.rt true true)) vault_key;
             AeadEncrypt (class_of (Toy.rt true true)) vault_key
               nonce_dekwrap dek [];
             Urandom (nonce_size (class_of (Toy.rt true true)));
             AeadNew (class_of (Toy.rt true true)) dek;
             AeadEncrypt (class_of (Toy.rt true true)) dek nonce_payload
               plaintext []].
Proof.
  apply (@seal_draws_fresh_entropy (Toy.rt true true) Toy.start
           (Toy.sealed true)).
  vm_compute. reflexivity.
Defined.
